(** * The crypto-news enrichment pipeline of [ci.py]

    A shallow embedding of [CryptoNewsProcessor] and [main]: the two news
    fetchers, the enricher, the illustrator, the load / append / save of the
    per-day record collection and the per-symbol driver.

    The external collaborators (HTTP, the generation service, the clock and
    the fallible file-system calls) are oracles over an abstract world [W];
    every theorem is stated for all worlds and all oracles.  Python
    exceptions are the left summand of an error/state monad, and
    [try ... except Exception] is [try_except].

    Typing.  A decoded JSON body is an object whose members are arrays of
    items, as the [List[Dict]] of the signatures has it; the items map
    keys to scalars.  The records of a predictions file have the seven keys
    [process_news] writes, with an integer [id].  What [yaml.dump] writes,
    [yaml.safe_load] reads back; [yaml.dump] represents the whole document
    before it writes, so a dump that raises leaves the file as [open]
    truncated it.  A string is the UTF-8 encoding of the Python string: a
    character is one to four bytes.

    The disk.  [files] maps a path to what it holds, for every file but the
    log: the records [self.logger] hands to its handlers (the file
    crypto_news_processor.log and the console) are kept apart, in [logged],
    in the order of the calls.  The line a handler writes for a record also
    carries the time of the clock, and the libraries log through the same
    handlers; neither is modelled. *)

From stdpp Require Import gmap strings list pretty sorting.
From Stdlib Require Import Ascii Sorting.Sorted.

Local Open Scope Z_scope.

(** ** Python values *)

(** An exception: its class name and [str(e)].  Only subclasses of
    [Exception] are modelled, which is what [except Exception] catches. *)
Inductive exn := Exn (cls msg : string).

Definition exn_str (e : exn) : string := match e with Exn _ m => m end.

Definition KeyError (k : string) : exn := Exn "KeyError" ("'" +:+ k +:+ "'").
Definition IndexError : exn := Exn "IndexError" "list index out of range".
Definition TypeError (msg : string) : exn := Exn "TypeError" msg.
Definition AttributeError (attr : string) : exn :=
  Exn "AttributeError" ("'NoneType' object has no attribute '" +:+ attr +:+ "'").
Definition MissingSchema : exn :=
  Exn "MissingSchema"
    "Invalid URL 'None': No scheme supplied. Perhaps you meant https://None?".
Definition FileNotFoundError (p : string) : exn :=
  Exn "FileNotFoundError" ("[Errno 2] No such file or directory: '" +:+ p +:+ "'").
Definition UnicodeDecodeError : exn :=
  Exn "UnicodeDecodeError"
    "'utf-8' codec can't decode byte 0x89 in position 0: invalid start byte".

(** The scalars a decoded JSON or YAML field can hold. *)
Inductive pyval :=
  | PNone
  | PBool (b : bool)
  | PInt (z : Z)
  | PStr (s : string).

#[global] Instance pyval_eq_dec : EqDecision pyval.
Proof. solve_decision. Defined.

(** [str(v)], as an f-string applies it. *)
Definition py_str (v : pyval) : string :=
  match v with
  | PNone => "None"
  | PBool true => "True"
  | PBool false => "False"
  | PInt z => pretty z
  | PStr s => s
  end.

(** [v == s] for a string literal [s]. *)
Definition py_eq_str (v : pyval) (s : string) : bool :=
  match v with
  | PStr t => String.eqb t s
  | _ => false
  end.

(** A [Dict] keeps its insertion order. *)
Definition Dict := list (string * pyval).

Fixpoint dict_lookup (d : Dict) (k : string) : option pyval :=
  match d with
  | [] => None
  | (k', v) :: d' => if String.eqb k' k then Some v else dict_lookup d' k
  end.

(** [max(l, default=d)] *)
Definition py_max (l : list Z) (default : Z) : Z :=
  match l with
  | [] => default
  | x :: r => foldl Z.max x r
  end.

(** [str.strip()]: leading and trailing whitespace removed.  The
    whitespace of Python is U+0009 to U+000D and U+001C to U+0020 (one
    byte), U+0085 and U+00A0 (two bytes: C2 85, C2 A0), and U+1680, U+2000
    to U+200A, U+2028, U+2029, U+202F, U+205F and U+3000 (three bytes:
    E1 9A 80, E2 80 80 to E2 80 8A, E2 80 A8, E2 80 A9, E2 80 AF, E2 81 9F,
    E3 80 80). *)
Definition is_space (a : ascii) : bool :=
  let n := N_of_ascii a in
  ((9 <=? n) && (n <=? 13) || (28 <=? n) && (n <=? 32))%N.

Definition is_space2 (a b : ascii) : bool :=
  let m := N_of_ascii a in
  let n := N_of_ascii b in
  ((m =? 194) && ((n =? 133) || (n =? 160)))%N.

Definition is_space3 (a b c : ascii) : bool :=
  let l := N_of_ascii a in
  let m := N_of_ascii b in
  let n := N_of_ascii c in
  ((l =? 225) && (m =? 154) && (n =? 128)
   || (l =? 226) && (m =? 128)
      && ((128 <=? n) && (n <=? 138) || (n =? 168) || (n =? 169) || (n =? 175))
   || (l =? 226) && (m =? 129) && (n =? 159)
   || (l =? 227) && (m =? 128) && (n =? 128))%N.

(** The list without the longest prefix made of characters that [sp1],
    [sp2] or [sp3] accept, by their one, two or three bytes. *)
Fixpoint strip_front (sp1 : ascii -> bool) (sp2 : ascii -> ascii -> bool)
    (sp3 : ascii -> ascii -> ascii -> bool) (l : list ascii) : list ascii :=
  match l with
  | [] => []
  | a :: r =>
      if sp1 a then strip_front sp1 sp2 sp3 r
      else match r with
           | [] => l
           | b :: r2 =>
               if sp2 a b then strip_front sp1 sp2 sp3 r2
               else match r2 with
                    | [] => l
                    | c :: r3 =>
                        if sp3 a b c then strip_front sp1 sp2 sp3 r3 else l
                    end
           end
  end.

Definition lstrip_list (l : list ascii) : list ascii :=
  strip_front is_space is_space2 is_space3 l.

(** The same from the end, on the reversed bytes: a character is met last
    byte first. *)
Definition rstrip_reversed (l : list ascii) : list ascii :=
  strip_front is_space (fun a b => is_space2 b a) (fun a b c => is_space3 c b a) l.

Definition py_strip (s : string) : string :=
  String.string_of_list_ascii
    (rev (rstrip_reversed (rev (lstrip_list (String.list_ascii_of_string s))))).

(** [s[:n]] and [len(s)]: the characters are counted, not the bytes; a
    byte of the form 10xxxxxx continues the character before it. *)
Definition is_continuation (a : ascii) : bool :=
  let n := N_of_ascii a in
  ((128 <=? n) && (n <? 192))%N.

Fixpoint take_chars (n : nat) (l : list ascii) : list ascii :=
  match l with
  | [] => []
  | a :: r =>
      if is_continuation a then a :: take_chars n r
      else match n with
           | O => []
           | S n' => a :: take_chars n' r
           end
  end.

Definition py_prefix (n : nat) (s : string) : string :=
  String.string_of_list_ascii (take_chars n (String.list_ascii_of_string s)).

Fixpoint count_chars (l : list ascii) : nat :=
  match l with
  | [] => O
  | a :: r => if is_continuation a then count_chars r else S (count_chars r)
  end.

Definition py_len (s : string) : nat := count_chars (String.list_ascii_of_string s).

(** [os.path.join(a, b)] on a POSIX system. *)
Definition ends_with_sep (s : string) : bool :=
  match rev (String.list_ascii_of_string s) with
  | a :: _ => Ascii.eqb a "/"%char
  | [] => false
  end.

Definition starts_with_sep (s : string) : bool :=
  match s with
  | String a _ => Ascii.eqb a "/"%char
  | EmptyString => false
  end.

Definition os_path_join (a b : string) : string :=
  if starts_with_sep b then b
  else if String.eqb a "" || ends_with_sep a then a +:+ b
  else a +:+ "/" +:+ b.

(** [os.path.dirname(p)] on a POSIX system: the part up to the last
    separator, without its trailing separators unless it is made of them. *)
Fixpoint upto_last_sep (rl : list ascii) : list ascii :=
  match rl with
  | [] => []
  | a :: r => if Ascii.eqb a "/"%char then rl else upto_last_sep r
  end.

Fixpoint rstrip_sep (rl : list ascii) : list ascii :=
  match rl with
  | [] => []
  | a :: r => if Ascii.eqb a "/"%char then rstrip_sep r else rl
  end.

Definition os_path_dirname (p : string) : string :=
  let head := upto_last_sep (rev (String.list_ascii_of_string p)) in
  match rstrip_sep head with
  | [] => String.string_of_list_ascii (rev head)
  | stripped => String.string_of_list_ascii (rev stripped)
  end.

(** [mapping.get(k, default)] on a dict of strings. *)
Fixpoint mapping_get (m : list (string * string)) (k default : string) : string :=
  match m with
  | [] => default
  | (k', v) :: m' => if String.eqb k' k then v else mapping_get m' k default
  end.

Definition newline : string := String (ascii_of_nat 10) "".

(** ** Responses of the external services *)

(** [requests.Response]: the status and what [.json()] gives, an object
    whose members are arrays of items ([List[Dict]] in the signatures), or
    the exception it raises on a body that is not JSON. *)
Record Response := {
  status_code : Z;
  json : exn + list (string * list Dict)
}.

(** [body.get(k, [])] *)
Fixpoint body_get (body : list (string * list Dict)) (k : string) : list Dict :=
  match body with
  | [] => []
  | (k', v) :: body' => if String.eqb k' k then v else body_get body' k
  end.

(** A chat completion: [choices[i].message.content] for each choice. *)
Record ChatCompletion := { choices : list (option string) }.

(** An images response: [data[i].url] for each image. *)
Record ImagesResponse := { data : list (option string) }.

(** ** The stored collection *)

(** One record of [predictions], the keys in the order they are written. *)
Record EnrichedRecord := {
  id : Z;
  title : string;
  preview : string;
  fullContent : pyval;
  image : string;
  sourcelink : pyval;
  sentiment : string
}.

(** What [yaml.safe_load] returns: a falsy value ([None] for an empty
    file), a mapping that has a [predictions] list or lacks the key, or a
    truthy value that is no mapping (a scalar, a sequence), of which only
    the message of the [TypeError] its subscript raises matters: it names
    the type of the value. *)
Inductive yaml_value :=
  | YFalsy
  | YMap (predictions : option (list EnrichedRecord))
  | YOther (subscript_error : string).

Inductive file :=
  | YamlDoc (v : yaml_value)
  | Broken (e : exn)      (* [open] or [yaml.safe_load] raises [e] *)
  | ImageFile.            (* a downloaded chart *)

(** ** The world and the monad *)

(** The calls made to the outside, in the order they happen. *)
Inductive call :=
  | CGet (url : string) (params : list (string * string))
  | CClient
  | CChat (model prompt : string)
  | CModelsList
  | CImagesGenerate (model prompt : string)
  | CMakedirs (path : string)
  | COpenWrite (path : string)
  | CCopyStream (path : string)
  | CDump (path : string)
  | CLoggingConfig.

(** A record handed to [self.logger]: its level and its message. *)
Inductive log_level := DEBUG | INFO | WARNING | ERROR.

Record log_record := {
  levelname : log_level;
  message : string
}.

Record Services (W : Type) := {
  today : W -> string;                       (* strftime("%m%d%Y") of now *)
  http_get : string -> list (string * string) -> W -> (exn + Response) * W;
  openai_client : W -> (exn + unit) * W;
  chat_create : string -> string -> W -> (exn + ChatCompletion) * W;
  models_list : W -> (exn + unit) * W;
  str_of_models : W -> string;               (* str() of the page just listed *)
  images_generate : string -> string -> W -> (exn + ImagesResponse) * W;
  str_of_response : W -> string;             (* str() of the response just received *)
  fs_makedirs : string -> W -> (exn + unit) * W;
  fs_open_write : string -> W -> (exn + unit) * W;
  fs_copy_stream : string -> W -> (exn + unit) * W;
  yaml_dump : string -> W -> (exn + unit) * W;
  logging_basic_config : W -> (exn + unit) * W
}.
Arguments today {W}.
Arguments http_get {W}.
Arguments openai_client {W}.
Arguments chat_create {W}.
Arguments models_list {W}.
Arguments str_of_models {W}.
Arguments str_of_response {W}.
Arguments yaml_dump {W}.
Arguments images_generate {W}.
Arguments fs_makedirs {W}.
Arguments fs_open_write {W}.
Arguments fs_copy_stream {W}.
Arguments logging_basic_config {W}.

Record state (W : Type) := {
  world : W;
  files : gmap string file;
  stdout : list string;
  calls : list call;
  logged : list log_record
}.
Arguments world {W}.
Arguments files {W}.
Arguments stdout {W}.
Arguments calls {W}.
Arguments logged {W}.
Arguments Build_state {W}.

Definition M (W A : Type) : Type := state W -> (exn + A) * state W.

Section Monad.
Context {W : Type}.

Definition ret {A} (a : A) : M W A := fun s => (inr a, s).

Definition raise {A} (e : exn) : M W A := fun s => (inl e, s).

Definition bind {A B} (m : M W A) (k : A -> M W B) : M W B :=
  fun s =>
    match m s with
    | (inr a, s') => k a s'
    | (inl e, s') => (inl e, s')
    end.

(** [try: body except Exception as e: handler(e)] *)
Definition try_except {A} (body : M W A) (handler : exn -> M W A) : M W A :=
  fun s =>
    match body s with
    | (inr a, s') => (inr a, s')
    | (inl e, s') => handler e s'
    end.

Definition print (line : string) : M W unit :=
  fun s => (inr tt, Build_state (world s) (files s) (stdout s ++ [line]) (calls s)
                      (logged s)).

(** [self.logger.debug(message)] and the like: the record goes to the
    handlers; a handler that fails reports it on the console and does not
    raise. *)
Definition logger (lvl : log_level) (message : string) : M W unit :=
  fun s => (inr tt, Build_state (world s) (files s) (stdout s) (calls s)
                      (logged s ++ [{| levelname := lvl; message := message |}])).

(** An oracle call: the world moves on and the call is recorded. *)
Definition invoke {A} (c : call) (f : W -> (exn + A) * W) : M W A :=
  fun s =>
    let (r, w) := f (world s) in
    (r, Build_state w (files s) (stdout s) (calls s ++ [c]) (logged s)).

Definition read_world {A} (f : W -> A) : M W A := fun s => (inr (f (world s)), s).

Definition get_file (path : string) : M W (option file) :=
  fun s => (inr (files s !! path), s).

(** [os.path.exists(path)] *)
Definition os_path_exists (path : string) : M W bool :=
  fun s => (inr match files s !! path with Some _ => true | None => false end, s).

Definition put_file (path : string) (f : file) : M W unit :=
  fun s => (inr tt, Build_state (world s) (<[path := f]> (files s)) (stdout s) (calls s)
                      (logged s)).
End Monad.

Notation "'let*' x := m 'in' k" := (bind m (fun x => k))
  (at level 10, x name, m at level 100, k at level 200, only parsing).
Notation "'let*' ' p := m 'in' k" := (bind m (fun x => let 'p := x in k))
  (at level 10, p pattern, m at level 100, k at level 200, only parsing).

(** ** [CryptoNewsProcessor] *)

Section Processor.
Context {W : Type} (svc : Services W).

Definition coingecko_base_url : string := "https://api.coingecko.com/api/v3".
Definition cryptopanic_base_url : string := "https://cryptopanic.com/api/free/v1/posts/".
Definition cryptopanic_api_key : string := "".

Definition requests_get (url : string) (params : list (string * string)) : M W Response :=
  invoke (CGet url params) (http_get svc url params).

(** [response.json()] *)
Definition response_json (r : Response) : M W (list (string * list Dict)) :=
  match json r with
  | inr body => ret body
  | inl e => raise e
  end.

(** [d[k]] *)
Definition getitem (d : Dict) (k : string) : M W pyval :=
  match dict_lookup d k with
  | Some v => ret v
  | None => raise (KeyError k)
  end.

Definition get_coingecko_news (token : string) : M W (list Dict) :=
  let url := coingecko_base_url +:+ "/news" in
  let params := [("filter", token)] in
  let* response := requests_get url params in
  if (status_code response =? 200)%Z then
    let* body := response_json response in
    ret (take 10 (body_get body "data"))
  else ret [].

(** The comprehension [[news for news in results if news["kind"] == "news"]]. *)
Fixpoint keep_news (results : list Dict) : M W (list Dict) :=
  match results with
  | [] => ret []
  | news :: rest =>
      let* kind := getitem news "kind" in
      let* kept := keep_news rest in
      ret (if py_eq_str kind "news" then news :: kept else kept)
  end.

Definition get_cryptopanic_news (token : string) : M W (list Dict) :=
  let params := [("auth_token", cryptopanic_api_key);
                 ("currencies", token);
                 ("kind", "news")] in
  let* response := requests_get cryptopanic_base_url params in
  let* _ := print ("<Response [" +:+ pretty (status_code response) +:+ "]>") in
  if (status_code response =? 200)%Z then
    let* body := response_json response in
    keep_news (body_get body "results")
  else ret [].

(** *** Enricher *)

Definition OpenAI : M W unit := invoke CClient (openai_client svc).

Definition chat_completions_create (model prompt : string) : M W ChatCompletion :=
  invoke (CChat model prompt) (chat_create svc model prompt).

(** [r.choices[0].message.content.strip()] *)
Definition first_content_stripped (r : ChatCompletion) : M W string :=
  match choices r with
  | [] => raise IndexError
  | None :: _ => raise (AttributeError "strip")
  | Some content :: _ => ret (py_strip content)
  end.

Definition sentiment_mapping : list (string * string) :=
  [("Very Bullish", "VeryBullish"); ("Very Bearish", "VeryBearish")].

Definition summary_prompt (title : pyval) : string :=
  "Summarize this title in exactly 5 words: " +:+ py_str title.

Definition sentiment_prompt (title description : pyval) : string :=
  "Analyze the sentiment of this news article. Title: " +:+ py_str title +:+ newline
  +:+ "            Description: " +:+ py_str description +:+ newline
  +:+ "            Respond with exactly one of these: Very Bullish, Bullish, Neutral, Bearish, Very Bearish".

Definition get_sentiment_and_summary (title description : pyval) : M W (string * string) :=
  try_except
    (let* _ := OpenAI in
     let* summary_response := chat_completions_create "gpt-4o" (summary_prompt title) in
     let* five_word_summary := first_content_stripped summary_response in
     let* sentiment_response :=
       chat_completions_create "gpt-4o" (sentiment_prompt title description) in
     let* sentiment := first_content_stripped sentiment_response in
     let formatted_sentiment := mapping_get sentiment_mapping sentiment sentiment in
     ret (five_word_summary, formatted_sentiment))
    (fun e =>
       let* _ := print ("Error in OpenAI API call: " +:+ exn_str e) in
       ret ("Error generating summary", "Neutral")).

(** *** Illustrator *)

Definition image_prompt (prompt : pyval) : string :=
  "Create a professional financial chart or visualization related to: "
  +:+ py_str prompt +:+ ". Style: Modern, clean, financial.".

Definition client_images_generate (model prompt : string) : M W ImagesResponse :=
  invoke (CImagesGenerate model prompt) (images_generate svc model prompt).

(** [response.data[0].url] *)
Definition first_url (r : ImagesResponse) : M W (option string) :=
  match data r with
  | [] => raise IndexError
  | url :: _ => ret url
  end.

(** [requests.get(image_url, stream=True)]; a [None] url has no scheme. *)
Definition requests_get_stream (image_url : option string) : M W Response :=
  match image_url with
  | Some url => requests_get url []
  | None => raise MissingSchema
  end.

Definition os_makedirs (path : string) : M W unit :=
  invoke (CMakedirs path) (fs_makedirs svc path).

(** [with open(save_path, 'wb') as f: shutil.copyfileobj(img_response.raw, f)] *)
Definition write_image (save_path : string) : M W unit :=
  let* _ := invoke (COpenWrite save_path) (fs_open_write svc save_path) in
  let* _ := put_file save_path ImageFile in
  invoke (CCopyStream save_path) (fs_copy_stream svc save_path).

(** [image_url] in an f-string. *)
Definition url_str (image_url : option string) : string :=
  match image_url with
  | Some url => url
  | None => "None"
  end.

Definition generate_and_save_image (prompt : pyval) (save_path : string) : M W string :=
  try_except
    (let* _ := logger INFO ("Attempting to generate image with prompt: "
                            +:+ py_str prompt) in
     let* _ := OpenAI in
     let* _ := invoke CModelsList (models_list svc) in
     let* models := read_world (str_of_models svc) in
     let* _ := logger DEBUG ("Available OpenAI models: " +:+ models) in
     let* response :=
       try_except
         (client_images_generate "dall-e-3" (image_prompt prompt))
         (fun e =>
            let* _ := logger WARNING ("DALL-E 3 failed, trying DALL-E 2: "
                                      +:+ exn_str e) in
            client_images_generate "dall-e-2" (image_prompt prompt)) in
     let* shown := read_world (str_of_response svc) in
     let* _ := logger DEBUG ("OpenAI image generation response: " +:+ shown) in
     let* image_url := first_url response in
     let* _ := logger INFO ("Successfully generated image URL: "
                            +:+ url_str image_url) in
     let* img_response := requests_get_stream image_url in
     if (status_code img_response =? 200)%Z then
       let* _ := os_makedirs (os_path_dirname save_path) in
       let* _ := write_image save_path in
       let* _ := logger INFO ("Successfully saved image to: " +:+ save_path) in
       ret save_path
     else
       let* _ := logger ERROR ("Failed to download image. Status code: "
                               +:+ pretty (status_code img_response)) in
       ret "")
    (fun e =>
       let* _ := logger ERROR ("Error in image generation: " +:+ exn_str e) in
       let* _ := logger ERROR ("Error details: " +:+ exn_str e) in
       ret "").

(** *** RecordStore and the pipeline *)

(** [with open(yaml_path, 'r') as f: yaml.safe_load(f)] *)
Definition safe_load_file (yaml_path : string) : M W yaml_value :=
  let* f := get_file yaml_path in
  match f with
  | Some (YamlDoc v) => ret v
  | Some (Broken e) => raise e
  | Some ImageFile => raise UnicodeDecodeError
  | None => raise (FileNotFoundError yaml_path)
  end.

(** [data['predictions']] after [data = loaded or {"predictions": []}] *)
Definition predictions_of (loaded : yaml_value) : M W (list EnrichedRecord) :=
  match loaded with
  | YFalsy => ret []
  | YMap (Some l) => ret l
  | YMap None => raise (KeyError "predictions")
  | YOther msg => raise (TypeError msg)
  end.

(** Lines 169 to 176: the collection and [current_id]. *)
Definition load_predictions (yaml_path : string) : M W (list EnrichedRecord * Z) :=
  let* found := os_path_exists yaml_path in
  if found then
    let* loaded := safe_load_file yaml_path in
    let* predictions := predictions_of loaded in
    ret (predictions, py_max (map id predictions) 0)
  else ret ([], 0).

(** [with open(yaml_path, 'w') as f: yaml.dump(data, f, sort_keys=False)]:
    the open leaves an empty file, which the dump fills. *)
Definition save_predictions (yaml_path : string) (predictions : list EnrichedRecord) : M W unit :=
  let* _ := invoke (COpenWrite yaml_path) (fs_open_write svc yaml_path) in
  let* _ := put_file yaml_path (YamlDoc YFalsy) in
  let* _ := invoke (CDump yaml_path) (yaml_dump svc yaml_path) in
  put_file yaml_path (YamlDoc (YMap (Some predictions))).

Definition image_field (token current_date : string) (current_id : Z) : string :=
  "news/" +:+ token +:+ "-USDT/" +:+ current_date +:+ "/" +:+ pretty current_id +:+ "/chart.png".

(** [for x in items: acc = body acc x] *)
Fixpoint for_each {A B} (body : B -> A -> M W B) (items : list A) (acc : B) : M W B :=
  match items with
  | [] => ret acc
  | x :: rest =>
      let* acc' := body acc x in
      for_each body rest acc'
  end.

(** The body of the loop over the CoinGecko items; the accumulator is
    [current_id] and [data['predictions']]. *)
Definition coingecko_body (token current_date base_dir : string)
    (acc : Z * list EnrichedRecord) (news : Dict) : M W (Z * list EnrichedRecord) :=
  let current_id := fst acc + 1 in
  let img_dir := os_path_join base_dir (pretty current_id) in
  let* _ := os_makedirs img_dir in
  let* news_title := getitem news "title" in
  let* news_description := getitem news "description" in
  let* '(summary, sentiment) := get_sentiment_and_summary news_title news_description in
  let image_path := os_path_join img_dir "chart.png" in
  let* news_title := getitem news "title" in
  let* _ := generate_and_save_image news_title image_path in
  let* news_site := getitem news "news_site" in
  let* news_description := getitem news "description" in
  let* news_url := getitem news "url" in
  let news_entry :=
    {| id := current_id;
       title := py_str news_site +:+ " - " +:+ sentiment;
       preview := summary;
       fullContent := news_description;
       image := image_field token current_date current_id;
       sourcelink := news_url;
       sentiment := sentiment |} in
  ret (current_id, snd acc ++ [news_entry]).

(** The body of the loop over the CryptoPanic items. *)
Definition cryptopanic_body (token current_date base_dir : string)
    (acc : Z * list EnrichedRecord) (news : Dict) : M W (Z * list EnrichedRecord) :=
  let current_id := fst acc + 1 in
  let img_dir := os_path_join base_dir (pretty current_id) in
  let* _ := os_makedirs img_dir in
  let* news_title := getitem news "title" in
  let* news_title' := getitem news "title" in
  let* '(summary, sentiment) := get_sentiment_and_summary news_title news_title' in
  let image_path := os_path_join img_dir "chart.png" in
  let* news_title := getitem news "title" in
  let* _ := generate_and_save_image news_title image_path in
  let* news_domain := getitem news "domain" in
  let* news_title := getitem news "title" in
  let* news_url := getitem news "url" in
  let news_entry :=
    {| id := current_id;
       title := py_str news_domain +:+ " - " +:+ sentiment;
       preview := summary;
       fullContent := news_title;
       image := image_field token current_date current_id;
       sourcelink := news_url;
       sentiment := sentiment |} in
  ret (current_id, snd acc ++ [news_entry]).

Definition base_dir_of (token current_date : string) : string :=
  "news/" +:+ token +:+ "-USDT/" +:+ current_date.

Definition yaml_path_of (token current_date : string) : string :=
  os_path_join (base_dir_of token current_date) "predictions.yaml".

Definition process_news (token : string) : M W unit :=
  let* current_date := read_world (today svc) in
  let base_dir := base_dir_of token current_date in
  let* _ := os_makedirs base_dir in
  let yaml_path := os_path_join base_dir "predictions.yaml" in
  let* '(predictions, current_id) := load_predictions yaml_path in
  let* coingecko_news := get_coingecko_news token in
  let* acc := for_each (coingecko_body token current_date base_dir)
                       coingecko_news (current_id, predictions) in
  let* cryptopanic_news := get_cryptopanic_news token in
  let* acc := for_each (cryptopanic_body token current_date base_dir)
                       cryptopanic_news acc in
  save_predictions yaml_path (snd acc).

(** *** PipelineDriver *)

(** The loop of [main] over its list of symbols. *)
Fixpoint main_loop (tokens : list string) : M W unit :=
  match tokens with
  | [] => ret tt
  | token :: rest =>
      let* _ :=
        try_except
          (let* _ := process_news token in
           print ("Successfully processed news for " +:+ token))
          (fun e => print ("Error processing " +:+ token +:+ " news: " +:+ exn_str e)) in
      main_loop rest
  end.

(** [CryptoNewsProcessor(openai_api_key)]: the fields are constants; the
    logging set-up opens the log file for the handler. *)
Definition CryptoNewsProcessor_init : M W unit :=
  invoke CLoggingConfig (logging_basic_config svc).

Definition main : M W unit :=
  let* _ := CryptoNewsProcessor_init in
  main_loop ["BTC"].
End Processor.

Arguments get_coingecko_news {W} svc token.
Arguments get_cryptopanic_news {W} svc token.
Arguments keep_news {W} results.
Arguments get_sentiment_and_summary {W} svc title description.
Arguments generate_and_save_image {W} svc prompt save_path.
Arguments load_predictions {W} yaml_path.
Arguments save_predictions {W} svc yaml_path predictions.
Arguments process_news {W} svc token.
Arguments main_loop {W} svc tokens.
Arguments CryptoNewsProcessor_init {W} svc.
Arguments main {W} svc.

(** ** Scripted worlds

    Services that answer each request from a fixed table; the world itself
    carries nothing.  They give the concrete runs used below. *)

Module Scripted.
Record script := {
  date : string;
  get : string -> exn + Response;
  client : exn + unit;
  chat : string -> exn + ChatCompletion;
  models : exn + unit;
  images : string -> exn + ImagesResponse;
  makedirs : string -> exn + unit;
  open_write : string -> exn + unit;
  copy_stream : string -> exn + unit;
  dump : string -> exn + unit;
  logging : exn + unit
}.

Definition services (sc : script) : Services unit := {|
  today := fun _ => date sc;
  http_get := fun url _ w => (get sc url, w);
  openai_client := fun w => (client sc, w);
  chat_create := fun _ prompt w => (chat sc prompt, w);
  models_list := fun w => (models sc, w);
  str_of_models := fun _ => "SyncPage[Model](data=[], object='list')";
  images_generate := fun model _ w => (images sc model, w);
  str_of_response := fun _ => "ImagesResponse(created=0, data=[Image(url='...')])";
  fs_makedirs := fun path w => (makedirs sc path, w);
  fs_open_write := fun path w => (open_write sc path, w);
  fs_copy_stream := fun path w => (copy_stream sc path, w);
  yaml_dump := fun path w => (dump sc path, w);
  logging_basic_config := fun w => (logging sc, w)
|}.

Definition init (fs : gmap string file) : state unit := Build_state tt fs [] [] [].

Definition ConnectionError : exn := Exn "ConnectionError" "Max retries exceeded".
Definition APIError : exn := Exn "APIConnectionError" "Connection error.".
Definition YAMLError : exn := Exn "ScannerError" "mapping values are not allowed here".

Definition ok (items : list (string * list Dict)) : exn + Response :=
  inr {| status_code := 200; json := inr items |}.

Definition btc_item : Dict :=
  [("title", PStr "BTC hits new high"); ("description", PStr "Price surged");
   ("url", PStr "https://example.org/btc"); ("news_site", PStr "CoinDesk")].

Definition panic_item : Dict :=
  [("kind", PStr "news"); ("domain", PStr "example.org");
   ("title", PStr "ETF inflows grow"); ("url", PStr "https://example.org/etf")].

Definition starts_with (p s : string) : bool :=
  String.eqb (String.substring 0 (String.length p) s) p.

(** Every service answers: a one-item feed from provider A, a one-item
    feed from provider B, a summary, a sentiment and a chart. *)
Definition all_up : script := {|
  date := "11032026";
  get := fun url =>
    if String.eqb url "https://api.coingecko.com/api/v3/news"
    then ok [("data", [btc_item])]
    else if String.eqb url "https://cryptopanic.com/api/free/v1/posts/"
    then ok [("results", [panic_item])]
    else ok [];
  client := inr tt;
  chat := fun prompt =>
    if starts_with "Summarize" prompt
    then inr {| choices := [Some " BTC price surged to new high "] |}
    else inr {| choices := [Some "Very Bullish"] |};
  models := inr tt;
  images := fun _ => inr {| data := [Some "https://img.example.org/1.png"] |};
  makedirs := fun _ => inr tt;
  open_write := fun _ => inr tt;
  copy_stream := fun _ => inr tt;
  dump := fun _ => inr tt;
  logging := inr tt
|}.

(** No route to any HTTP host. *)
Definition transport_down : script := {|
  date := date all_up;
  get := fun _ => inl ConnectionError;
  client := client all_up; chat := chat all_up; models := models all_up;
  images := images all_up; makedirs := makedirs all_up;
  open_write := open_write all_up; copy_stream := copy_stream all_up;
  dump := dump all_up;
  logging := logging all_up
|}.

(** Both providers answer 429 with a body that is not JSON. *)
Definition rate_limited : script := {|
  date := date all_up;
  get := fun _ => inr {| status_code := 429;
                         json := inl (Exn "JSONDecodeError" "Expecting value") |};
  client := client all_up; chat := chat all_up; models := models all_up;
  images := images all_up; makedirs := makedirs all_up;
  open_write := open_write all_up; copy_stream := copy_stream all_up;
  dump := dump all_up;
  logging := logging all_up
|}.

(** The generation service is unreachable; the news providers answer. *)
Definition openai_down : script := {|
  date := date all_up;
  get := get all_up;
  client := inr tt;
  chat := fun _ => inl APIError;
  models := inl APIError;
  images := fun _ => inl APIError;
  makedirs := makedirs all_up;
  open_write := open_write all_up; copy_stream := copy_stream all_up;
  dump := dump all_up;
  logging := logging all_up
|}.

(** The primary image model refuses, the secondary answers. *)
Definition primary_down : script := {|
  date := date all_up;
  get := get all_up;
  client := inr tt;
  chat := chat all_up;
  models := inr tt;
  images := fun model =>
    if String.eqb model "dall-e-3" then inl APIError else images all_up model;
  makedirs := makedirs all_up;
  open_write := open_write all_up; copy_stream := copy_stream all_up;
  dump := dump all_up;
  logging := logging all_up
|}.

(** The directory of BTC cannot be created; everything else works. *)
Definition btc_dir_locked : script := {|
  date := date all_up;
  get := get all_up;
  client := client all_up; chat := chat all_up; models := models all_up;
  images := images all_up;
  makedirs := fun path =>
    if String.eqb path "news/BTC-USDT/11032026"
    then inl (Exn "PermissionError" "[Errno 13] Permission denied")
    else inr tt;
  open_write := open_write all_up; copy_stream := copy_stream all_up;
  dump := dump all_up;
  logging := logging all_up
|}.

(** Provider B answers with an entry that has no [kind] member. *)
Definition kindless : script := {|
  date := date all_up;
  get := fun _ => ok [("results", [[("title", PStr "untyped entry")]])];
  client := client all_up; chat := chat all_up; models := models all_up;
  images := images all_up; makedirs := makedirs all_up;
  open_write := open_write all_up; copy_stream := copy_stream all_up;
  dump := dump all_up;
  logging := logging all_up
|}.

(** The path of the collection of BTC on the day of the scripts. *)
Definition btc_yaml : string := "news/BTC-USDT/11032026/predictions.yaml".

(** A first run from an empty disk. *)
Definition after_first_run : state unit :=
  snd (process_news (services all_up) "BTC" (init ∅)).

(** A second run on the same day while the generation service is down. *)
Definition after_second_run : state unit :=
  snd (process_news (services openai_down) "BTC" after_first_run).


(** A single run from an empty disk while the generation service is down. *)
Definition after_degraded_run : state unit :=
  snd (process_news (services openai_down) "BTC" (init ∅)).
End Scripted.

(** ** Vocabulary of the statements *)

Section Vocabulary.
Context {W : Type} (svc : Services W).

(** What the provider answers to the request of each fetcher. *)
Definition coingecko_request (token : string) (w : W) : (exn + Response) * W :=
  http_get svc (coingecko_base_url +:+ "/news") [("filter", token)] w.

Definition cryptopanic_request (token : string) (w : W) : (exn + Response) * W :=
  http_get svc cryptopanic_base_url
    [("auth_token", cryptopanic_api_key); ("currencies", token); ("kind", "news")] w.

(** The entries marked as news. *)
Definition marked_news (d : Dict) : Prop := dict_lookup d "kind" = Some (PStr "news").

#[global] Instance marked_news_dec d : Decision (marked_news d).
Proof. unfold marked_news. apply _. Defined.

(** Every step of the enricher succeeds from the world [w]: the client is
    built and both completions arrive with a first choice that has a
    content, [summary] for the first call and [label] for the second. *)
Definition enrich_steps_ok (title description : pyval) (w : W)
    (summary label : string) : Prop :=
  exists w1 r1 w2 r2 w3 rest1 rest2,
    openai_client svc w = (inr tt, w1) /\
    chat_create svc "gpt-4o" (summary_prompt title) w1 = (inr r1, w2) /\
    choices r1 = Some summary :: rest1 /\
    chat_create svc "gpt-4o" (sentiment_prompt title description) w2 = (inr r2, w3) /\
    choices r2 = Some label :: rest2.

(** The models asked for an image, in the order of the requests. *)
Fixpoint image_models (cs : list call) : list string :=
  match cs with
  | [] => []
  | CImagesGenerate model _ :: rest => model :: image_models rest
  | _ :: rest => image_models rest
  end.

(** The client is built and [client.models.list()] answers, leaving [w2]. *)
Definition listing_ok (w w2 : W) : Prop :=
  exists w1, openai_client svc w = (inr tt, w1) /\ models_list svc w1 = (inr tt, w2).

Definition primary_ok (prompt : pyval) (w2 : W) : Prop :=
  exists resp w3, images_generate svc "dall-e-3" (image_prompt prompt) w2 = (inr resp, w3).

Definition primary_fails (prompt : pyval) (w2 : W) : Prop :=
  exists e w3, images_generate svc "dall-e-3" (image_prompt prompt) w2 = (inl e, w3).

(** One of the two models answers with the url of a first image. *)
Definition generation_ok (prompt : pyval) (w2 : W) (url : string) (w4 : W) : Prop :=
  exists resp rest,
    data resp = Some url :: rest /\
    (images_generate svc "dall-e-3" (image_prompt prompt) w2 = (inr resp, w4) \/
     exists e w3,
       images_generate svc "dall-e-3" (image_prompt prompt) w2 = (inl e, w3) /\
       images_generate svc "dall-e-2" (image_prompt prompt) w3 = (inr resp, w4)).

(** The download answers 200 and the chart is written. *)
Definition download_and_save_ok (url save_path : string) (w4 : W) : Prop :=
  exists img w5 w6 w7 w8,
    http_get svc url [] w4 = (inr img, w5) /\
    status_code img = 200 /\
    fs_makedirs svc (os_path_dirname save_path) w5 = (inr tt, w6) /\
    fs_open_write svc save_path w6 = (inr tt, w7) /\
    fs_copy_stream svc save_path w7 = (inr tt, w8).

(** No step of the illustrator fails. *)
Definition illustrate_ok (prompt : pyval) (save_path : string) (w : W) : Prop :=
  exists w2 url w4,
    listing_ok w w2 /\ generation_ok prompt w2 url w4 /\
    download_and_save_ok url save_path w4.

(** The ids of a collection, and the id its next record gets: [current_id]
    is [max(ids, default=0)] and is incremented before it is used. *)
Definition ids (l : list EnrichedRecord) : list Z := map id l.

Definition next_id (l : list EnrichedRecord) : Z := py_max (ids l) 0 + 1.

Definition strictly_increasing (l : list Z) : Prop := StronglySorted Z.lt l.

(** The collection the file system holds under [path]: the records of the
    file, or none when there is no file or the file is empty. *)
Definition stored (fs : gmap string file) (path : string)
    (l : list EnrichedRecord) : Prop :=
  fs !! path = Some (YamlDoc (YMap (Some l))) \/
  (l = [] /\ (fs !! path = None \/ fs !! path = Some (YamlDoc YFalsy))).

(** What one pass through either loop body appends. *)
Definition appends_one (token current_date : string)
    (body : Z * list EnrichedRecord -> Dict -> M W (Z * list EnrichedRecord)) : Prop :=
  forall acc news s acc' s',
    body acc news s = (inr acc', s') ->
    exists e, acc' = (fst acc + 1, snd acc ++ [e]) /\
              id e = fst acc + 1 /\
              image e = image_field token current_date (id e).

(** Every collection on the disk has strictly increasing, unique ids. *)
Definition collections_ok (fs : gmap string file) : Prop :=
  forall path l,
    fs !! path = Some (YamlDoc (YMap (Some l))) ->
    strictly_increasing (ids l) /\ NoDup (ids l).

(** From [fs] to [fs'] nothing changed but for charts written. *)
Definition only_images (fs fs' : gmap string file) : Prop :=
  forall path, fs' !! path = fs !! path \/ fs' !! path = Some ImageFile.

(** A computation that writes charts only. *)
Definition keeps {A} (m : M W A) : Prop :=
  forall s r s', m s = (r, s') -> only_images (files s) (files s').

(** The line [main] prints for a symbol once [process_news] is over. *)
Definition verdict (token : string) (r : exn + unit) : string :=
  match r with
  | inr _ => "Successfully processed news for " +:+ token
  | inl e => "Error processing " +:+ token +:+ " news: " +:+ exn_str e
  end.

Definition printed (line : string) (s : state W) : state W :=
  Build_state (world s) (files s) (stdout s ++ [line]) (calls s) (logged s).

(** [symbol_runs tokens s rs s']: from [s], [process_news] is run for each
    symbol in turn, each from the state the previous one left, with the
    outcomes [rs]; after each run its verdict is printed. *)
Inductive symbol_runs : list string -> state W -> list (exn + unit) -> state W -> Prop :=
  | runs_nil s : symbol_runs [] s [] s
  | runs_cons token rest s r s1 rs s' :
      process_news svc token s = (r, s1) ->
      symbol_runs rest (printed (verdict token r) s1) rs s' ->
      symbol_runs (token :: rest) s (r :: rs) s'.
End Vocabulary.

(** ** Further scripted worlds *)

Module MoreScripts.
Import Scripted.

(** The chart is downloaded and its file opened, but the stream breaks
    while it is copied. *)
Definition copy_fails : script := {|
  date := date all_up;
  get := get all_up;
  client := client all_up; chat := chat all_up; models := models all_up;
  images := images all_up; makedirs := makedirs all_up;
  open_write := open_write all_up;
  copy_stream := fun _ => inl (Exn "ProtocolError" "Connection broken");
  dump := dump all_up;
  logging := logging all_up
|}.


(** The client cannot be built. *)
Definition no_client : script := {|
  date := date all_up;
  get := get all_up;
  client := inl (Exn "OpenAIError" "The api_key client option must be set");
  chat := chat all_up; models := models all_up;
  images := images all_up; makedirs := makedirs all_up;
  open_write := open_write all_up; copy_stream := copy_stream all_up;
  dump := dump all_up;
  logging := logging all_up
|}.

(** Provider A sends an item that has no [url]. *)
Definition no_url_item : Dict :=
  [("title", PStr "BTC hits new high"); ("description", PStr "Price surged");
   ("news_site", PStr "CoinDesk")].


(** The log file cannot be opened. *)
Definition no_log_file : script := {|
  date := date all_up;
  get := get all_up;
  client := client all_up; chat := chat all_up; models := models all_up;
  images := images all_up; makedirs := makedirs all_up;
  open_write := open_write all_up; copy_stream := copy_stream all_up;
  dump := dump all_up;
  logging := inl (Exn "PermissionError" "[Errno 13] Permission denied: 'crypto_news_processor.log'")
|}.

Definition chart_1 : string := "news/BTC-USDT/11032026/1/chart.png".

(** One pass through each loop body, from an empty collection. *)
Definition first_pass : (exn + Z * list EnrichedRecord) * state unit :=
  coingecko_body (services all_up) "BTC" "11032026" "news/BTC-USDT/11032026"
    (0, []) btc_item (init ∅).

Definition first_pass_acc : Z * list EnrichedRecord :=
  match fst first_pass with inr acc => acc | inl _ => (0, []) end.

Definition second_pass : (exn + Z * list EnrichedRecord) * state unit :=
  cryptopanic_body (services all_up) "BTC" "11032026" "news/BTC-USDT/11032026"
    (0, []) panic_item (init ∅).

Definition second_pass_acc : Z * list EnrichedRecord :=
  match fst second_pass with inr acc => acc | inl _ => (0, []) end.


(** Provider A answers with eleven items. *)
Definition numbered_item (n : Z) : Dict :=
  [("title", PStr ("Headline " +:+ pretty n)); ("description", PStr "Price moved");
   ("url", PStr ("https://example.org/" +:+ pretty n)); ("news_site", PStr "CoinDesk")].

Definition eleven_items : script := {|
  date := date all_up;
  get := fun url =>
    if String.eqb url "https://api.coingecko.com/api/v3/news"
    then ok [("data", map numbered_item (seqZ 1 11))]
    else get all_up url;
  client := client all_up; chat := chat all_up; models := models all_up;
  images := images all_up; makedirs := makedirs all_up;
  open_write := open_write all_up; copy_stream := copy_stream all_up;
  dump := dump all_up;
  logging := logging all_up
|}.

(** A label wrapped in no-break spaces (U+00A0). *)
Definition nbsp : string := String (ascii_of_nat 194) (String (ascii_of_nat 160) "").

Definition nbsp_label : script := {|
  date := date all_up;
  get := get all_up;
  client := client all_up;
  chat := fun prompt =>
    if starts_with "Summarize" prompt
    then inr {| choices := [Some (nbsp +:+ "BTC price surged" +:+ nbsp)] |}
    else inr {| choices := [Some (nbsp +:+ "Very Bullish" +:+ nbsp)] |};
  models := models all_up;
  images := images all_up; makedirs := makedirs all_up;
  open_write := open_write all_up; copy_stream := copy_stream all_up;
  dump := dump all_up;
  logging := logging all_up
|}.
End MoreScripts.

(** ** The retained older illustrator *)

Section OldIllustrator.
Context {W : Type} (svc : Services W).

(** What [response['data'][0]['url']] gives: whether the response object
    takes subscripts is the client library's business, so the access is a
    parameter. *)
Context (subscript_url : ImagesResponse -> exn + option string).

Definition old_image_prompt (title : pyval) : string :=
  "Create a chart or visualization related to: " +:+ py_str title.

(** [response['data'][0]['url']] *)
Definition first_url_old (r : ImagesResponse) : M W (option string) :=
  match subscript_url r with
  | inr url => ret url
  | inl e => raise e
  end.

Definition generate_and_save_image_old (title : pyval) (save_path : string) : M W string :=
  let* _ := OpenAI svc in
  try_except
    (let* response := client_images_generate svc "dall-e-3" (old_image_prompt title) in
     let* image_url := first_url_old response in
     let* img_response := requests_get_stream svc image_url in
     let* _ := (if (status_code img_response =? 200)%Z
                then write_image svc save_path
                else ret tt) in
     ret save_path)
    (fun e =>
       let* _ := print ("Error generating image: " +:+ exn_str e) in
       ret "").
End OldIllustrator.

(** The client the file imports: its responses are objects that take no
    subscripts. *)
Definition not_subscriptable : exn :=
  TypeError "'ImagesResponse' object is not subscriptable".

Definition no_subscripts (r : ImagesResponse) : exn + option string :=
  inl not_subscriptable.

(** ** Vocabulary of the further statements *)

Section MoreVocabulary.
Context {W : Type} (svc : Services W).

(** A string [str.strip()] leaves as it is. *)
Definition stripped (s : string) : Prop := py_strip s = s.

(** A list that begins with no character that [sp1], [sp2] or [sp3]
    accept. *)
Definition clean_front (sp1 : ascii -> bool) (sp2 : ascii -> ascii -> bool)
    (sp3 : ascii -> ascii -> ascii -> bool) (l : list ascii) : Prop :=
  match l with
  | [] => True
  | a :: r =>
      sp1 a = false /\
      match r with
      | [] => True
      | b :: r2 =>
          sp2 a b = false /\
          match r2 with
          | [] => True
          | c :: _ => sp3 a b c = false
          end
      end
  end.

(** A path [os.path.join] makes for a chart. *)
Definition is_chart_path (path : string) : Prop :=
  exists dir, path = os_path_join dir "chart.png".

(** From [fs] to [fs'] nothing changed but at chart paths, where a chart
    was written. *)
Definition only_charts (fs fs' : gmap string file) : Prop :=
  forall path,
    fs' !! path = fs !! path \/ (is_chart_path path /\ fs' !! path = Some ImageFile).

(** A computation that moves the disk along [R]. *)
Definition tracks (R : relation (gmap string file)) {A} (m : M W A) : Prop :=
  forall s r s', m s = (r, s') -> R (files s) (files s').

(** The shape of a record the pipeline builds: the title ends with the
    sentiment, the sentiment is not a spaced label, and the summary and
    the sentiment have no surrounding whitespace. *)
Definition well_formed_record (e : EnrichedRecord) : Prop :=
  (exists source, title e = source +:+ " - " +:+ sentiment e) /\
  sentiment e <> "Very Bullish" /\ sentiment e <> "Very Bearish" /\
  stripped (preview e) /\ stripped (sentiment e).

(** The item has a value under each of the keys. *)
Definition has_keys (news : Dict) (keys : list string) : Prop :=
  Forall (fun k => is_Some (dict_lookup news k)) keys.

(** The steps of the illustrator up to the opening of the chart file
    succeed, leaving the world [w7]. *)
Definition chart_opened (prompt : pyval) (save_path : string) (w w7 : W) : Prop :=
  exists w2 url w4 img w5 w6,
    listing_ok svc w w2 /\ generation_ok svc prompt w2 url w4 /\
    http_get svc url [] w4 = (inr img, w5) /\
    status_code img = 200 /\
    fs_makedirs svc (os_path_dirname save_path) w5 = (inr tt, w6) /\
    fs_open_write svc save_path w6 = (inr tt, w7).

(** Both providers answer, neither with status 200, and the directory and
    the predictions file can be written. *)
Definition quiet_day (token : string) (w : W) (status_b : Z) : Prop :=
  exists w1 r1 w2 r2 w3 w4 w5,
    fs_makedirs svc (base_dir_of token (today svc w)) w = (inr tt, w1) /\
    coingecko_request svc token w1 = (inr r1, w2) /\ status_code r1 <> 200 /\
    cryptopanic_request svc token w2 = (inr r2, w3) /\
    status_code r2 <> 200 /\ status_code r2 = status_b /\
    fs_open_write svc (yaml_path_of token (today svc w)) w3 = (inr tt, w4) /\
    yaml_dump svc (yaml_path_of token (today svc w)) w4 = (inr tt, w5).

(** The file the handler of the set-up appends to. *)
Definition log_file : string := "crypto_news_processor.log".

(** The record of a call to the logger. *)
Definition record (lvl : log_level) (message : string) : log_record :=
  {| levelname := lvl; message := message |}.

(** The messages of the warnings among the records. *)
Fixpoint warnings (records : list log_record) : list string :=
  match records with
  | [] => []
  | {| levelname := WARNING; message := m |} :: rest => m :: warnings rest
  | _ :: rest => warnings rest
  end.

(** How the records of a call to the illustrator end: with the record of
    the saved chart when [save_path] is returned, with an error when the
    empty string is. *)
Definition closes_log (r save_path : string) (records : list log_record) : Prop :=
  (r = save_path /\
   last records = Some (record INFO ("Successfully saved image to: " +:+ save_path))) \/
  (r = "" /\ exists msg, last records = Some (record ERROR msg)).

(** Whatever the world, provider A answers 200 with the body [body_a] and
    provider B answers 200 with the body [body_b]. *)
Definition feeds (token : string) (body_a body_b : list (string * list Dict)) : Prop :=
  (forall w, exists r w',
      coingecko_request svc token w = (inr r, w') /\
      status_code r = 200 /\ json r = inr body_a) /\
  (forall w, exists r w',
      cryptopanic_request svc token w = (inr r, w') /\
      status_code r = 200 /\ json r = inr body_b).

(** Whatever the world, a directory can be made and a file opened and
    dumped to. *)
Definition disk_writable : Prop :=
  (forall path w, exists w', fs_makedirs svc path w = (inr tt, w')) /\
  (forall path w, exists w', fs_open_write svc path w = (inr tt, w')) /\
  (forall path w, exists w', yaml_dump svc path w = (inr tt, w')).

(** Whatever the world, the listing of the models fails, and with it every
    call to the illustrator. *)
Definition illustrator_down : Prop :=
  forall w, exists e w', models_list svc w = (inl e, w').

(** The items of the two feeds that [process_news] goes through. *)
Definition processed_a (body_a : list (string * list Dict)) : list Dict :=
  take 10 (body_get body_a "data").

Definition processed_b (body_b : list (string * list Dict)) : list Dict :=
  filter (marked_news) (body_get body_b "results").
End MoreVocabulary.

(** ** [news.py]: the Binance bulletins

    [BinanceNewsAPI] and [format_announcements].  Its handlers catch
    [requests.exceptions.RequestException] only and look at the [response]
    attribute of what they caught, so an exception here carries both. *)

Module Binance.

(** [e.response]: no such attribute, [None], or a response, of which the
    handlers read the status and the text. *)
Inductive response_attr :=
  | NoAttribute
  | AttrNone
  | AttrResponse (status : Z) (text : string).

Record raised := {
  exc : exn;
  is_request_exception : bool;
  response : response_attr
}.

(** An exception of Python itself: not of [requests], no [response]. *)
Definition builtin (e : exn) : raised :=
  {| exc := e; is_request_exception := false; response := NoAttribute |}.

(** A decoded JSON document. *)
#[warnings="-register-all"] Inductive json_value :=
  | JNull
  | JBool (b : bool)
  | JNum (z : Z)
  | JStr (s : string)
  | JArr (items : list json_value)
  | JObj (members : list (string * json_value)).

Definition type_name (v : json_value) : string :=
  match v with
  | JNull => "NoneType"
  | JBool _ => "bool"
  | JNum _ => "int"
  | JStr _ => "str"
  | JArr _ => "list"
  | JObj _ => "dict"
  end.

Fixpoint member (members : list (string * json_value)) (k : string) : option json_value :=
  match members with
  | [] => None
  | (k', v) :: rest => if String.eqb k' k then Some v else member rest k
  end.

(** [v.get(k, default)]: only a dict has the method. *)
Definition py_get (v : json_value) (k : string) (default : json_value)
    : raised + json_value :=
  match v with
  | JObj members =>
      inr (match member members k with Some x => x | None => default end)
  | _ => inl (builtin (Exn "AttributeError"
                         ("'" +:+ type_name v +:+ "' object has no attribute 'get'")))
  end.

(** [requests.Response]: the status, the text, what [str] of the
    [HTTPError] of [raise_for_status] reads, and what [.json()] gives. *)
Record PostResponse := {
  status_code : Z;
  text : string;
  error_message : string;
  json : raised + json_value
}.

(** [response.raise_for_status()]: an [HTTPError] that carries the
    response, for a status from 400 to 599. *)
Definition http_error (r : PostResponse) : raised :=
  {| exc := Exn "HTTPError" (error_message r);
     is_request_exception := true;
     response := AttrResponse (status_code r) (text r) |}.

Definition is_error_status (status : Z) : bool :=
  (400 <=? status) && (status <? 600).

Definition Payload := list (string * pyval).

Record state (W : Type) := {
  world : W;
  stdout : list string;
  posts : list (string * Payload)
}.
Arguments world {W}.
Arguments stdout {W}.
Arguments posts {W}.
Arguments Build_state {W}.

Definition B (W A : Type) : Type := state W -> (raised + A) * state W.

Section Api.
Context {W : Type}.

(** [requests.post(url, json=payload, headers=headers)] *)
Context (http_post : string -> Payload -> W -> (raised + PostResponse) * W).

Definition ret {A} (a : A) : B W A := fun s => (inr a, s).

Definition raise {A} (e : raised) : B W A := fun s => (inl e, s).

Definition bind {A C} (m : B W A) (k : A -> B W C) : B W C :=
  fun s =>
    match m s with
    | (inr a, s') => k a s'
    | (inl e, s') => (inl e, s')
    end.

(** [try: body except requests.exceptions.RequestException as e: handler(e)] *)
Definition try_except_request {A} (body : B W A) (handler : raised -> B W A) : B W A :=
  fun s =>
    match body s with
    | (inr a, s') => (inr a, s')
    | (inl e, s') => if is_request_exception e then handler e s' else (inl e, s')
    end.

Definition print (line : string) : B W unit :=
  fun s => (inr tt, Build_state (world s) (stdout s ++ [line]) (posts s)).

Definition lift {A} (r : raised + A) : B W A :=
  match r with
  | inr a => ret a
  | inl e => raise e
  end.

Definition requests_post (url : string) (payload : Payload) : B W PostResponse :=
  fun s =>
    let (r, w) := http_post url payload (world s) in
    (r, Build_state w (stdout s) (posts s ++ [(url, payload)])).

Definition raise_for_status (r : PostResponse) : B W unit :=
  if is_error_status (status_code r) then raise (http_error r) else ret tt.

Definition bulletin_url : string :=
  "https://www.binance.com/bapi/composite/v1/public/bulletin/getBulletinList".

Definition payload (limit : Z) (category : string) : Payload :=
  [("page", PInt 1); ("pageSize", PInt limit); ("lang", PStr "en-US");
   ("category", PStr category)].

(** The body of both [try] blocks: the request, the status check, the
    decoding and the two [get]s. *)
Definition fetch_list (limit : Z) (category : string) : B W json_value :=
  bind (requests_post bulletin_url (payload limit category)) (fun response =>
  bind (raise_for_status response) (fun _ =>
  bind (lift (json response)) (fun data =>
  bind (lift (py_get data "data" (JObj []))) (fun inner =>
  lift (py_get inner "list" (JArr [])))))).

(** [e.response.status_code if hasattr(e, 'response') else 'N/A'] and the
    same for [text], as an f-string prints them. *)
Definition status_or_na (e : raised) : B W string :=
  match response e with
  | NoAttribute => ret "N/A"
  | AttrNone =>
      raise (builtin (Exn "AttributeError"
                        "'NoneType' object has no attribute 'status_code'"))
  | AttrResponse status _ => ret (pretty status)
  end.

Definition text_or_na (e : raised) : B W string :=
  match response e with
  | NoAttribute => ret "N/A"
  | AttrNone =>
      raise (builtin (Exn "AttributeError"
                        "'NoneType' object has no attribute 'text'"))
  | AttrResponse _ text => ret text
  end.

Definition get_announcements (limit : Z) : B W json_value :=
  try_except_request
    (fetch_list limit "announcement")
    (fun e =>
       bind (print ("Error fetching Binance announcements: " +:+ exn_str (exc e))) (fun _ =>
       bind (status_or_na e) (fun status =>
       bind (print ("Response status code: " +:+ status)) (fun _ =>
       bind (text_or_na e) (fun text =>
       bind (print ("Response text: " +:+ text)) (fun _ =>
       ret (JArr []))))))).

Definition get_new_listings (limit : Z) : B W json_value :=
  try_except_request
    (fetch_list limit "new_crypto")
    (fun e =>
       bind (print ("Error fetching new listings: " +:+ exn_str (exc e))) (fun _ =>
       ret (JArr []))).
End Api.

(** *** [format_announcements]: the items are [Dict]s of scalars, as its
    signature has them. *)

(** [bool(v)] *)
Definition truthy (v : pyval) : bool :=
  match v with
  | PNone => false
  | PBool b => b
  | PInt z => negb (z =? 0)
  | PStr s => negb (String.eqb s "")
  end.

(** [item.get(k, default)], as an f-string prints it. *)
Definition get_or (item : Dict) (k default : string) : string :=
  match dict_lookup item k with
  | Some v => py_str v
  | None => default
  end.

Fixpoint repeat_string (s : string) (n : nat) : string :=
  match n with
  | O => ""
  | S n' => s +:+ repeat_string s n'
  end.

Definition separator : string := newline +:+ repeat_string "=" 80.

Section Format.
Context {W : Type}.

(** [time.strftime('%Y-%m-%d %H:%M:%S', time.localtime(ms / 1000))] for an
    integer [ms]: the clock's zone and its range are the platform's. *)
Context (strftime_local : Z -> exn + string).

(** The [Date:] line of an item that has a [publishTime]. *)
Definition date_line (v : pyval) : B W unit :=
  match v with
  | PInt ms =>
      bind (lift (match strftime_local ms with
                  | inr t => inr t
                  | inl e => inl (builtin e)
                  end)) (fun t => print ("Date: " +:+ t))
  | PBool b =>
      bind (lift (match strftime_local (if b then 1 else 0) with
                  | inr t => inr t
                  | inl e => inl (builtin e)
                  end)) (fun t => print ("Date: " +:+ t))
  | PStr _ =>
      raise (builtin (Exn "TypeError"
                        "unsupported operand type(s) for /: 'str' and 'int'"))
  | PNone =>
      raise (builtin (Exn "TypeError"
                        "unsupported operand type(s) for /: 'NoneType' and 'int'"))
  end.

(** The [Summary:] line of an item whose [summary] is truthy. *)
Definition summary_line (v : pyval) : B W unit :=
  match v with
  | PStr s => print ("Summary: " +:+ py_prefix 200 s +:+ "...")
  | PInt _ =>
      raise (builtin (Exn "TypeError" "'int' object is not subscriptable"))
  | PBool _ =>
      raise (builtin (Exn "TypeError" "'bool' object is not subscriptable"))
  | PNone =>
      raise (builtin (Exn "TypeError" "'NoneType' object is not subscriptable"))
  end.

Definition format_item (item : Dict) : B W unit :=
  bind (print separator) (fun _ =>
  bind (print ("Title: " +:+ get_or item "title" "N/A")) (fun _ =>
  bind (match dict_lookup item "publishTime" with
        | Some v => date_line v
        | None => ret tt
        end) (fun _ =>
  bind (match dict_lookup item "summary" with
        | Some v => if truthy v then summary_line v else ret tt
        | None => ret tt
        end) (fun _ =>
  print ("URL: " +:+ get_or item "url" "N/A"))))).

Fixpoint format_items (items : list Dict) : B W unit :=
  match items with
  | [] => ret tt
  | item :: rest => bind (format_item item) (fun _ => format_items rest)
  end.

Definition format_announcements (items : list Dict) : B W unit :=
  match items with
  | [] => print "No items found"
  | _ => format_items items
  end.
End Format.

(** *** Vocabulary of the statements about [news.py] *)

(** The state after a request that left the world [w] and printed
    [lines]. *)
Definition after_post {W} (s : state W) (w : W) (limit : Z) (category : string)
    (lines : list string) : state W :=
  Build_state w (stdout s ++ lines)
    (posts s ++ [(bulletin_url, payload limit category)]).

(** The state after [lines] were printed. *)
Definition printing {W} (s : state W) (lines : list string) : state W :=
  Build_state (world s) (stdout s ++ lines) (posts s).

Definition attribute_error (attr : string) : raised :=
  builtin (Exn "AttributeError"
             ("'NoneType' object has no attribute '" +:+ attr +:+ "'")).

(** An item [format_announcements] cannot fail on: it has no
    [publishTime], and its [summary], if any, is a string or falsy. *)
Definition plain_item (item : Dict) : Prop :=
  dict_lookup item "publishTime" = None /\
  match dict_lookup item "summary" with
  | Some (PStr _) | None => True
  | Some v => truthy v = false
  end.

(** Whether the [Summary:] line of an item is printed. *)
Definition has_summary (item : Dict) : bool :=
  match dict_lookup item "summary" with
  | Some v => truthy v
  | None => false
  end.

(** The lines printed for a plain item. *)
Definition item_lines (item : Dict) : list string :=
  [separator; "Title: " +:+ get_or item "title" "N/A"]
  ++ (match dict_lookup item "summary" with
      | Some (PStr s) =>
          if truthy (PStr s)
          then ["Summary: " +:+ py_prefix 200 s +:+ "..."]
          else []
      | _ => []
      end)
  ++ ["URL: " +:+ get_or item "url" "N/A"].

(** [run] returns, from [s] to [s'], the [list] member of the [data]
    member of [members], or the empty list when a member is absent. *)
Definition returns_list_member {W} (run : B W json_value) (s s' : state W)
    (members : list (string * json_value)) : Prop :=
  (member members "data" = None -> run s = (inr (JArr []), s')) /\
  (forall inner,
      member members "data" = Some (JObj inner) ->
      member inner "list" = None ->
      run s = (inr (JArr []), s')) /\
  (forall inner v,
      member members "data" = Some (JObj inner) ->
      member inner "list" = Some v ->
      run s = (inr v, s')).

(** Scripted answers of the bulletin endpoint. *)
Definition connection_error : raised :=
  {| exc := Exn "ConnectionError" "Max retries exceeded";
     is_request_exception := true;
     response := AttrNone |}.

Definition unreachable (url : string) (p : Payload) (w : unit)
    : (raised + PostResponse) * unit :=
  (inl connection_error, w).

Definition answers (r : PostResponse) (url : string) (p : Payload) (w : unit)
    : (raised + PostResponse) * unit :=
  (inr r, w).

Definition forbidden : PostResponse :=
  {| status_code := 403; text := "Forbidden";
     error_message := "403 Client Error: Forbidden for url: " +:+ bulletin_url;
     json := inl (builtin (Exn "JSONDecodeError" "Expecting value")) |}.

Definition listing : json_value :=
  JArr [JObj [("title", JStr "Binance Will List X")];
        JObj [("title", JStr "Binance Will List Y")];
        JObj [("title", JStr "Binance Will List Z")]].

Definition success : PostResponse :=
  {| status_code := 200; text := "";
     error_message := "";
     json := inr (JObj [("code", JStr "000000");
                        ("data", JObj [("list", listing)])]) |}.

Definition null_data : PostResponse :=
  {| status_code := 200; text := "";
     error_message := "";
     json := inr (JObj [("code", JStr "000002"); ("data", JNull)]) |}.

Definition start : state unit := Build_state tt [] [].

Definition short_item : Dict :=
  [("title", PStr "Binance Will List X"); ("summary", PStr "Soon")].

Definition dated_item : Dict :=
  [("title", PStr "Maintenance"); ("publishTime", PStr "yesterday")].

(** An item whose summary has 101 characters of two bytes each (U+00E9). *)
Definition e_acute : string := String (ascii_of_nat 195) (String (ascii_of_nat 169) "").

Definition accented_item : Dict :=
  [("title", PStr "Binance Will List X"); ("summary", PStr (repeat_string e_acute 101))].
End Binance.

(** ** Running the monad *)

Section Run.
Context {W : Type}.

Lemma bind_inr {A B} (m : M W A) (k : A -> M W B) s a s' :
  m s = (inr a, s') -> bind m k s = k a s'.
Proof. unfold bind. by intros ->. Qed.

Lemma bind_inv {A B} (m : M W A) (k : A -> M W B) s b s' :
  bind m k s = (inr b, s') ->
  exists a s1, m s = (inr a, s1) /\ k a s1 = (inr b, s').
Proof.
  unfold bind. destruct (m s) as [[e|a] s1]; [done|]. eauto.
Qed.

Lemma invoke_files {A} (c : call) (f : W -> (exn + A) * W) (s s' : state W) r :
  invoke c f s = (r, s') -> files s' = files s.
Proof. unfold invoke. destruct (f (world s)). by intros [= _ <-]. Qed.
End Run.

Ltac unfold_m :=
  unfold bind, ret, raise, try_except, print, logger, invoke, read_world, get_file,
    put_file, os_path_exists in *.

(** ** The save *)

Section Save.
Context {W : Type} (svc : Services W).

(** A save returns with the collection written, or raises with the file
    as it was (the open failed) or empty (the dump failed). *)
Lemma save_predictions_cases (path : string) (l : list EnrichedRecord)
    (s s' : state W) r :
  save_predictions svc path l s = (r, s') ->
  (r = inr tt /\ files s' = <[path := YamlDoc (YMap (Some l))]> (files s)) \/
  (exists e, r = inl e /\ files s' = files s) \/
  (exists e w w',
      r = inl e /\ yaml_dump svc path w = (inl e, w') /\
      files s' = <[path := YamlDoc YFalsy]> (files s)).
Proof.
  unfold save_predictions. unfold_m.
  destruct (fs_open_write svc path (world s)) as [[e|[]] w1]; cbn.
  { intros [= <- <-]. right. left. eauto. }
  destruct (yaml_dump svc path w1) as [[e|[]] w2] eqn:Hdump; cbn.
  { intros [= <- <-]. right. right. eauto 6. }
  intros [= <- <-]. left. split; [done|]. cbn. by rewrite insert_insert_eq.
Qed.

(** When the file can be written, the save returns. *)
Lemma save_predictions_returns (path : string) (l : list EnrichedRecord) (s : state W) :
  (forall p w, exists w', fs_open_write svc p w = (inr tt, w')) ->
  (forall p w, exists w', yaml_dump svc p w = (inr tt, w')) ->
  exists s',
    save_predictions svc path l s = (inr tt, s') /\
    files s' = <[path := YamlDoc (YMap (Some l))]> (files s).
Proof.
  intros Hopen Hdump.
  unfold save_predictions. unfold_m.
  destruct (Hopen path (world s)) as [w1 ->]. cbn.
  destruct (Hdump path w1) as [w2 ->]. cbn.
  eexists. split; [reflexivity|]. cbn. by rewrite insert_insert_eq.
Qed.
End Save.

(** ** NewsFetcher *)

Section Fetchers.
Context {W : Type} (svc : Services W).

Lemma py_eq_str_true v s : py_eq_str v s = true <-> v = PStr s.
Proof.
  destruct v; simpl; try (split; [discriminate | congruence]).
  rewrite String.eqb_eq. split; congruence.
Qed.

Lemma keep_news_all_kinds (results : list Dict) (s : state W) :
  Forall (fun d => is_Some (dict_lookup d "kind")) results ->
  keep_news results s = (inr (filter marked_news results), s).
Proof.
  induction 1 as [|d rest [kind Hk] _ IH]; [done|].
  cbn [keep_news]. unfold getitem. rewrite Hk.
  unfold_m. rewrite IH. f_equal. f_equal.
  rewrite filter_cons.
  destruct (py_eq_str kind "news") eqn:E.
  - apply py_eq_str_true in E as ->. by rewrite decide_True.
  - rewrite decide_False; [done|]. unfold marked_news. rewrite Hk.
    intros [= ->]. by vm_compute in E.
Qed.

Lemma keep_news_missing_kind (results : list Dict) (s : state W) :
  Exists (fun d => dict_lookup d "kind" = None) results ->
  keep_news results s = (inl (KeyError "kind"), s).
Proof.
  induction results as [|d rest IH]; intros Hex; [by apply Exists_nil in Hex|].
  cbn [keep_news]. unfold getitem.
  destruct (dict_lookup d "kind") as [kind|] eqn:Hk; [|done].
  apply Exists_cons in Hex as [Hd|Hrest]; [congruence|].
  unfold_m. by rewrite (IH Hrest).
Qed.

(** C10: [get_coingecko_news] returns at most 10 items; on a 200 response
    whose body decodes, it returns the first 10 entries of the [data]
    array, which is the whole array when it has 10 entries or fewer. *)
Theorem get_coingecko_news_first_10 (token : string) (s : state W) :
  (forall items s',
      get_coingecko_news svc token s = (inr items, s') -> (length items <= 10)%nat) /\
  (forall r w body,
      coingecko_request svc token (world s) = (inr r, w) ->
      status_code r = 200 -> json r = inr body ->
      fst (get_coingecko_news svc token s) = inr (take 10 (body_get body "data")) /\
      ((length (body_get body "data") <= 10)%nat ->
       fst (get_coingecko_news svc token s) = inr (body_get body "data"))).
Proof.
  unfold get_coingecko_news, requests_get, response_json, coingecko_request.
  unfold_m. split.
  - intros items s'.
    destruct (http_get svc _ _ (world s)) as [[e|r] w]; [done|].
    destruct (status_code r =? 200)%Z; [|intros [= <- _]; simpl; lia].
    destruct (json r) as [e|body]; [done|].
    intros [= <- _]. rewrite length_take. lia.
  - intros r w body -> -> ->. simpl. split; [done|].
    intros Hlen. by rewrite take_ge.
Qed.

(** C2, as the code has it: on a response whose status is not 200 each
    fetcher returns the empty list, and a transport failure of
    [requests.get] is raised to the caller of the fetcher. *)
Theorem fetch_non_success_empty_transport_raises (token : string) (s : state W) :
  (forall r w, coingecko_request svc token (world s) = (inr r, w) ->
               status_code r <> 200 ->
               fst (get_coingecko_news svc token s) = inr []) /\
  (forall r w, cryptopanic_request svc token (world s) = (inr r, w) ->
               status_code r <> 200 ->
               fst (get_cryptopanic_news svc token s) = inr []) /\
  (forall e w, coingecko_request svc token (world s) = (inl e, w) ->
               fst (get_coingecko_news svc token s) = inl e) /\
  (forall e w, cryptopanic_request svc token (world s) = (inl e, w) ->
               fst (get_cryptopanic_news svc token s) = inl e).
Proof.
  unfold get_coingecko_news, get_cryptopanic_news, requests_get, response_json,
    coingecko_request, cryptopanic_request.
  unfold_m. repeat split.
  - intros r w -> Hne. simpl. apply Z.eqb_neq in Hne. by rewrite Hne.
  - intros r w -> Hne. simpl. apply Z.eqb_neq in Hne. by rewrite Hne.
  - by intros e w ->.
  - by intros e w ->.
Qed.

(** C7, as the code has it: on a 200 response whose body decodes and
    whose [results] entries all have a [kind] member, the fetcher returns
    exactly the entries whose [kind] equals "news", in their order; an
    entry without the member makes it raise [KeyError]. *)
Theorem get_cryptopanic_news_keeps_marked (token : string) (s : state W) r w body :
  cryptopanic_request svc token (world s) = (inr r, w) ->
  status_code r = 200 -> json r = inr body ->
  (Forall (fun d => is_Some (dict_lookup d "kind")) (body_get body "results") ->
   fst (get_cryptopanic_news svc token s)
   = inr (filter marked_news (body_get body "results"))) /\
  (Exists (fun d => dict_lookup d "kind" = None) (body_get body "results") ->
   fst (get_cryptopanic_news svc token s) = inl (KeyError "kind")).
Proof.
  unfold get_cryptopanic_news, requests_get, response_json, cryptopanic_request.
  unfold_m. intros -> -> ->. simpl. split; intros H.
  - by rewrite keep_news_all_kinds.
  - by rewrite keep_news_missing_kind.
Qed.
End Fetchers.

(** A transport failure reaches the caller of either fetcher. *)
Lemma fetch_transport_failure_raises :
  fst (get_coingecko_news (Scripted.services Scripted.transport_down) "BTC"
         (Scripted.init ∅)) = inl Scripted.ConnectionError /\
  fst (get_cryptopanic_news (Scripted.services Scripted.transport_down) "BTC"
         (Scripted.init ∅)) = inl Scripted.ConnectionError.
Proof. split; reflexivity. Qed.

Lemma fetch_non_success_empty_transport_raises_witness :
  fst (get_coingecko_news (Scripted.services Scripted.rate_limited) "BTC"
         (Scripted.init ∅)) = inr [] /\
  fst (get_cryptopanic_news (Scripted.services Scripted.rate_limited) "BTC"
         (Scripted.init ∅)) = inr [] /\
  fst (get_coingecko_news (Scripted.services Scripted.transport_down) "BTC"
         (Scripted.init ∅)) = inl Scripted.ConnectionError /\
  fst (get_cryptopanic_news (Scripted.services Scripted.transport_down) "BTC"
         (Scripted.init ∅)) = inl Scripted.ConnectionError.
Proof.
  pose proof (fetch_non_success_empty_transport_raises
                (Scripted.services Scripted.rate_limited) "BTC" (Scripted.init ∅))
    as (Ha & Hb & _ & _).
  pose proof (fetch_non_success_empty_transport_raises
                (Scripted.services Scripted.transport_down) "BTC" (Scripted.init ∅))
    as (_ & _ & Hc & Hd).
  split; [|split; [|split]].
  - eapply Ha; [reflexivity|]. simpl. lia.
  - eapply Hb; [reflexivity|]. simpl. lia.
  - eapply Hc. reflexivity.
  - eapply Hd. reflexivity.
Defined.

(** An entry of [results] without a [kind] member: the fetcher raises. *)
Lemma get_cryptopanic_news_kindless_raises :
  fst (get_cryptopanic_news (Scripted.services Scripted.kindless) "BTC"
         (Scripted.init ∅)) = inl (KeyError "kind").
Proof. reflexivity. Qed.

Lemma get_cryptopanic_news_keeps_marked_witness :
  fst (get_cryptopanic_news (Scripted.services Scripted.all_up) "BTC" (Scripted.init ∅))
  = inr [Scripted.panic_item] /\
  fst (get_cryptopanic_news (Scripted.services Scripted.kindless) "BTC" (Scripted.init ∅))
  = inl (KeyError "kind").
Proof.
  destruct (get_cryptopanic_news_keeps_marked (Scripted.services Scripted.all_up) "BTC"
              (Scripted.init ∅) _ _ _ eq_refl eq_refl eq_refl) as [Ha _].
  destruct (get_cryptopanic_news_keeps_marked (Scripted.services Scripted.kindless) "BTC"
              (Scripted.init ∅) _ _ _ eq_refl eq_refl eq_refl) as [_ Hb].
  split.
  - apply Ha. repeat constructor. by eexists.
  - apply Hb. by constructor.
Defined.

Lemma get_coingecko_news_first_10_witness :
  fst (get_coingecko_news (Scripted.services Scripted.all_up) "BTC" (Scripted.init ∅))
  = inr [Scripted.btc_item] /\
  fst (get_coingecko_news (Scripted.services MoreScripts.eleven_items) "BTC"
         (Scripted.init ∅))
  = inr (map MoreScripts.numbered_item (seqZ 1 10)).
Proof.
  split.
  - destruct (get_coingecko_news_first_10 (Scripted.services Scripted.all_up) "BTC"
                (Scripted.init ∅)) as [_ Hb].
    destruct (Hb _ _ _ eq_refl eq_refl eq_refl) as [_ Hall].
    apply Hall. simpl. lia.
  - destruct (get_coingecko_news_first_10 (Scripted.services MoreScripts.eleven_items)
                "BTC" (Scripted.init ∅)) as [_ Hb].
    destruct (Hb _ _ _ eq_refl eq_refl eq_refl) as [Hfirst _].
    exact Hfirst.
Defined.

(** ** Enricher *)

Section Enricher.
Context {W : Type} (svc : Services W).

(** C4: the canonicalization table sends "Very Bullish" to "VeryBullish"
    and "Very Bearish" to "VeryBearish" and leaves every other label as it
    is; [get_sentiment_and_summary] returns the stripped answer of the
    second completion passed through that table. *)
Theorem sentiment_canonicalization :
  mapping_get sentiment_mapping "Very Bullish" "Very Bullish" = "VeryBullish" /\
  mapping_get sentiment_mapping "Very Bearish" "Very Bearish" = "VeryBearish" /\
  (forall label : string,
      label <> "Very Bullish" -> label <> "Very Bearish" ->
      mapping_get sentiment_mapping label label = label) /\
  (forall title description (s : state W) summary label,
      enrich_steps_ok svc title description (world s) summary label ->
      fst (get_sentiment_and_summary svc title description s)
      = inr (py_strip summary,
             mapping_get sentiment_mapping (py_strip label) (py_strip label))).
Proof.
  split; [reflexivity|]. split; [reflexivity|]. split.
  - intros label H1 H2. unfold sentiment_mapping. cbn [mapping_get].
    destruct (String.eqb_spec "Very Bullish" label) as [E|_]; [by subst|].
    destruct (String.eqb_spec "Very Bearish" label) as [E|_]; [by subst|].
    reflexivity.
  - intros title description s summary label
      (w1 & r1 & w2 & r2 & w3 & rest1 & rest2 & Hc & H1 & Hr1 & H2 & Hr2).
    unfold get_sentiment_and_summary, OpenAI, chat_completions_create,
      first_content_stripped.
    unfold_m. rewrite Hc. cbn. rewrite H1. cbn. rewrite Hr1. cbn.
    rewrite H2. cbn. by rewrite Hr2.
Qed.

(** C3: [get_sentiment_and_summary] never raises, and unless every step
    succeeds (client, both completions, a content in the first choice of
    each) it returns the pair ("Error generating summary", "Neutral"). *)
Theorem get_sentiment_and_summary_fallback (title description : pyval) (s : state W) :
  exists p s',
    get_sentiment_and_summary svc title description s = (inr p, s') /\
    ((~ exists summary label,
          enrich_steps_ok svc title description (world s) summary label) ->
     p = ("Error generating summary", "Neutral")).
Proof.
  unfold get_sentiment_and_summary, OpenAI, chat_completions_create,
    first_content_stripped, enrich_steps_ok.
  unfold_m.
  destruct (openai_client svc (world s)) as [[e|[]] w1] eqn:Hc; cbn;
    [eauto|].
  destruct (chat_create svc "gpt-4o" (summary_prompt title) w1)
    as [[e|r1] w2] eqn:H1; cbn; [eauto|].
  destruct (choices r1) as [|[summary|] rest1] eqn:Hr1; cbn; [eauto| |eauto].
  destruct (chat_create svc "gpt-4o" (sentiment_prompt title description) w2)
    as [[e|r2] w3] eqn:H2; cbn; [eauto|].
  destruct (choices r2) as [|[label|] rest2] eqn:Hr2; cbn; [eauto| |eauto].
  eexists _, _. split; [reflexivity|]. intros Hnot. exfalso. apply Hnot.
  exists summary, label, w1, r1, w2, r2, w3, rest1, rest2. done.
Qed.
End Enricher.

Lemma sentiment_canonicalization_witness :
  mapping_get sentiment_mapping "Bullish" "Bullish" = "Bullish" /\
  mapping_get sentiment_mapping "bullish-ish" "bullish-ish" = "bullish-ish" /\
  fst (get_sentiment_and_summary (Scripted.services Scripted.all_up)
         (PStr "BTC hits new high") (PStr "Price surged") (Scripted.init ∅))
  = inr ("BTC price surged to new high", "VeryBullish").
Proof.
  destruct (sentiment_canonicalization (Scripted.services Scripted.all_up))
    as (_ & _ & Hother & Hrun).
  split; [|split].
  - apply Hother; discriminate.
  - apply Hother; discriminate.
  - apply (Hrun (PStr "BTC hits new high") (PStr "Price surged") (Scripted.init ∅)
             " BTC price surged to new high " "Very Bullish").
    by exists tt, {| choices := [Some " BTC price surged to new high "] |}, tt,
              {| choices := [Some "Very Bullish"] |}, tt, [], [].
Defined.

Lemma get_sentiment_and_summary_fallback_witness :
  fst (get_sentiment_and_summary (Scripted.services Scripted.openai_down)
         (PStr "BTC hits new high") (PStr "Price surged") (Scripted.init ∅))
  = inr ("Error generating summary", "Neutral").
Proof.
  destruct (get_sentiment_and_summary_fallback (Scripted.services Scripted.openai_down)
              (PStr "BTC hits new high") (PStr "Price surged") (Scripted.init ∅))
    as (p & s' & Hrun & Hfallback).
  rewrite Hrun. simpl. f_equal. apply Hfallback.
  intros (summary & label & w1 & r1 & w2 & r2 & w3 & rest1 & rest2 & _ & H1 & _).
  discriminate H1.
Defined.

(** ** Illustrator *)

Section Illustrator.
Context {W : Type} (svc : Services W).

Ltac illustrator_step :=
  match goal with
  | |- context [openai_client ?v ?w] =>
      destruct (openai_client v w) as [[?|[]] ?] eqn:?
  | |- context [models_list ?v ?w] =>
      destruct (models_list v w) as [[?|[]] ?] eqn:?
  | |- context [images_generate ?v ?m ?p ?w] =>
      destruct (images_generate v m p w) as [[?|?] ?] eqn:?
  | |- context [match data ?r with _ => _ end] =>
      destruct (data r) as [|[?|] ?] eqn:?
  | |- context [http_get ?v ?u ?ps ?w] =>
      destruct (http_get v u ps w) as [[?|?] ?] eqn:?
  | |- context [Z.eqb (status_code ?r) 200] =>
      destruct (Z.eqb_spec (status_code r) 200)
  | |- context [fs_makedirs ?v ?p ?w] =>
      destruct (fs_makedirs v p w) as [[?|[]] ?] eqn:?
  | |- context [fs_open_write ?v ?p ?w] =>
      destruct (fs_open_write v p w) as [[?|[]] ?] eqn:?
  | |- context [fs_copy_stream ?v ?p ?w] =>
      destruct (fs_copy_stream v p w) as [[?|[]] ?] eqn:?
  end; cbn.

Ltac break_hyps :=
  repeat match goal with
    | H : exists _, _ |- _ => destruct H
    | H : _ /\ _ |- _ => destruct H
    | H : _ \/ _ |- _ => destruct H
    end.

(** C5, as the code has it: [generate_and_save_image] never raises.  It
    builds the client and lists the models first; when either fails no
    image is requested.  Otherwise it requests dall-e-3, and requests
    dall-e-2, once, exactly when dall-e-3 failed.  It returns [save_path]
    when no step fails and the empty string when any step does. *)
Theorem generate_and_save_image_fallback_chain
    (prompt : pyval) (save_path : string) (s : state W) :
  exists r s' made,
    generate_and_save_image svc prompt save_path s = (inr r, s') /\
    calls s' = calls s ++ made /\
    (illustrate_ok svc prompt save_path (world s) -> r = save_path) /\
    (~ illustrate_ok svc prompt save_path (world s) -> r = "") /\
    (forall w2, listing_ok svc (world s) w2 ->
        (primary_ok svc prompt w2 -> image_models made = ["dall-e-3"]) /\
        (primary_fails svc prompt w2 ->
         image_models made = ["dall-e-3"; "dall-e-2"])) /\
    ((~ exists w2, listing_ok svc (world s) w2) -> image_models made = []).
Proof.
  unfold generate_and_save_image, OpenAI, client_images_generate, first_url,
    requests_get_stream, requests_get, os_makedirs, write_image.
  unfold_m. cbn.
  repeat illustrator_step.
  all: eexists _, _, _; split; [reflexivity|]; cbn;
    split; [rewrite <- ?app_assoc; reflexivity|].
  all: unfold illustrate_ok, listing_ok, generation_ok, download_and_save_ok,
         primary_ok, primary_fails.
  all: repeat split; intros; break_hyps; try congruence.
  all: exfalso; match goal with H : ~ _ |- _ => apply H end.
  all: unfold illustrate_ok, listing_ok, generation_ok, download_and_save_ok.
  all: eauto 25.
Qed.
End Illustrator.

Lemma generate_and_save_image_fallback_chain_witness :
  fst (generate_and_save_image (Scripted.services Scripted.primary_down)
         (PStr "BTC hits new high") "news/BTC-USDT/11032026/1/chart.png"
         (Scripted.init ∅))
  = inr "news/BTC-USDT/11032026/1/chart.png" /\
  image_models
    (calls (snd (generate_and_save_image (Scripted.services Scripted.primary_down)
                   (PStr "BTC hits new high") "news/BTC-USDT/11032026/1/chart.png"
                   (Scripted.init ∅))))
  = ["dall-e-3"; "dall-e-2"].
Proof.
  destruct (generate_and_save_image_fallback_chain
              (Scripted.services Scripted.primary_down)
              (PStr "BTC hits new high") "news/BTC-USDT/11032026/1/chart.png"
              (Scripted.init ∅))
    as (r & s' & made & Hrun & Hcalls & Hok & _ & Hmodels & _).
  rewrite Hrun. cbn [fst snd]. rewrite Hcalls. cbn [Scripted.init calls app].
  clear Hrun Hcalls. split.
  - f_equal. apply Hok.
    exists tt, "https://img.example.org/1.png", tt. split; [|split].
    + exists tt. split; reflexivity.
    + exists {| data := [Some "https://img.example.org/1.png"] |}, [].
      split; [reflexivity|].
      right. exists Scripted.APIError, tt. split; reflexivity.
    + exists {| status_code := 200; json := inr [] |}, tt, tt, tt, tt.
      repeat split; reflexivity.
  - apply (Hmodels tt).
    + exists tt. split; reflexivity.
    + exists Scripted.APIError, tt. reflexivity.
Defined.

(** The model listing fails: the empty string comes back and dall-e-3 was
    never requested. *)
Lemma generate_and_save_image_no_request :
  fst (generate_and_save_image (Scripted.services Scripted.openai_down)
         (PStr "BTC hits new high") "news/BTC-USDT/11032026/1/chart.png"
         (Scripted.init ∅)) = inr "" /\
  calls (snd (generate_and_save_image (Scripted.services Scripted.openai_down)
                (PStr "BTC hits new high") "news/BTC-USDT/11032026/1/chart.png"
                (Scripted.init ∅))) = [CClient; CModelsList].
Proof. split; reflexivity. Qed.

(** ** RecordStore *)

Section Store.
Context {W : Type}.

(** C6, as the code has it: the load returns the empty collection, and
    [current_id] 0, when no predictions file exists or when the file is
    empty; it returns the stored records when the file holds some; a file
    that cannot be opened or parsed makes it raise. *)
Theorem load_predictions_cases (yaml_path : string) (s : state W) :
  (files s !! yaml_path = None ->
   load_predictions yaml_path s = (inr ([], 0), s)) /\
  (files s !! yaml_path = Some (YamlDoc YFalsy) ->
   load_predictions yaml_path s = (inr ([], 0), s)) /\
  (forall l, files s !! yaml_path = Some (YamlDoc (YMap (Some l))) ->
             load_predictions yaml_path s = (inr (l, py_max (map id l) 0), s)) /\
  (forall e, files s !! yaml_path = Some (Broken e) ->
             load_predictions yaml_path s = (inl e, s)).
Proof.
  unfold load_predictions, safe_load_file, predictions_of. unfold_m.
  repeat split; intros; match goal with H : _ !! _ = _ |- _ => by rewrite !H end.
Qed.
End Store.

(** A predictions file that does not parse: the load raises, and so does
    [process_news]. *)
Lemma load_predictions_unreadable_raises :
  fst (load_predictions "news/BTC-USDT/11032026/predictions.yaml"
         (Scripted.init {[ "news/BTC-USDT/11032026/predictions.yaml"
                             := Broken Scripted.YAMLError ]}))
  = inl Scripted.YAMLError /\
  fst (process_news (Scripted.services Scripted.all_up) "BTC"
         (Scripted.init {[ "news/BTC-USDT/11032026/predictions.yaml"
                             := Broken Scripted.YAMLError ]}))
  = inl Scripted.YAMLError.
Proof. split; vm_compute; reflexivity. Qed.

Lemma load_predictions_cases_witness :
  fst (load_predictions "news/BTC-USDT/11032026/predictions.yaml"
         (Scripted.init ∅)) = inr ([], 0) /\
  fst (load_predictions "news/BTC-USDT/11032026/predictions.yaml"
         (Scripted.init {[ "news/BTC-USDT/11032026/predictions.yaml"
                             := YamlDoc YFalsy ]})) = inr ([], 0) /\
  fst (load_predictions "news/BTC-USDT/11032026/predictions.yaml"
         (Scripted.init {[ "news/BTC-USDT/11032026/predictions.yaml"
                             := Broken Scripted.YAMLError ]})) = inl Scripted.YAMLError.
Proof.
  split; [|split].
  - destruct (load_predictions_cases "news/BTC-USDT/11032026/predictions.yaml"
                (Scripted.init ∅)) as (H & _).
    by rewrite H.
  - destruct (load_predictions_cases "news/BTC-USDT/11032026/predictions.yaml"
                (Scripted.init {[ "news/BTC-USDT/11032026/predictions.yaml"
                                    := YamlDoc YFalsy ]})) as (_ & H & _).
    by rewrite H.
  - destruct (load_predictions_cases "news/BTC-USDT/11032026/predictions.yaml"
                (Scripted.init {[ "news/BTC-USDT/11032026/predictions.yaml"
                                    := Broken Scripted.YAMLError ]})) as (_ & _ & _ & H).
    by rewrite (H Scripted.YAMLError).
Defined.

(** ** What a run writes *)

Create HintDb keeps.

Section Keeps.
Context {W : Type} (svc : Services W).

Lemma only_images_refl (fs : gmap string file) : only_images fs fs.
Proof. intros path. by left. Qed.

Lemma only_images_trans (fs1 fs2 fs3 : gmap string file) :
  only_images fs1 fs2 -> only_images fs2 fs3 -> only_images fs1 fs3.
Proof.
  intros H12 H23 path. destruct (H23 path) as [-> | ->]; [apply H12|by right].
Qed.

Lemma only_images_ok (fs fs' : gmap string file) :
  only_images fs fs' -> collections_ok fs -> collections_ok fs'.
Proof.
  intros Himg Hok path l Hl. destruct (Himg path) as [E|E]; rewrite E in Hl.
  - by apply (Hok path).
  - discriminate.
Qed.

Lemma keeps_ret {A} (a : A) : keeps (W := W) (ret a).
Proof. intros s r s' [= _ <-]. apply only_images_refl. Qed.

Lemma keeps_raise {A} (e : exn) : keeps (W := W) (raise (A := A) e).
Proof. intros s r s' [= _ <-]. apply only_images_refl. Qed.

Lemma keeps_print (line : string) : keeps (W := W) (print line).
Proof. intros s r s' [= _ <-]. apply only_images_refl. Qed.

Lemma keeps_logger (lvl : log_level) (message : string) :
  keeps (W := W) (logger lvl message).
Proof. intros s r s' [= _ <-]. apply only_images_refl. Qed.

Lemma keeps_invoke {A} (c : call) (f : W -> (exn + A) * W) : keeps (invoke c f).
Proof.
  intros s r s' H. apply invoke_files in H as ->. apply only_images_refl.
Qed.

Lemma keeps_read_world {A} (f : W -> A) : keeps (read_world f).
Proof. intros s r s' [= _ <-]. apply only_images_refl. Qed.

Lemma keeps_get_file (path : string) : keeps (W := W) (get_file path).
Proof. intros s r s' [= _ <-]. apply only_images_refl. Qed.

Lemma keeps_os_path_exists (path : string) : keeps (W := W) (os_path_exists path).
Proof. intros s r s' [= _ <-]. apply only_images_refl. Qed.

Lemma keeps_put_image (path : string) : keeps (W := W) (put_file path ImageFile).
Proof.
  intros s r s' [= _ <-] p. cbn [files].
  destruct (decide (path = p)) as [->|Hne].
  - right. apply lookup_insert_eq.
  - left. by apply lookup_insert_ne.
Qed.

Lemma keeps_bind {A B} (m : M W A) (k : A -> M W B) :
  keeps m -> (forall a, keeps (k a)) -> keeps (bind m k).
Proof.
  intros Hm Hk s r s'. unfold bind.
  destruct (m s) as [[e|a] s1] eqn:E.
  - intros [= <- <-]. by eapply Hm.
  - intros H. eapply only_images_trans; [by eapply Hm|by eapply Hk].
Qed.

Lemma keeps_try_except {A} (body : M W A) (handler : exn -> M W A) :
  keeps body -> (forall e, keeps (handler e)) -> keeps (try_except body handler).
Proof.
  intros Hm Hk s r s'. unfold try_except.
  destruct (body s) as [[e|a] s1] eqn:E.
  - intros H. eapply only_images_trans; [by eapply Hm|by eapply Hk].
  - intros [= <- <-]. by eapply Hm.
Qed.

Lemma keeps_for_each {A B} (body : B -> A -> M W B) (items : list A) :
  (forall acc x, keeps (body acc x)) -> forall acc, keeps (for_each body items acc).
Proof.
  intros Hbody. induction items as [|x items IH]; intros acc; cbn [for_each].
  - apply keeps_ret.
  - apply keeps_bind; [apply Hbody|apply IH].
Qed.

Ltac keeps_tac :=
  repeat first
    [ apply keeps_ret | apply keeps_raise | apply keeps_print | apply keeps_invoke
    | apply keeps_logger | apply keeps_read_world | apply keeps_get_file | apply keeps_os_path_exists
    | apply keeps_put_image
    | solve [auto with keeps]
    | apply keeps_bind; [|intros ?]
    | apply keeps_try_except; [|intros ?]
    | match goal with
      | |- keeps (match ?x with _ => _ end) => destruct x
      end ].

Lemma keeps_keep_news (results : list Dict) : keeps (W := W) (keep_news results).
Proof.
  induction results as [|news rest IH]; cbn [keep_news]; unfold getitem; keeps_tac.
Qed.
Hint Resolve keeps_keep_news : keeps.

Lemma keeps_get_coingecko_news (token : string) : keeps (get_coingecko_news svc token).
Proof. unfold get_coingecko_news, requests_get, response_json. keeps_tac. Qed.

Lemma keeps_get_cryptopanic_news (token : string) : keeps (get_cryptopanic_news svc token).
Proof. unfold get_cryptopanic_news, requests_get, response_json. keeps_tac. Qed.

Lemma keeps_get_sentiment_and_summary (title description : pyval) :
  keeps (get_sentiment_and_summary svc title description).
Proof.
  unfold get_sentiment_and_summary, OpenAI, chat_completions_create,
    first_content_stripped. keeps_tac.
Qed.

Lemma keeps_generate_and_save_image (prompt : pyval) (save_path : string) :
  keeps (generate_and_save_image svc prompt save_path).
Proof.
  unfold generate_and_save_image, OpenAI, client_images_generate, first_url,
    requests_get_stream, requests_get, os_makedirs, write_image. keeps_tac.
Qed.
Hint Resolve keeps_get_sentiment_and_summary keeps_generate_and_save_image : keeps.

Lemma keeps_coingecko_body token current_date base_dir acc news :
  keeps (coingecko_body svc token current_date base_dir acc news).
Proof. unfold coingecko_body, os_makedirs, getitem. keeps_tac. Qed.

Lemma keeps_cryptopanic_body token current_date base_dir acc news :
  keeps (cryptopanic_body svc token current_date base_dir acc news).
Proof. unfold cryptopanic_body, os_makedirs, getitem. keeps_tac. Qed.

Lemma keeps_load_predictions (yaml_path : string) :
  keeps (W := W) (load_predictions yaml_path).
Proof. unfold load_predictions, safe_load_file, predictions_of. keeps_tac. Qed.

(** A step of a [bind] chain: the step failed and the chain stops there,
    or it returned and the chain goes on; charts only were written. *)
Lemma bind_step {A B} (m : M W A) (k : A -> M W B) (s s' : state W) r :
  keeps m -> bind m k s = (r, s') ->
  exists s1,
    only_images (files s) (files s1) /\
    ((exists e, r = inl e /\ s' = s1) \/
     (exists a, m s = (inr a, s1) /\ k a s1 = (r, s'))).
Proof.
  intros Hm. unfold bind. destruct (m s) as [[e|a] s1] eqn:E; intros H.
  - injection H as <- <-. exists s1. split; [by eapply Hm|]. left. eauto.
  - exists s1. split; [by eapply Hm|]. right. eauto.
Qed.
End Keeps.

(** ** The pipeline *)

Section Pipeline.
Context {W : Type} (svc : Services W).

Ltac bind_inv_all H :=
  repeat first
    [ apply bind_inv in H as (? & ? & ? & H)
    | match type of H with
      | context [let '(_, _) := ?x in _] => destruct x; cbn beta iota in H
      end ].

Lemma coingecko_body_appends token current_date base_dir :
  appends_one token current_date (coingecko_body svc token current_date base_dir).
Proof.
  intros acc news s acc' s' H. unfold coingecko_body in H.
  bind_inv_all H. unfold ret in H. injection H as <- _.
  eexists. split; [reflexivity|]. done.
Qed.

Lemma cryptopanic_body_appends token current_date base_dir :
  appends_one token current_date (cryptopanic_body svc token current_date base_dir).
Proof.
  intros acc news s acc' s' H. unfold cryptopanic_body in H.
  bind_inv_all H. unfold ret in H. injection H as <- _.
  eexists. split; [reflexivity|]. done.
Qed.

Lemma for_each_appends (token current_date : string)
    (body : Z * list EnrichedRecord -> Dict -> M W (Z * list EnrichedRecord)) :
  appends_one token current_date body ->
  forall items acc s acc' s',
    for_each body items acc s = (inr acc', s') ->
    exists new,
      acc' = (fst acc + Z.of_nat (length items), snd acc ++ new) /\
      ids new = seqZ (fst acc + 1) (Z.of_nat (length items)) /\
      Forall (fun e => image e = image_field token current_date (id e)) new.
Proof.
  intros Hbody items. induction items as [|x items IH]; intros acc s acc' s' H.
  - cbn in H. injection H as <- _. exists []. destruct acc.
    cbn. by rewrite Z.add_0_r, app_nil_r.
  - cbn [for_each] in H. apply bind_inv in H as (acc1 & s1 & Hx & H).
    apply Hbody in Hx as (e & -> & Hid & Himg).
    apply IH in H as (new & -> & Hids & Himgs). cbn [fst snd] in *.
    exists (e :: new). split; [|split].
    + f_equal; [cbn [length]; lia|]. by rewrite <- app_assoc.
    + cbn [length]. rewrite Nat2Z.inj_succ, seqZ_cons by lia.
      unfold ids in *. cbn [map]. rewrite Hid. f_equal.
      rewrite Hids. f_equal; lia.
    + by constructor.
Qed.

Lemma load_predictions_inv (path : string) (s s' : state W) l cur :
  load_predictions path s = (inr (l, cur), s') ->
  s' = s /\ stored (files s) path l /\ cur = py_max (ids l) 0.
Proof.
  unfold load_predictions, safe_load_file, predictions_of, stored. unfold_m.
  destruct (files s !! path) as [[[|[l0|]|]|e|]|] eqn:Hf; rewrite ?Hf;
    intros [= <- <- <-] || intros [=]; eauto 6.
Qed.

Lemma ids_seqZ_length (l : list EnrichedRecord) (a : Z) (n : nat) :
  ids l = seqZ a (Z.of_nat n) -> length l = n.
Proof.
  intros H. apply (f_equal length) in H. unfold ids in H.
  rewrite length_map, length_seqZ in H. lia.
Qed.

Lemma process_news_saves (token : string) (s s' : state W) :
  process_news svc token s = (inr tt, s') ->
  exists old new,
    stored (files s) (yaml_path_of token (today svc (world s))) old /\
    files s' !! yaml_path_of token (today svc (world s))
    = Some (YamlDoc (YMap (Some (old ++ new)))) /\
    ids new = seqZ (next_id old) (Z.of_nat (length new)) /\
    Forall (fun e => image e = image_field token (today svc (world s)) (id e)) new.
Proof.
  unfold process_news. intros H.
  apply bind_inv in H as (current_date & s0 & Hdate & H).
  unfold read_world in Hdate. injection Hdate as <- <-.
  apply bind_inv in H as (? & s1 & Hmk & H).
  apply invoke_files in Hmk.
  apply bind_inv in H as ([old current_id] & s2 & Hload & H).
  apply load_predictions_inv in Hload as (-> & Hstored & ->).
  apply bind_inv in H as (coingecko_news & s3 & _ & H).
  apply bind_inv in H as (acc1 & s4 & Hloop1 & H).
  apply bind_inv in H as (cryptopanic_news & s5 & _ & H).
  apply bind_inv in H as (acc2 & s6 & Hloop2 & H).
  eapply for_each_appends in Hloop1 as (new1 & -> & Hids1 & Himg1);
    [|apply coingecko_body_appends].
  eapply for_each_appends in Hloop2 as (new2 & -> & Hids2 & Himg2);
    [|apply cryptopanic_body_appends].
  cbn [fst snd] in *.
  apply save_predictions_cases in H
    as [[_ Hsaved]|[(e & [=] & _)|(e & ? & ? & [=] & _)]].
  exists old, (new1 ++ new2). rewrite Hmk in Hstored.
  split; [exact Hstored|]. rewrite Hsaved.
  split; [by rewrite lookup_insert_eq, app_assoc|]. split.
  - pose proof (ids_seqZ_length _ _ _ Hids1) as Hlen1.
    pose proof (ids_seqZ_length _ _ _ Hids2) as Hlen2.
    unfold ids in *. rewrite map_app, Hids1, Hids2, length_app, Nat2Z.inj_add.
    rewrite seqZ_app by lia. unfold next_id, ids.
    rewrite Hlen1, Hlen2. do 2 f_equal. lia.
  - by apply Forall_app.
Qed.

(** [py_max] is the maximum of a non-empty list. *)
Lemma foldl_max_ge (l : list Z) (a : Z) :
  a <= foldl Z.max a l /\ forall x, x ∈ l -> x <= foldl Z.max a l.
Proof.
  revert a. induction l as [|y l IH]; intros a; cbn [foldl].
  - split; [lia|]. intros x Hx. by apply elem_of_nil in Hx.
  - destruct (IH (Z.max a y)) as [Ha Hl]. split; [lia|].
    intros x [->|Hx]%elem_of_cons; [lia|]. by apply Hl.
Qed.


Lemma py_max_ge (l : list Z) (d x : Z) : x ∈ l -> x <= py_max l d.
Proof.
  destruct l as [|a l]; [by intros ?%elem_of_nil|]. cbn [py_max].
  destruct (foldl_max_ge l a) as [Ha Hl].
  intros [->|Hx]%elem_of_cons; [done|]. by apply Hl.
Qed.


Lemma seqZ_increasing (a : Z) (n : nat) : strictly_increasing (seqZ a (Z.of_nat n)).
Proof.
  revert a. induction n as [|n IH]; intros a; [constructor|].
  rewrite Nat2Z.inj_succ, seqZ_cons by lia. constructor.
  - replace (Z.pred (Z.succ (Z.of_nat n))) with (Z.of_nat n) by lia. apply IH.
  - apply Forall_forall. intros x Hx. apply elem_of_seqZ in Hx. lia.
Qed.

Lemma increasing_NoDup (l : list Z) : strictly_increasing l -> NoDup l.
Proof.
  induction 1 as [|x l _ IH Hall]; constructor; [|done].
  intros Hx. rewrite Forall_forall in Hall. specialize (Hall _ Hx). lia.
Qed.

Lemma next_id_above (l : list EnrichedRecord) (i : Z) : i ∈ ids l -> i < next_id l.
Proof. intros Hi. unfold next_id. pose proof (py_max_ge _ 0 _ Hi). lia. Qed.

Lemma append_increasing (old new : list EnrichedRecord) :
  ids new = seqZ (next_id old) (Z.of_nat (length new)) ->
  strictly_increasing (ids old) ->
  strictly_increasing (ids (old ++ new)).
Proof.
  intros Hnew Hold. unfold ids in *. rewrite map_app.
  apply StronglySorted_app_2; [|done|rewrite Hnew; apply seqZ_increasing].
  intros i j Hi Hj. rewrite Hnew in Hj. apply elem_of_seqZ in Hj.
  pose proof (next_id_above old i Hi). lia.
Qed.



Lemma stored_increasing (fs : gmap string file) (path : string) l :
  collections_ok fs -> stored fs path l -> strictly_increasing (ids l).
Proof.
  intros Hok [H|[-> _]]; [by apply (Hok path)|constructor].
Qed.

Ltac chain_step H Iacc s1 a Hm :=
  let I := fresh "I" in
  let I' := fresh "I" in
  apply bind_step in H as (s1 & I & [(? & -> & ->)|(a & Hm & H)]);
  [ eapply only_images_ok;
    [eapply only_images_trans; [exact Iacc|exact I]|assumption]
  | pose proof (only_images_trans _ _ _ Iacc I) as I'; clear Iacc I;
    rename I' into Iacc
  | ].

(** Whatever a run of [process_news] ends with, the collections on the
    disk keep strictly increasing ids. *)
Lemma process_news_collections (token : string) (s s' : state W) r :
  process_news svc token s = (r, s') ->
  collections_ok (files s) -> collections_ok (files s').
Proof.
  unfold process_news. intros H Hok.
  pose proof (only_images_refl (files s)) as Iacc.
  chain_step H Iacc s0 current_date Hdate; [|apply keeps_read_world].
  chain_step H Iacc s1 u Hmk; [|apply keeps_invoke].
  chain_step H Iacc s2 loaded Hload; [|apply keeps_load_predictions].
  destruct loaded as [old current_id].
  apply load_predictions_inv in Hload as (-> & Hstored & ->).
  assert (strictly_increasing (ids old)) as Hold.
  { eapply stored_increasing; [|exact Hstored]. by eapply only_images_ok. }
  chain_step H Iacc s3 coingecko_news Hcg; [|apply keeps_get_coingecko_news].
  chain_step H Iacc s4 acc1 Hloop1;
    [|apply keeps_for_each; intros; apply keeps_coingecko_body].
  chain_step H Iacc s5 cryptopanic_news Hcp; [|apply keeps_get_cryptopanic_news].
  chain_step H Iacc s6 acc2 Hloop2;
    [|apply keeps_for_each; intros; apply keeps_cryptopanic_body].
  eapply for_each_appends in Hloop1 as (new1 & -> & Hids1 & _);
    [|apply coingecko_body_appends].
  eapply for_each_appends in Hloop2 as (new2 & -> & Hids2 & _);
    [|apply cryptopanic_body_appends].
  cbn [fst snd] in *.
  apply save_predictions_cases in H
    as [[-> Hsaved]|[(e & -> & Hsaved)|(e & ? & ? & -> & _ & Hsaved)]];
    rewrite Hsaved; clear Hsaved.
  2: { eapply only_images_ok; [exact Iacc|exact Hok]. }
  2: { intros path l.
       destruct (decide (os_path_join (base_dir_of token current_date)
                           "predictions.yaml" = path)) as [<-|Hne].
       - by rewrite lookup_insert_eq.
       - rewrite lookup_insert_ne by done. intros Hl.
         eapply only_images_ok; [exact Iacc|exact Hok|exact Hl]. }
  intros path l.
  destruct (decide (os_path_join (base_dir_of token current_date) "predictions.yaml"
                    = path)) as [<-|Hne].
  - rewrite lookup_insert_eq. intros [= <-].
    assert (strictly_increasing (ids ((old ++ new1) ++ new2))) as Hinc.
    { pose proof (ids_seqZ_length _ _ _ Hids1) as Hlen1.
      pose proof (ids_seqZ_length _ _ _ Hids2) as Hlen2.
      assert (ids new1 = seqZ (next_id old) (Z.of_nat (length new1))) as Hn1
        by (by rewrite Hlen1).
      unfold ids in *. rewrite !map_app.
      apply StronglySorted_app_2.
      - intros i j Hi Hj. rewrite Hids2 in Hj. apply elem_of_seqZ in Hj.
        apply elem_of_app in Hi as [Hi|Hi].
        + pose proof (py_max_ge _ 0 _ Hi). lia.
        + rewrite Hids1 in Hi. apply elem_of_seqZ in Hi. lia.
      - rewrite <- map_app. by apply append_increasing.
      - rewrite Hids2. apply seqZ_increasing. }
    split; [done|by apply increasing_NoDup].
  - rewrite lookup_insert_ne by done. intros Hl.
    eapply only_images_ok; [exact Iacc|exact Hok|exact Hl].
Qed.


Lemma main_loop_runs (tokens : list string) (s : state W) :
  exists rs s',
    main_loop svc tokens s = (inr tt, s') /\
    symbol_runs svc tokens s rs s' /\
    length rs = length tokens.
Proof.
  revert s. induction tokens as [|token rest IH]; intros s.
  - exists [], s. repeat split. constructor.
  - destruct (process_news svc token s) as [r s1] eqn:Hrun.
    destruct (IH (printed (verdict token r) s1)) as (rs & s' & Hloop & Hruns & Hlen).
    exists (r :: rs), s'. split; [|split].
    + cbn [main_loop]. unfold_m. rewrite Hrun.
      destruct r as [e|[]]; exact Hloop.
    + by econstructor.
    + cbn [length]. by rewrite Hlen.
Qed.

(** C8: the loop of [main] never raises, and it runs [process_news] for
    every symbol of its list in turn, whatever the earlier runs ended
    with; the outcome of each run is printed, the exception when there is
    one.  Once the processor is built, [main] itself returns whatever
    [process_news] does for its one symbol. *)
Theorem main_loop_isolates_failures (s : state W) :
  (forall tokens,
      exists rs s',
        main_loop svc tokens s = (inr tt, s') /\
        symbol_runs svc tokens s rs s' /\
        length rs = length tokens) /\
  (forall s0,
      CryptoNewsProcessor_init svc s = (inr tt, s0) ->
      exists r s1,
        process_news svc "BTC" s0 = (r, s1) /\
        main svc s = (inr tt, printed (verdict "BTC" r) s1)).
Proof.
  split; [intros tokens; apply main_loop_runs|].
  intros s0 Hinit.
  destruct (process_news svc "BTC" s0) as [r s1] eqn:Hrun.
  exists r, s1. split; [done|].
  unfold main. rewrite (bind_inr _ _ _ _ _ Hinit).
  cbn [main_loop]. unfold_m. rewrite Hrun. by destruct r as [e|[]].
Qed.
End Pipeline.

(** ** Concrete runs *)

(** The scenario of the specification: one item from provider A, the
    summary and the sentiment as mocked, the image downloaded. *)
Example end_to_end_first_record :
  exists rest,
    files Scripted.after_first_run !! Scripted.btc_yaml
    = Some (YamlDoc (YMap (Some
        ({| id := 1;
            title := "CoinDesk - VeryBullish";
            preview := "BTC price surged to new high";
            fullContent := PStr "Price surged";
            image := "news/BTC-USDT/11032026/1/chart.png";
            sourcelink := PStr "https://example.org/btc";
            sentiment := "VeryBullish" |} :: rest)))) /\
    files Scripted.after_first_run !! "news/BTC-USDT/11032026/1/chart.png"
    = Some ImageFile.
Proof. eexists. split; vm_compute; reflexivity. Qed.

Example rerun_ids :
  (match files Scripted.after_second_run !! Scripted.btc_yaml with
   | Some (YamlDoc (YMap (Some l))) => ids l
   | _ => []
   end) = [1; 2; 3; 4].
Proof. vm_compute. reflexivity. Qed.

(** The first symbol fails, the second is processed all the same. *)
Example main_loop_continues_after_failure :
  let run := main_loop (Scripted.services Scripted.btc_dir_locked) ["BTC"; "ETH"]
               (Scripted.init ∅) in
  fst run = inr tt /\
  stdout (snd run)
  = ["Error processing BTC news: [Errno 13] Permission denied";
     "<Response [200]>";
     "Successfully processed news for ETH"] /\
  (match files (snd run) !! "news/ETH-USDT/11032026/predictions.yaml" with
   | Some (YamlDoc (YMap (Some l))) => ids l
   | _ => []
   end) = [1; 2].
Proof. vm_compute. repeat split. Qed.

Lemma main_loop_isolates_failures_witness :
  main (Scripted.services Scripted.transport_down) (Scripted.init ∅)
  = (inr tt,
     Build_state tt ∅ ["Error processing BTC news: Max retries exceeded"]
       [CLoggingConfig; CMakedirs "news/BTC-USDT/11032026";
        CGet "https://api.coingecko.com/api/v3/news" [("filter", "BTC")]]
       []).
Proof.
  destruct (main_loop_isolates_failures (Scripted.services Scripted.transport_down)
              (Scripted.init ∅)) as [_ Hmain].
  destruct (Hmain (Build_state tt ∅ [] [CLoggingConfig] []) eq_refl)
    as (r & s1 & Hrun & ->).
  vm_compute in Hrun. injection Hrun as <- <-. reflexivity.
Defined.


(** ** Further properties of the enricher *)

Section EnricherMore.
Context {W : Type} (svc : Services W).

Lemma strip_front_bounded sp1 sp2 sp3 (n : nat) (l : list ascii) :
  (length l <= n)%nat ->
  clean_front sp1 sp2 sp3 (strip_front sp1 sp2 sp3 l) /\
  exists sp, l = sp ++ strip_front sp1 sp2 sp3 l.
Proof.
  revert l. induction n as [|n IH]; intros l Hlen.
  { destruct l; [|cbn in Hlen; lia]. split; [done|by exists []]. }
  destruct l as [|a r]; [split; [done|by exists []]|].
  cbn [length] in Hlen. cbn [strip_front].
  destruct (sp1 a) eqn:E1.
  { destruct (IH r) as [Hc [sp Hsp]]; [lia|]. split; [done|].
    exists (a :: sp). cbn. by rewrite <- Hsp. }
  destruct r as [|b r2]; [split; [done|by exists []]|].
  cbn [length] in Hlen.
  destruct (sp2 a b) eqn:E2.
  { destruct (IH r2) as [Hc [sp Hsp]]; [lia|]. split; [done|].
    exists (a :: b :: sp). cbn. by rewrite <- Hsp. }
  destruct r2 as [|c r3]; [split; [done|by exists []]|].
  cbn [length] in Hlen.
  destruct (sp3 a b c) eqn:E3.
  { destruct (IH r3) as [Hc [sp Hsp]]; [lia|]. split; [done|].
    exists (a :: b :: c :: sp). cbn. by rewrite <- Hsp. }
  split; [done|by exists []].
Qed.

Lemma strip_front_clean sp1 sp2 sp3 (l : list ascii) :
  clean_front sp1 sp2 sp3 (strip_front sp1 sp2 sp3 l).
Proof. by apply (strip_front_bounded sp1 sp2 sp3 (length l) l). Qed.

Lemma strip_front_suffix sp1 sp2 sp3 (l : list ascii) :
  exists sp, l = sp ++ strip_front sp1 sp2 sp3 l.
Proof. by apply (strip_front_bounded sp1 sp2 sp3 (length l) l). Qed.

Lemma strip_front_fixed sp1 sp2 sp3 (l : list ascii) :
  clean_front sp1 sp2 sp3 l -> strip_front sp1 sp2 sp3 l = l.
Proof.
  destruct l as [|a [|b [|c r]]]; cbn; [done|..].
  - by intros [-> _].
  - by intros (-> & -> & _).
  - by intros (-> & -> & ->).
Qed.

Lemma clean_front_prefix sp1 sp2 sp3 (l x : list ascii) :
  clean_front sp1 sp2 sp3 (l ++ x) -> clean_front sp1 sp2 sp3 l.
Proof.
  destruct l as [|a [|b [|c r]]]; cbn; [done|..].
  - by intros [-> _].
  - by intros (-> & -> & _).
  - done.
Qed.

Lemma strip_list_idempotent (l : list ascii) :
  let r := rev (rstrip_reversed (rev (lstrip_list l))) in
  rev (rstrip_reversed (rev (lstrip_list r))) = r.
Proof.
  intros r.
  assert (rstrip_reversed (rev r) = rev r) as Hback.
  { unfold r. rewrite rev_involutive. apply strip_front_fixed, strip_front_clean. }
  assert (lstrip_list r = r) as Hfront.
  { apply strip_front_fixed.
    destruct (strip_front_suffix is_space (fun a b => is_space2 b a)
                (fun a b c => is_space3 c b a) (rev (lstrip_list l))) as [sp Hsp].
    apply (f_equal (@rev ascii)) in Hsp. rewrite rev_involutive, rev_app_distr in Hsp.
    fold (rstrip_reversed (rev (lstrip_list l))) in Hsp. fold r in Hsp.
    apply (clean_front_prefix _ _ _ r (rev sp)). rewrite <- Hsp.
    apply strip_front_clean. }
  by rewrite Hfront, Hback, rev_involutive.
Qed.

Lemma py_strip_stripped (s : string) : stripped (py_strip s).
Proof.
  unfold stripped, py_strip.
  rewrite String.list_ascii_of_string_of_list_ascii.
  by rewrite strip_list_idempotent.
Qed.

Lemma mapping_get_cases (label : string) :
  let out := mapping_get sentiment_mapping label label in
  (out = "VeryBullish" \/ out = "VeryBearish" \/ out = label) /\
  out <> "Very Bullish" /\ out <> "Very Bearish".
Proof.
  unfold sentiment_mapping. cbn [mapping_get].
  destruct (String.eqb_spec "Very Bullish" label) as [<-|H1]; [by auto|].
  destruct (String.eqb_spec "Very Bearish" label) as [<-|H2]; [by auto|].
  split; [by auto|]. split; congruence.
Qed.

(** Every way a call to the enricher can go. *)
Lemma get_sentiment_and_summary_outcomes (title description : pyval) (s : state W) :
  exists p s' made out,
    get_sentiment_and_summary svc title description s = (inr p, s') /\
    files s' = files s /\
    calls s' = calls s ++ made /\
    stdout s' = stdout s ++ out /\
    ((p = ("Error generating summary", "Neutral") /\ length out = 1%nat /\
      (made = [CClient] \/
       made = [CClient; CChat "gpt-4o" (summary_prompt title)] \/
       made = [CClient; CChat "gpt-4o" (summary_prompt title);
               CChat "gpt-4o" (sentiment_prompt title description)])) \/
     (exists summary label,
         p = (py_strip summary,
              mapping_get sentiment_mapping (py_strip label) (py_strip label)) /\
         out = [] /\
         made = [CClient; CChat "gpt-4o" (summary_prompt title);
                 CChat "gpt-4o" (sentiment_prompt title description)])).
Proof.
  unfold get_sentiment_and_summary, OpenAI, chat_completions_create,
    first_content_stripped.
  unfold_m.
  destruct (openai_client svc (world s)) as [[e|[]] w1]; cbn.
  { eexists _, _, _, [_]. cbn. repeat split. left. auto. }
  destruct (chat_create svc "gpt-4o" (summary_prompt title) w1) as [[e|r1] w2]; cbn.
  { eexists _, _, _, [_]. cbn. rewrite <- !app_assoc. repeat split. left. auto. }
  destruct (choices r1) as [|[summary|] rest1]; cbn.
  { eexists _, _, _, [_]. cbn. rewrite <- !app_assoc. repeat split. left. auto. }
  2: { eexists _, _, _, [_]. cbn. rewrite <- !app_assoc. repeat split. left. auto. }
  destruct (chat_create svc "gpt-4o" (sentiment_prompt title description) w2)
    as [[e|r2] w3]; cbn.
  { eexists _, _, _, [_]. cbn. rewrite <- !app_assoc. repeat split. left. auto. }
  destruct (choices r2) as [|[label|] rest2]; cbn.
  { eexists _, _, _, [_]. cbn. rewrite <- !app_assoc. repeat split. left. auto. }
  2: { eexists _, _, _, [_]. cbn. rewrite <- !app_assoc. repeat split. left. auto. }
  eexists _, _, [CClient; CChat "gpt-4o" (summary_prompt title);
                 CChat "gpt-4o" (sentiment_prompt title description)], [].
  cbn. rewrite <- !app_assoc, app_nil_r. repeat split.
  right. by exists summary, label.
Qed.

(** X1: whatever the generation service does, the sentiment
    [get_sentiment_and_summary] returns is never one of the two spaced
    labels "Very Bullish" and "Very Bearish". *)
Theorem get_sentiment_and_summary_never_spaced_label
    (title description : pyval) (s : state W) :
  exists p s',
    get_sentiment_and_summary svc title description s = (inr p, s') /\
    snd p <> "Very Bullish" /\ snd p <> "Very Bearish".
Proof.
  destruct (get_sentiment_and_summary_outcomes title description s)
    as (p & s' & made & out & Hrun & _ & _ & _ & Hcases).
  exists p, s'. split; [done|].
  destruct Hcases as [(-> & _)|(summary & label & -> & _)]; [by split|].
  apply mapping_get_cases.
Qed.

(** X2: both strings [get_sentiment_and_summary] returns are free of
    leading and trailing whitespace: [str.strip()] would leave them as
    they are. *)
Theorem get_sentiment_and_summary_stripped
    (title description : pyval) (s : state W) :
  exists p s',
    get_sentiment_and_summary svc title description s = (inr p, s') /\
    stripped (fst p) /\ stripped (snd p).
Proof.
  destruct (get_sentiment_and_summary_outcomes title description s)
    as (p & s' & made & out & Hrun & _ & _ & _ & Hcases).
  exists p, s'. split; [done|].
  destruct Hcases as [(-> & _)|(summary & label & -> & _)]; [by split|].
  cbn [fst snd]. split; [apply py_strip_stripped|].
  destruct (mapping_get_cases (py_strip label)) as [[-> | [-> | ->]] _];
    [done..|apply py_strip_stripped].
Qed.

End EnricherMore.


(** The answers come wrapped in no-break spaces, which [str.strip()]
    removes: the label is found in the table. *)
Lemma get_sentiment_and_summary_stripped_witness :
  exists p,
    fst (get_sentiment_and_summary (Scripted.services MoreScripts.nbsp_label)
           (PStr "BTC hits new high") (PStr "Price surged") (Scripted.init ∅))
    = inr p /\
    p = ("BTC price surged", "VeryBullish") /\
    stripped (fst p) /\ stripped (snd p).
Proof.
  destruct (get_sentiment_and_summary_stripped (Scripted.services MoreScripts.nbsp_label)
              (PStr "BTC hits new high") (PStr "Price surged") (Scripted.init ∅))
    as (p & s' & Hrun & Hsummary & Hlabel).
  exists p. rewrite Hrun. cbn [fst]. split; [reflexivity|].
  split; [|by split].
  vm_compute in Hrun. by injection Hrun as <- _.
Defined.

(** ** Further properties of the illustrator *)

Ltac oracle_step :=
  match goal with
  | |- context [openai_client ?v ?w] =>
      destruct (openai_client v w) as [[?|[]] ?] eqn:?
  | |- context [models_list ?v ?w] =>
      destruct (models_list v w) as [[?|[]] ?] eqn:?
  | |- context [images_generate ?v ?m ?p ?w] =>
      destruct (images_generate v m p w) as [[?|?] ?] eqn:?
  | |- context [match data ?r with _ => _ end] =>
      destruct (data r) as [|[?|] ?] eqn:?
  | |- context [http_get ?v ?u ?ps ?w] =>
      destruct (http_get v u ps w) as [[?|?] ?] eqn:?
  | |- context [Z.eqb (status_code ?r) 200] =>
      destruct (Z.eqb_spec (status_code r) 200)
  | |- context [fs_makedirs ?v ?p ?w] =>
      destruct (fs_makedirs v p w) as [[?|[]] ?] eqn:?
  | |- context [fs_open_write ?v ?p ?w] =>
      destruct (fs_open_write v p w) as [[?|[]] ?] eqn:?
  | |- context [fs_copy_stream ?v ?p ?w] =>
      destruct (fs_copy_stream v p w) as [[?|[]] ?] eqn:?
  end; cbn.

Ltac split_hyps :=
  repeat match goal with
    | H : exists _, _ |- _ => destruct H
    | H : _ /\ _ |- _ => destruct H
    | H : _ \/ _ |- _ => destruct H
    end.

Section IllustratorMore.
Context {W : Type} (svc : Services W).

(** What a call to the illustrator does to the disk, to the console and
    to the log. *)
Lemma generate_and_save_image_effects (prompt : pyval) (save_path : string) (s : state W) :
  exists r s' records,
    generate_and_save_image svc prompt save_path s = (inr r, s') /\
    stdout s' = stdout s /\
    logged s'
    = logged s
      ++ record INFO ("Attempting to generate image with prompt: " +:+ py_str prompt)
         :: records /\
    closes_log r save_path records /\
    (files s' = files s \/ files s' = <[save_path := ImageFile]> (files s)) /\
    (illustrate_ok svc prompt save_path (world s) ->
     files s' !! save_path = Some ImageFile) /\
    ((~ exists w7, chart_opened svc prompt save_path (world s) w7) ->
     files s' = files s) /\
    (forall w7 e w8,
        chart_opened svc prompt save_path (world s) w7 ->
        fs_copy_stream svc save_path w7 = (inl e, w8) ->
        r = "" /\ files s' !! save_path = Some ImageFile).
Proof.
  unfold generate_and_save_image, OpenAI, client_images_generate, first_url,
    requests_get_stream, requests_get, os_makedirs, write_image.
  unfold_m. cbn.
  repeat oracle_step.
  all: eexists _, _, _; split; [reflexivity|]; cbn.
  all: split; [reflexivity|].
  all: split; [rewrite <- ?app_assoc; reflexivity|].
  all: split; [unfold closes_log; cbn; by eauto|].
  all: split; [by auto|].
  all: unfold illustrate_ok, chart_opened, listing_ok, generation_ok,
         download_and_save_ok.
  all: repeat split; intros; split_hyps; try congruence.
  all: try apply lookup_insert_eq.
  all: exfalso; match goal with H : ~ _ |- _ => apply H end.
  all: unfold chart_opened, listing_ok, generation_ok.
  all: eauto 25.
Qed.

(** The warnings of a call: one, when dall-e-3 was asked and failed. *)
Lemma generate_and_save_image_warnings (prompt : pyval) (save_path : string)
    (s : state W) :
  exists r s' records,
    generate_and_save_image svc prompt save_path s = (inr r, s') /\
    logged s'
    = logged s
      ++ record INFO ("Attempting to generate image with prompt: " +:+ py_str prompt)
         :: records /\
    (forall w2 e w3,
        listing_ok svc (world s) w2 ->
        images_generate svc "dall-e-3" (image_prompt prompt) w2 = (inl e, w3) ->
        warnings records = ["DALL-E 3 failed, trying DALL-E 2: " +:+ exn_str e]) /\
    (forall w2,
        listing_ok svc (world s) w2 -> primary_ok svc prompt w2 ->
        warnings records = []) /\
    ((~ exists w2, listing_ok svc (world s) w2) -> warnings records = []).
Proof.
  unfold generate_and_save_image, OpenAI, client_images_generate, first_url,
    requests_get_stream, requests_get, os_makedirs, write_image.
  unfold_m. cbn.
  repeat oracle_step.
  all: eexists _, _, _; split; [reflexivity|]; cbn.
  all: split; [rewrite <- ?app_assoc; reflexivity|].
  all: unfold listing_ok, primary_ok.
  all: repeat split; intros; split_hyps; cbn; try congruence.
  all: exfalso; match goal with H : ~ _ |- _ => apply H end.
  all: eauto 10.
Qed.


(** X5: when the chart file was opened and the copy of the stream fails,
    [generate_and_save_image] returns the empty string although a file,
    partial at best, now sits at [save_path]. *)
Theorem generate_and_save_image_partial_chart
    (prompt : pyval) (save_path : string) (s : state W) w7 e w8 :
  chart_opened svc prompt save_path (world s) w7 ->
  fs_copy_stream svc save_path w7 = (inl e, w8) ->
  fst (generate_and_save_image svc prompt save_path s) = inr "" /\
  files (snd (generate_and_save_image svc prompt save_path s)) !! save_path
  = Some ImageFile.
Proof.
  intros Hopened Hcopy.
  destruct (generate_and_save_image_effects prompt save_path s)
    as (r & s' & records & Hrun & _ & _ & _ & _ & _ & _ & Hpartial).
  rewrite Hrun. cbn [fst snd].
  destruct (Hpartial _ _ _ Hopened Hcopy) as [-> Hfile]. by split.
Qed.

(** X28: the records of a call to [generate_and_save_image] tell how it
    went.  The last one is the record of the saved chart when [save_path]
    is returned and an error when the empty string is; and there is a
    warning, with the text of the exception, exactly when dall-e-3 was
    asked and failed. *)
Theorem generate_and_save_image_log
    (prompt : pyval) (save_path : string) (s : state W) :
  exists r s' records,
    generate_and_save_image svc prompt save_path s = (inr r, s') /\
    logged s'
    = logged s
      ++ record INFO ("Attempting to generate image with prompt: " +:+ py_str prompt)
         :: records /\
    closes_log r save_path records /\
    (forall w2 e w3,
        listing_ok svc (world s) w2 ->
        images_generate svc "dall-e-3" (image_prompt prompt) w2 = (inl e, w3) ->
        warnings records = ["DALL-E 3 failed, trying DALL-E 2: " +:+ exn_str e]) /\
    (forall w2,
        listing_ok svc (world s) w2 -> primary_ok svc prompt w2 ->
        warnings records = []) /\
    ((~ exists w2, listing_ok svc (world s) w2) -> warnings records = []).
Proof.
  destruct (generate_and_save_image_effects prompt save_path s)
    as (r & s' & records & Hrun & _ & Hlog & Hlast & _).
  destruct (generate_and_save_image_warnings prompt save_path s)
    as (r0 & s0 & records0 & Hrun0 & Hlog0 & Hwarn).
  rewrite Hrun in Hrun0. injection Hrun0 as <- <-.
  rewrite Hlog in Hlog0. apply app_inv_head in Hlog0. injection Hlog0 as <-.
  by exists r, s', records.
Qed.
End IllustratorMore.


Lemma generate_and_save_image_partial_chart_witness :
  fst (generate_and_save_image (Scripted.services MoreScripts.copy_fails)
         (PStr "BTC hits new high") MoreScripts.chart_1 (Scripted.init ∅)) = inr "" /\
  files (snd (generate_and_save_image (Scripted.services MoreScripts.copy_fails)
                (PStr "BTC hits new high") MoreScripts.chart_1 (Scripted.init ∅)))
    !! MoreScripts.chart_1 = Some ImageFile.
Proof.
  apply (generate_and_save_image_partial_chart (Scripted.services MoreScripts.copy_fails)
           (PStr "BTC hits new high") MoreScripts.chart_1 (Scripted.init ∅)
           tt (Exn "ProtocolError" "Connection broken") tt); [|reflexivity].
  exists tt, "https://img.example.org/1.png", tt,
    {| status_code := 200; json := inr [] |}, tt, tt.
  split; [exists tt; split; reflexivity|]. split; [|repeat split; reflexivity].
  exists {| data := [Some "https://img.example.org/1.png"] |}, [].
  split; [reflexivity|]. left. reflexivity.
Defined.

Lemma generate_and_save_image_log_witness :
  exists records,
    logged (snd (generate_and_save_image (Scripted.services Scripted.primary_down)
                   (PStr "BTC hits new high") MoreScripts.chart_1 (Scripted.init ∅)))
    = record INFO "Attempting to generate image with prompt: BTC hits new high"
      :: records /\
    warnings records = ["DALL-E 3 failed, trying DALL-E 2: Connection error."] /\
    last records
    = Some (record INFO
              "Successfully saved image to: news/BTC-USDT/11032026/1/chart.png").
Proof.
  destruct (generate_and_save_image_log (Scripted.services Scripted.primary_down)
              (PStr "BTC hits new high") MoreScripts.chart_1 (Scripted.init ∅))
    as (r & s' & records & Hrun & Hlog & Hclose & Hwarn & _).
  assert (r = MoreScripts.chart_1) as ->.
  { vm_compute in Hrun. by injection Hrun as <- _. }
  rewrite Hrun. cbn [snd]. clear Hrun.
  exists records. split; [exact Hlog|]. split.
  - apply (Hwarn tt Scripted.APIError tt); [|reflexivity].
    exists tt. split; reflexivity.
  - destruct Hclose as [[_ Hlast]|[Hempty _]]; [exact Hlast|discriminate Hempty].
Defined.

(** ** The older illustrator *)

Ltac old_leaf :=
  eexists _, _, _; split; [reflexivity|];
  split; [cbn; rewrite <- ?app_assoc; reflexivity|];
  split; [by auto|];
  split; [reflexivity|];
  split; [repeat constructor; done|];
  intros; solve [congruence | simplify_eq; auto].

Section OldIllustratorFacts.
Context {W : Type} (svc : Services W).
Context (subscript_url : ImagesResponse -> exn + option string).

Lemma generate_and_save_image_old_outcomes (title : pyval) (save_path : string)
    (s : state W) :
  (forall e w,
      openai_client svc (world s) = (inl e, w) ->
      exists s',
        generate_and_save_image_old svc subscript_url title save_path s = (inl e, s') /\
        files s' = files s /\ stdout s' = stdout s /\
        calls s' = calls s ++ [CClient]) /\
  (forall w,
      openai_client svc (world s) = (inr tt, w) ->
      exists r s' made,
        generate_and_save_image_old svc subscript_url title save_path s = (inr r, s') /\
        calls s' = calls s ++ CClient :: made /\
        (r = save_path \/ r = "") /\
        image_models made = ["dall-e-3"] /\
        Forall (fun c => c <> CModelsList /\ forall path, c <> CMakedirs path) made /\
        (forall resp w1 url img w2,
            images_generate svc "dall-e-3" (old_image_prompt title) w = (inr resp, w1) ->
            subscript_url resp = inr (Some url) ->
            http_get svc url [] w1 = (inr img, w2) ->
            status_code img <> 200 ->
            r = save_path /\ files s' = files s /\ stdout s' = stdout s)).
Proof.
  unfold generate_and_save_image_old, OpenAI, client_images_generate, first_url_old,
    requests_get_stream, requests_get, write_image.
  unfold_m. split.
  - intros e w ->. cbn. eauto.
  - intros w ->. cbn.
    destruct (images_generate svc "dall-e-3" (old_image_prompt title) w)
      as [[e|resp] w1] eqn:Hgen; cbn; [old_leaf|].
    destruct (subscript_url resp) as [e|[url|]] eqn:Hurl; cbn; [old_leaf| |old_leaf].
    destruct (http_get svc url [] w1) as [[e|img] w2] eqn:Hget; cbn; [old_leaf|].
    destruct (Z.eqb_spec (status_code img) 200) as [Hst|Hst]; cbn; [|old_leaf].
    destruct (fs_open_write svc save_path w2) as [[e|[]] w3]; cbn; [old_leaf|].
    destruct (fs_copy_stream svc save_path w3) as [[e|[]] w4]; cbn; old_leaf.
Qed.

(** X6: unlike its successor, [generate_and_save_image_old] builds the
    client outside its [try]: a failure there is raised to the caller.
    Once the client is built it never raises and returns [save_path] or
    the empty string; it asks dall-e-3 once, never dall-e-2, never lists
    the models and never creates a directory. *)
Theorem generate_and_save_image_old_client_outside_try
    (title : pyval) (save_path : string) (s : state W) :
  (forall e w,
      openai_client svc (world s) = (inl e, w) ->
      fst (generate_and_save_image_old svc subscript_url title save_path s) = inl e) /\
  (forall w,
      openai_client svc (world s) = (inr tt, w) ->
      exists r s' made,
        generate_and_save_image_old svc subscript_url title save_path s = (inr r, s') /\
        (r = save_path \/ r = "") /\
        calls s' = calls s ++ CClient :: made /\
        image_models made = ["dall-e-3"] /\
        Forall (fun c => c <> CModelsList /\ forall path, c <> CMakedirs path) made).
Proof.
  destruct (generate_and_save_image_old_outcomes title save_path s) as [Hfail Hrun].
  split.
  - intros e w Hc. destruct (Hfail e w Hc) as (s' & -> & _). done.
  - intros w Hc.
    destruct (Hrun w Hc) as (r & s' & made & H & Hcalls & Hr & Hmodels & Hnever & _).
    by exists r, s', made.
Qed.

(** X7: with the client the file imports, whose responses take no
    subscripts, [generate_and_save_image_old] can save no chart: once the
    client is built it asks dall-e-3 once, prints one line and returns the
    empty string, with no download and no file written, also when the
    image was generated; the line then shows the [TypeError] of the
    subscript. *)
Theorem generate_and_save_image_old_never_saves
    (title : pyval) (save_path : string) (s : state W) w :
  (forall resp, subscript_url resp = inl not_subscriptable) ->
  openai_client svc (world s) = (inr tt, w) ->
  exists s' line,
    generate_and_save_image_old svc subscript_url title save_path s = (inr "", s') /\
    files s' = files s /\
    stdout s' = stdout s ++ [line] /\
    calls s' = calls s ++ [CClient; CImagesGenerate "dall-e-3" (old_image_prompt title)] /\
    (forall resp w1,
        images_generate svc "dall-e-3" (old_image_prompt title) w = (inr resp, w1) ->
        line = "Error generating image: 'ImagesResponse' object is not subscriptable").
Proof.
  intros Hsub Hc.
  unfold generate_and_save_image_old, OpenAI, client_images_generate, first_url_old.
  unfold_m. rewrite Hc. cbn.
  destruct (images_generate svc "dall-e-3" (old_image_prompt title) w)
    as [[e|resp] w1] eqn:Hgen; cbn.
  - eexists _, _. split; [reflexivity|]. cbn. rewrite <- !app_assoc.
    repeat split. intros resp w1' [=].
  - rewrite Hsub. cbn. eexists _, _. split; [reflexivity|]. cbn.
    rewrite <- !app_assoc. repeat split.
Qed.
End OldIllustratorFacts.

Lemma generate_and_save_image_old_client_outside_try_witness :
  fst (generate_and_save_image_old (Scripted.services MoreScripts.no_client)
         no_subscripts (PStr "BTC hits new high")
         MoreScripts.chart_1 (Scripted.init ∅))
  = inl (Exn "OpenAIError" "The api_key client option must be set") /\
  fst (generate_and_save_image (Scripted.services MoreScripts.no_client)
         (PStr "BTC hits new high") MoreScripts.chart_1 (Scripted.init ∅))
  = inr "" /\
  fst (generate_and_save_image_old (Scripted.services Scripted.all_up)
         no_subscripts (PStr "BTC hits new high")
         MoreScripts.chart_1 (Scripted.init ∅))
  = inr "".
Proof.
  split; [|split; [vm_compute; reflexivity|]].
  - destruct (generate_and_save_image_old_client_outside_try
                (Scripted.services MoreScripts.no_client)
                no_subscripts (PStr "BTC hits new high")
                MoreScripts.chart_1 (Scripted.init ∅)) as [Hfail _].
    apply (Hfail _ tt). reflexivity.
  - destruct (generate_and_save_image_old_client_outside_try
                (Scripted.services Scripted.all_up)
                no_subscripts (PStr "BTC hits new high")
                MoreScripts.chart_1 (Scripted.init ∅)) as [_ Hrun].
    destruct (Hrun tt eq_refl) as (r & s' & made & H & _).
    rewrite H. vm_compute in H. by injection H as <- _.
Defined.

Lemma generate_and_save_image_old_never_saves_witness :
  exists s',
    generate_and_save_image_old (Scripted.services Scripted.all_up)
      no_subscripts (PStr "BTC hits new high") MoreScripts.chart_1 (Scripted.init ∅)
    = (inr "", s') /\
    files s' = ∅ /\
    stdout s'
    = ["Error generating image: 'ImagesResponse' object is not subscriptable"].
Proof.
  destruct (generate_and_save_image_old_never_saves
              (Scripted.services Scripted.all_up) no_subscripts
              (PStr "BTC hits new high") MoreScripts.chart_1 (Scripted.init ∅) tt)
    as (s' & line & Hrun & Hfiles & Hout & _ & Hline); [reflexivity..|].
  exists s'. split; [exact Hrun|]. split; [exact Hfiles|].
  rewrite Hout.
  rewrite (Hline {| data := [Some "https://img.example.org/1.png"] |} tt eq_refl).
  reflexivity.
Defined.

(** ** What a run does to the disk *)

Section Disk.
Context {W : Type} (svc : Services W).

Lemma list_ascii_of_string_app (a b : string) :
  String.list_ascii_of_string (a +:+ b)
  = String.list_ascii_of_string a ++ String.list_ascii_of_string b.
Proof. induction a as [|c a IH]; simpl; [done|]. by rewrite IH. Qed.

Lemma last_ascii_app (a b : string) (c : ascii) :
  last (String.list_ascii_of_string b) = Some c ->
  last (String.list_ascii_of_string (a +:+ b)) = Some c.
Proof.
  intros Hb. rewrite list_ascii_of_string_app.
  destruct (String.list_ascii_of_string b) as [|x l] eqn:E; [done|].
  rewrite last_app. by rewrite Hb.
Qed.

Lemma os_path_join_last (a b : string) (c : ascii) :
  last (String.list_ascii_of_string b) = Some c ->
  last (String.list_ascii_of_string (os_path_join a b)) = Some c.
Proof.
  intros Hb. unfold os_path_join.
  destruct (starts_with_sep b); [done|].
  destruct (String.eqb a "" || ends_with_sep a).
  - by apply last_ascii_app.
  - apply last_ascii_app. by apply (last_ascii_app "/").
Qed.

Lemma yaml_path_not_chart (base : string) :
  ~ is_chart_path (os_path_join base "predictions.yaml").
Proof.
  intros [dir Heq].
  apply (f_equal (fun p => last (String.list_ascii_of_string p))) in Heq.
  rewrite (os_path_join_last base "predictions.yaml" "l"%char) in Heq by done.
  rewrite (os_path_join_last dir "chart.png" "g"%char) in Heq by done.
  discriminate.
Qed.

Lemma only_charts_refl (fs : gmap string file) : only_charts fs fs.
Proof. intros path. by left. Qed.

Lemma only_charts_trans (fs1 fs2 fs3 : gmap string file) :
  only_charts fs1 fs2 -> only_charts fs2 fs3 -> only_charts fs1 fs3.
Proof.
  intros H12 H23 path. destruct (H23 path) as [-> | H]; [apply H12|by right].
Qed.

Lemma tracks_same {A} (m : M W A) :
  (forall s r s', m s = (r, s') -> files s' = files s) -> tracks only_charts m.
Proof. intros H s r s' Hrun. rewrite (H _ _ _ Hrun). apply only_charts_refl. Qed.

Lemma tracks_ret {A} (a : A) : tracks (W := W) only_charts (ret a).
Proof. apply tracks_same. by intros s r s' [= _ <-]. Qed.

Lemma tracks_raise {A} (e : exn) : tracks (W := W) only_charts (raise (A := A) e).
Proof. apply tracks_same. by intros s r s' [= _ <-]. Qed.

Lemma tracks_print (line : string) : tracks (W := W) only_charts (print line).
Proof. apply tracks_same. by intros s r s' [= _ <-]. Qed.

Lemma tracks_logger (lvl : log_level) (message : string) :
  tracks (W := W) only_charts (logger lvl message).
Proof. apply tracks_same. by intros s r s' [= _ <-]. Qed.

Lemma tracks_invoke {A} (c : call) (f : W -> (exn + A) * W) :
  tracks only_charts (invoke c f).
Proof. apply tracks_same. intros s r s'. apply invoke_files. Qed.

Lemma tracks_read_world {A} (f : W -> A) : tracks only_charts (read_world f).
Proof. apply tracks_same. by intros s r s' [= _ <-]. Qed.

Lemma tracks_get_file (path : string) : tracks (W := W) only_charts (get_file path).
Proof. apply tracks_same. by intros s r s' [= _ <-]. Qed.

Lemma tracks_os_path_exists (path : string) :
  tracks (W := W) only_charts (os_path_exists path).
Proof. apply tracks_same. by intros s r s' [= _ <-]. Qed.

Lemma tracks_bind {A B} (m : M W A) (k : A -> M W B) :
  tracks only_charts m -> (forall a, tracks only_charts (k a)) ->
  tracks only_charts (bind m k).
Proof.
  intros Hm Hk s r s'. unfold bind.
  destruct (m s) as [[e|a] s1] eqn:E.
  - intros [= <- <-]. by eapply Hm.
  - intros H. eapply only_charts_trans; [by eapply Hm|by eapply Hk].
Qed.

Lemma tracks_try_except {A} (body : M W A) (handler : exn -> M W A) :
  tracks only_charts body -> (forall e, tracks only_charts (handler e)) ->
  tracks only_charts (try_except body handler).
Proof.
  intros Hm Hk s r s'. unfold try_except.
  destruct (body s) as [[e|a] s1] eqn:E.
  - intros H. eapply only_charts_trans; [by eapply Hm|by eapply Hk].
  - intros [= <- <-]. by eapply Hm.
Qed.

Lemma tracks_for_each {A B} (body : B -> A -> M W B) (items : list A) :
  (forall acc x, tracks only_charts (body acc x)) ->
  forall acc, tracks only_charts (for_each body items acc).
Proof.
  intros Hbody. induction items as [|x items IH]; intros acc; cbn [for_each].
  - apply tracks_ret.
  - apply tracks_bind; [apply Hbody|apply IH].
Qed.

Lemma tracks_generate_and_save_image (prompt : pyval) (save_path : string) :
  is_chart_path save_path ->
  tracks only_charts (generate_and_save_image svc prompt save_path).
Proof.
  intros Hchart s r s' Hrun.
  destruct (generate_and_save_image_effects svc prompt save_path s)
    as (r0 & s0 & records & Hrun0 & _ & _ & _ & Hfiles & _).
  rewrite Hrun0 in Hrun. injection Hrun as <- <-.
  destruct Hfiles as [-> | ->]; [apply only_charts_refl|].
  intros path. destruct (decide (save_path = path)) as [<-|Hne].
  - right. by rewrite lookup_insert_eq.
  - left. by rewrite lookup_insert_ne.
Qed.

Lemma tracks_get_sentiment_and_summary (title description : pyval) :
  tracks only_charts (get_sentiment_and_summary svc title description).
Proof.
  apply tracks_same. intros s r s' Hrun.
  destruct (get_sentiment_and_summary_outcomes svc title description s)
    as (p & s0 & made & out & Hrun0 & Hfiles & _).
  rewrite Hrun0 in Hrun. by injection Hrun as <- <-.
Qed.

Ltac tracks_tac :=
  repeat first
    [ apply tracks_ret | apply tracks_raise | apply tracks_print | apply tracks_invoke
    | apply tracks_logger | apply tracks_read_world | apply tracks_get_file | apply tracks_os_path_exists
    | apply tracks_get_sentiment_and_summary
    | apply tracks_generate_and_save_image; by eexists
    | apply tracks_bind; [|intros ?]
    | apply tracks_try_except; [|intros ?]
    | match goal with
      | |- tracks _ (match ?x with _ => _ end) => destruct x
      end ].

Lemma tracks_keep_news (results : list Dict) :
  tracks (W := W) only_charts (keep_news results).
Proof.
  induction results as [|news rest IH]; cbn [keep_news]; unfold getitem; [tracks_tac|].
  apply tracks_bind; [tracks_tac|intros kind].
  apply tracks_bind; [exact IH|intros kept]. tracks_tac.
Qed.

Lemma tracks_get_coingecko_news (token : string) :
  tracks only_charts (get_coingecko_news svc token).
Proof. unfold get_coingecko_news, requests_get, response_json. tracks_tac. Qed.

Lemma tracks_get_cryptopanic_news (token : string) :
  tracks only_charts (get_cryptopanic_news svc token).
Proof.
  unfold get_cryptopanic_news, requests_get, response_json.
  apply tracks_bind; [tracks_tac|intros response].
  apply tracks_bind; [tracks_tac|intros _].
  destruct (status_code response =? 200)%Z; [|tracks_tac].
  apply tracks_bind; [tracks_tac|intros body]. apply tracks_keep_news.
Qed.

Lemma tracks_coingecko_body token current_date base_dir acc news :
  tracks only_charts (coingecko_body svc token current_date base_dir acc news).
Proof. unfold coingecko_body, os_makedirs, getitem. tracks_tac. Qed.

Lemma tracks_cryptopanic_body token current_date base_dir acc news :
  tracks only_charts (cryptopanic_body svc token current_date base_dir acc news).
Proof. unfold cryptopanic_body, os_makedirs, getitem. tracks_tac. Qed.

Lemma tracks_load_predictions (yaml_path : string) :
  tracks (W := W) only_charts (load_predictions yaml_path).
Proof. unfold load_predictions, safe_load_file, predictions_of. tracks_tac. Qed.

Lemma bind_step_charts {A B} (m : M W A) (k : A -> M W B) (s s' : state W) r :
  tracks only_charts m -> bind m k s = (r, s') ->
  exists s1,
    only_charts (files s) (files s1) /\
    ((exists e, r = inl e /\ s' = s1) \/
     (exists a, m s = (inr a, s1) /\ k a s1 = (r, s'))).
Proof.
  intros Hm. unfold bind. destruct (m s) as [[e|a] s1] eqn:E; intros H.
  - injection H as <- <-. exists s1. split; [by eapply Hm|]. left. eauto.
  - exists s1. split; [by eapply Hm|]. right. eauto.
Qed.

Ltac disk_step H Iacc s1 a Hm :=
  let I := fresh "I" in
  let I' := fresh "I" in
  apply bind_step_charts in H as (s1 & I & [(? & -> & ->)|(a & Hm & H)]);
  [ left; split; [eauto|];
    eapply only_charts_trans; [exact Iacc|exact I]
  | pose proof (only_charts_trans _ _ _ Iacc I) as I'; clear Iacc I;
    rename I' into Iacc
  | ].

(** A run raises, having written charts only or charts and then an empty
    predictions file, its dump having failed; or it returns, having
    written charts and then its predictions file. *)
Lemma process_news_disk (token : string) (s s' : state W) r :
  process_news svc token s = (r, s') ->
  ((exists e, r = inl e) /\ only_charts (files s) (files s')) \/
  ((exists e w w',
       r = inl e /\
       yaml_dump svc (yaml_path_of token (today svc (world s))) w = (inl e, w')) /\
   exists fs,
     only_charts (files s) fs /\
     files s' = <[yaml_path_of token (today svc (world s)) := YamlDoc YFalsy]> fs) \/
  (r = inr tt /\
   exists fs predictions,
     only_charts (files s) fs /\
     files s' = <[yaml_path_of token (today svc (world s))
                  := YamlDoc (YMap (Some predictions))]> fs).
Proof.
  unfold process_news. intros H.
  pose proof (only_charts_refl (files s)) as Iacc.
  disk_step H Iacc s0 current_date Hdate; [|apply tracks_read_world].
  unfold read_world in Hdate. injection Hdate as <- <-.
  disk_step H Iacc s1 u Hmk; [|apply tracks_invoke].
  disk_step H Iacc s2 loaded Hload; [|apply tracks_load_predictions].
  destruct loaded as [old current_id].
  disk_step H Iacc s3 coingecko_news Hcg; [|apply tracks_get_coingecko_news].
  disk_step H Iacc s4 acc1 Hloop1;
    [|apply tracks_for_each; intros; apply tracks_coingecko_body].
  disk_step H Iacc s5 cryptopanic_news Hcp; [|apply tracks_get_cryptopanic_news].
  disk_step H Iacc s6 acc2 Hloop2;
    [|apply tracks_for_each; intros; apply tracks_cryptopanic_body].
  apply save_predictions_cases in H
    as [[-> Hsaved]|[(e & -> & Hsaved)|(e & w & w' & -> & Hdump & Hsaved)]].
  - right. right. split; [done|]. by exists (files s6), (snd acc2).
  - left. split; [eauto|]. by rewrite Hsaved.
  - right. left. split; [by exists e, w, w'|]. by exists (files s6).
Qed.


(** X9: whatever a run of [process_news] ends with, it changes no file
    but its own predictions file, charts and the log; the predictions file
    of another symbol or of another day is as it was. *)
Theorem process_news_other_collections_untouched
    (token : string) (s s' : state W) r :
  process_news svc token s = (r, s') ->
  (forall path,
      path <> yaml_path_of token (today svc (world s)) ->
      ~ is_chart_path path -> path <> log_file ->
      files s' !! path = files s !! path) /\
  (forall token' date',
      yaml_path_of token' date' <> yaml_path_of token (today svc (world s)) ->
      files s' !! yaml_path_of token' date' = files s !! yaml_path_of token' date').
Proof.
  intros Hrun.
  assert (forall path,
             path <> yaml_path_of token (today svc (world s)) ->
             ~ is_chart_path path ->
             files s' !! path = files s !! path) as Hkept.
  { intros path Hne Hnot.
    destruct (process_news_disk _ _ _ _ Hrun)
      as [[_ Hcharts]|[[_ (fs & Hcharts & ->)]|[_ (fs & predictions & Hcharts & ->)]]].
    - by destruct (Hcharts path) as [?|[? _]].
    - rewrite lookup_insert_ne by done.
      by destruct (Hcharts path) as [?|[? _]].
    - rewrite lookup_insert_ne by done.
      by destruct (Hcharts path) as [?|[? _]]. }
  split; [by auto|]. intros token' date' Hne.
  apply Hkept; [done|]. apply yaml_path_not_chart.
Qed.
End Disk.


Lemma process_news_other_collections_untouched_witness :
  files (snd (process_news (Scripted.services Scripted.all_up) "ETH"
                Scripted.after_first_run)) !! Scripted.btc_yaml
  = files Scripted.after_first_run !! Scripted.btc_yaml.
Proof.
  assert (process_news (Scripted.services Scripted.all_up) "ETH"
            Scripted.after_first_run
          = (inr tt,
             snd (process_news (Scripted.services Scripted.all_up) "ETH"
                    Scripted.after_first_run))) as Hrun
    by (vm_compute; reflexivity).
  refine (proj2 (process_news_other_collections_untouched
                   (Scripted.services Scripted.all_up) "ETH"
                   Scripted.after_first_run _ _ Hrun) "BTC" "11032026" _).
  vm_compute. discriminate.
Defined.

(** ** The records a run builds *)

Ltac inv_binds H :=
  repeat first
    [ apply bind_inv in H as (? & ? & ? & H)
    | match type of H with
      | context [let '(_, _) := ?x in _] => destruct x; cbn beta iota in H
      end ].

Section Records.
Context {W : Type} (svc : Services W).

Lemma getitem_inv (news : Dict) (k : string) (s s' : state W) v :
  getitem news k s = (inr v, s') -> dict_lookup news k = Some v.
Proof. unfold getitem. destruct (dict_lookup news k); by intros [= <- _]. Qed.

Lemma enriched_pair (title description : pyval) (s s' : state W) summary label :
  get_sentiment_and_summary svc title description s = (inr (summary, label), s') ->
  label <> "Very Bullish" /\ label <> "Very Bearish" /\
  stripped summary /\ stripped label.
Proof.
  intros Hrun.
  destruct (get_sentiment_and_summary_outcomes svc title description s)
    as (p & s0 & made & out & Hrun0 & _ & _ & _ & Hcases).
  rewrite Hrun0 in Hrun. injection Hrun as -> _.
  destruct Hcases as [(Hp & _)|(c1 & c2 & Hp & _)];
    apply pair_equal_spec in Hp as [-> ->].
  - by repeat split.
  - destruct (mapping_get_cases (py_strip c2)) as [Hout [H1 H2]].
    split; [done|]. split; [done|]. split; [apply py_strip_stripped|].
    destruct Hout as [-> | [-> | ->]]; [done..|apply py_strip_stripped].
Qed.

(** What a pass through a loop body that returns has appended. *)
Lemma coingecko_body_record token current_date base_dir acc news (s s' : state W) acc' :
  coingecko_body svc token current_date base_dir acc news s = (inr acc', s') ->
  has_keys news ["title"; "description"; "news_site"; "url"] /\
  exists e, acc' = (fst acc + 1, snd acc ++ [e]) /\ well_formed_record e /\
            Some (fullContent e) = dict_lookup news "description" /\
            Some (sourcelink e) = dict_lookup news "url".
Proof.
  intros H. unfold coingecko_body in H. inv_binds H.
  unfold ret in H. injection H as <- _.
  repeat match goal with
  | Hg : getitem _ _ _ = (inr _, _) |- _ => apply getitem_inv in Hg
  end.
  match goal with
  | He : get_sentiment_and_summary _ _ _ _ = _ |- _ =>
      apply enriched_pair in He as (? & ? & ? & ?)
  end.
  split; [repeat constructor; by eexists|].
  eexists. split; [reflexivity|]. split; [|by split].
  unfold well_formed_record; cbn. split; [by eexists|done].
Qed.

Lemma cryptopanic_body_record token current_date base_dir acc news (s s' : state W) acc' :
  cryptopanic_body svc token current_date base_dir acc news s = (inr acc', s') ->
  has_keys news ["title"; "domain"; "url"] /\
  exists e, acc' = (fst acc + 1, snd acc ++ [e]) /\ well_formed_record e /\
            Some (fullContent e) = dict_lookup news "title" /\
            Some (sourcelink e) = dict_lookup news "url".
Proof.
  intros H. unfold cryptopanic_body in H. inv_binds H.
  unfold ret in H. injection H as <- _.
  repeat match goal with
  | Hg : getitem _ _ _ = (inr _, _) |- _ => apply getitem_inv in Hg
  end.
  match goal with
  | He : get_sentiment_and_summary _ _ _ _ = _ |- _ =>
      apply enriched_pair in He as (? & ? & ? & ?)
  end.
  split; [repeat constructor; by eexists|].
  eexists. split; [reflexivity|]. split; [|by split].
  unfold well_formed_record; cbn. split; [by eexists|done].
Qed.

Lemma for_each_well_formed
    (body : Z * list EnrichedRecord -> Dict -> M W (Z * list EnrichedRecord)) :
  (forall acc news s acc' s',
      body acc news s = (inr acc', s') ->
      exists e, acc' = (fst acc + 1, snd acc ++ [e]) /\ well_formed_record e) ->
  forall items acc s acc' s',
    for_each body items acc s = (inr acc', s') ->
    exists new, snd acc' = snd acc ++ new /\ length new = length items /\
                Forall well_formed_record new.
Proof.
  intros Hbody items. induction items as [|x items IH]; intros acc s acc' s' H.
  - cbn in H. injection H as <- _. exists []. by rewrite app_nil_r.
  - cbn [for_each] in H. apply bind_inv in H as (acc1 & s1 & Hx & H).
    apply Hbody in Hx as (e & -> & He).
    apply IH in H as (new & -> & Hlen & Hnew). cbn [fst snd].
    exists (e :: new). split; [by rewrite <- app_assoc|].
    split; [cbn; by rewrite Hlen|by constructor].
Qed.

(** X10: every record a returning run of [process_news] appends is well
    formed: its title ends with " - " and its sentiment, the sentiment is
    not a spaced label, and the summary and the sentiment have no
    surrounding whitespace. *)
Theorem process_news_records_well_formed (token : string) (s s' : state W) :
  process_news svc token s = (inr tt, s') ->
  exists old new,
    stored (files s) (yaml_path_of token (today svc (world s))) old /\
    files s' !! yaml_path_of token (today svc (world s))
    = Some (YamlDoc (YMap (Some (old ++ new)))) /\
    Forall well_formed_record new.
Proof.
  unfold process_news. intros H.
  apply bind_inv in H as (current_date & s0 & Hdate & H).
  unfold read_world in Hdate. injection Hdate as <- <-.
  apply bind_inv in H as (? & s1 & Hmk & H).
  apply invoke_files in Hmk.
  apply bind_inv in H as ([old current_id] & s2 & Hload & H).
  apply load_predictions_inv in Hload as (-> & Hstored & ->).
  apply bind_inv in H as (coingecko_news & s3 & _ & H).
  apply bind_inv in H as (acc1 & s4 & Hloop1 & H).
  apply bind_inv in H as (cryptopanic_news & s5 & _ & H).
  apply bind_inv in H as (acc2 & s6 & Hloop2 & H).
  eapply for_each_well_formed in Hloop1 as (new1 & Hacc1 & _ & Hnew1).
  2: { intros acc news sa acc' sb Hb.
       apply coingecko_body_record in Hb as (_ & e & -> & He & _). eauto. }
  eapply for_each_well_formed in Hloop2 as (new2 & Hacc2 & _ & Hnew2).
  2: { intros acc news sa acc' sb Hb.
       apply cryptopanic_body_record in Hb as (_ & e & -> & He & _). eauto. }
  cbn [snd] in Hacc1. rewrite Hacc1 in Hacc2.
  apply (save_predictions_cases svc) in H
    as [[_ Hsaved]|[(e & [=] & _)|(e & ? & ? & [=] & _)]].
  exists old, (new1 ++ new2). rewrite Hmk in Hstored.
  split; [exact Hstored|]. rewrite Hsaved.
  split; [by rewrite lookup_insert_eq, Hacc2, app_assoc|].
  by apply Forall_app.
Qed.

(** X11: a pass through a loop body returns only for an item that has
    every key the body subscripts ([title], [description], [news_site] and
    [url] for provider A; [title], [domain] and [url] for provider B), and
    the record it appends takes its [fullContent] from the description
    (the title for provider B) and its [sourcelink] from the url. *)
Theorem loop_bodies_required_keys token current_date base_dir acc news
    (s s' : state W) acc' :
  (coingecko_body svc token current_date base_dir acc news s = (inr acc', s') ->
   has_keys news ["title"; "description"; "news_site"; "url"] /\
   exists e, acc' = (fst acc + 1, snd acc ++ [e]) /\
             Some (fullContent e) = dict_lookup news "description" /\
             Some (sourcelink e) = dict_lookup news "url") /\
  (cryptopanic_body svc token current_date base_dir acc news s = (inr acc', s') ->
   has_keys news ["title"; "domain"; "url"] /\
   exists e, acc' = (fst acc + 1, snd acc ++ [e]) /\
             Some (fullContent e) = dict_lookup news "title" /\
             Some (sourcelink e) = dict_lookup news "url").
Proof.
  split; intros H.
  - apply coingecko_body_record in H as (Hkeys & e & -> & _ & Hfull & Hlink).
    split; [done|]. by exists e.
  - apply cryptopanic_body_record in H as (Hkeys & e & -> & _ & Hfull & Hlink).
    split; [done|]. by exists e.
Qed.
End Records.

(** The answers of the service come wrapped in no-break spaces. *)
Lemma process_news_records_well_formed_witness :
  exists new,
    files (snd (process_news (Scripted.services MoreScripts.nbsp_label) "BTC"
                  (Scripted.init ∅))) !! Scripted.btc_yaml
    = Some (YamlDoc (YMap (Some new))) /\
    map sentiment new = ["VeryBullish"; "VeryBullish"] /\
    map preview new = ["BTC price surged"; "BTC price surged"] /\
    Forall well_formed_record new.
Proof.
  assert (process_news (Scripted.services MoreScripts.nbsp_label) "BTC" (Scripted.init ∅)
          = (inr tt,
             snd (process_news (Scripted.services MoreScripts.nbsp_label) "BTC"
                    (Scripted.init ∅)))) as Hrun
    by (vm_compute; reflexivity).
  destruct (process_news_records_well_formed (Scripted.services MoreScripts.nbsp_label)
              "BTC" (Scripted.init ∅) _ Hrun)
    as (old & new & Hold & Hsaved & Hnew).
  clear Hrun.
  assert (old = []) as ->.
  { destruct Hold as [Hold|[-> _]]; [|reflexivity]. vm_compute in Hold.
    discriminate Hold. }
  exists new. split; [exact Hsaved|].
  vm_compute in Hsaved. injection Hsaved as <-.
  split; [reflexivity|]. split; [reflexivity|exact Hnew].
Defined.

Lemma loop_bodies_required_keys_witness :
  has_keys Scripted.btc_item ["title"; "description"; "news_site"; "url"] /\
  has_keys Scripted.panic_item ["title"; "domain"; "url"].
Proof.
  split.
  - assert (coingecko_body (Scripted.services Scripted.all_up) "BTC" "11032026"
              "news/BTC-USDT/11032026" (0, []) Scripted.btc_item (Scripted.init ∅)
            = (inr MoreScripts.first_pass_acc, snd MoreScripts.first_pass)) as Hrun
      by (vm_compute; reflexivity).
    exact (proj1 (proj1 (loop_bodies_required_keys (Scripted.services Scripted.all_up)
                           "BTC" "11032026" "news/BTC-USDT/11032026" (0, [])
                           Scripted.btc_item (Scripted.init ∅)
                           (snd MoreScripts.first_pass) MoreScripts.first_pass_acc)
                    Hrun)).
  - assert (cryptopanic_body (Scripted.services Scripted.all_up) "BTC" "11032026"
              "news/BTC-USDT/11032026" (0, []) Scripted.panic_item (Scripted.init ∅)
            = (inr MoreScripts.second_pass_acc, snd MoreScripts.second_pass)) as Hrun
      by (vm_compute; reflexivity).
    exact (proj1 (proj2 (loop_bodies_required_keys (Scripted.services Scripted.all_up)
                           "BTC" "11032026" "news/BTC-USDT/11032026" (0, [])
                           Scripted.panic_item (Scripted.init ∅)
                           (snd MoreScripts.second_pass) MoreScripts.second_pass_acc)
                    Hrun)).
Defined.

(** ** Items that lack a key *)

Section MissingKeys.
Context {W : Type} (svc : Services W).

Lemma generate_and_save_image_calls (prompt : pyval) (save_path : string) (s : state W) :
  exists r s' made,
    generate_and_save_image svc prompt save_path s = (inr r, s') /\
    calls s' = calls s ++ CClient :: made.
Proof.
  unfold generate_and_save_image, OpenAI, client_images_generate, first_url,
    requests_get_stream, requests_get, os_makedirs, write_image.
  unfold_m. cbn.
  repeat oracle_step.
  all: eexists _, _, _; split; [reflexivity|]; cbn.
  all: rewrite <- ?app_assoc; reflexivity.
Qed.

Lemma getitem_some (news : Dict) (k : string) (v : pyval) (s : state W) :
  dict_lookup news k = Some v -> getitem news k s = (inr v, s).
Proof. unfold getitem. by intros ->. Qed.

Lemma getitem_none (news : Dict) (k : string) (s : state W) :
  dict_lookup news k = None -> getitem news k s = (inl (KeyError k), s).
Proof. unfold getitem. by intros ->. Qed.

(** X12: an item of provider A that has a title, a description and a
    source but no [url] is found out late: the body raises [KeyError]
    for [url] only after the directory was made and both the enricher and
    the illustrator were called, and no record is appended. *)
Theorem coingecko_body_late_key_error token current_date base_dir acc news
    (s : state W) w1 t d n :
  fs_makedirs svc (os_path_join base_dir (pretty (fst acc + 1))) (world s)
  = (inr tt, w1) ->
  dict_lookup news "title" = Some t ->
  dict_lookup news "description" = Some d ->
  dict_lookup news "news_site" = Some n ->
  dict_lookup news "url" = None ->
  exists s' made1 made2,
    coingecko_body svc token current_date base_dir acc news s
    = (inl (KeyError "url"), s') /\
    calls s' = calls s
               ++ CMakedirs (os_path_join base_dir (pretty (fst acc + 1)))
               :: CClient :: made1 ++ CClient :: made2.
Proof.
  intros Hmk Ht Hd Hn Hu. unfold coingecko_body.
  set (img_dir := os_path_join base_dir (pretty (fst acc + 1))) in *.
  assert (os_makedirs svc img_dir s
          = (inr tt, Build_state w1 (files s) (stdout s)
                       (calls s ++ [CMakedirs img_dir]) (logged s))) as Hstep.
  { unfold os_makedirs, invoke. by rewrite Hmk. }
  rewrite (bind_inr _ _ _ _ _ Hstep).
  rewrite (bind_inr _ _ _ _ _ (getitem_some _ _ _ _ Ht)).
  rewrite (bind_inr _ _ _ _ _ (getitem_some _ _ _ _ Hd)).
  match goal with
  | |- context [get_sentiment_and_summary svc t d] =>
      destruct (get_sentiment_and_summary_outcomes svc t d
                  (Build_state w1 (files s) (stdout s)
                     (calls s ++ [CMakedirs img_dir]) (logged s)))
        as ([summary label] & s2 & made1 & out & Hen & _ & Hcalls2 & _ & Hcases)
  end.
  rewrite (bind_inr _ _ _ _ _ Hen). cbn beta iota.
  rewrite (bind_inr _ _ _ _ _ (getitem_some _ _ _ _ Ht)).
  destruct (generate_and_save_image_calls t (os_path_join img_dir "chart.png") s2)
    as (r & s3 & made2 & Hill & Hcalls3).
  rewrite (bind_inr _ _ _ _ _ Hill).
  rewrite (bind_inr _ _ _ _ _ (getitem_some _ _ _ _ Hn)).
  rewrite (bind_inr _ _ _ _ _ (getitem_some _ _ _ _ Hd)).
  unfold bind at 1. rewrite (getitem_none _ _ _ Hu).
  assert (exists rest, made1 = CClient :: rest) as [rest ->].
  { destruct Hcases as [(_ & _ & [-> | [-> | ->]])|(? & ? & _ & _ & ->)]; eauto. }
  exists s3, rest, made2. split; [done|].
  rewrite Hcalls3, Hcalls2. cbn [calls]. by rewrite <- !app_assoc.
Qed.
End MissingKeys.

Lemma coingecko_body_late_key_error_witness :
  fst (coingecko_body (Scripted.services Scripted.all_up) "BTC" "11032026"
         "news/BTC-USDT/11032026" (0, []) MoreScripts.no_url_item (Scripted.init ∅))
  = inl (KeyError "url").
Proof.
  destruct (coingecko_body_late_key_error (Scripted.services Scripted.all_up)
              "BTC" "11032026" "news/BTC-USDT/11032026" (0, [])
              MoreScripts.no_url_item (Scripted.init ∅) tt
              (PStr "BTC hits new high") (PStr "Price surged") (PStr "CoinDesk")
              eq_refl eq_refl eq_refl eq_refl eq_refl)
    as (s' & made1 & made2 & -> & _).
  reflexivity.
Defined.

(** ** A day without news *)

Section QuietDay.
Context {W : Type} (svc : Services W).

Lemma load_predictions_stored (path : string) (s : state W) old :
  stored (files s) path old ->
  load_predictions path s = (inr (old, py_max (ids old) 0), s).
Proof.
  unfold load_predictions, safe_load_file, predictions_of, stored. unfold_m.
  intros [H|[-> [H|H]]]; by rewrite !H.
Qed.

(** X13: on a day when both providers answer with a status other than
    200, [process_news] returns, having printed the response of provider
    B and nothing else, and rewrites the predictions file with the
    collection it loaded: an absent or empty file becomes a file with an
    empty list of predictions. *)
Theorem process_news_quiet_day (token : string) (s : state W) old status_b :
  quiet_day svc token (world s) status_b ->
  stored (files s) (yaml_path_of token (today svc (world s))) old ->
  exists s',
    process_news svc token s = (inr tt, s') /\
    files s' = <[yaml_path_of token (today svc (world s))
                 := YamlDoc (YMap (Some old))]> (files s) /\
    stdout s' = stdout s ++ ["<Response [" +:+ pretty status_b +:+ "]>"].
Proof.
  intros (w1 & r1 & w2 & r2 & w3 & w4 & w5 & Hmk & Hcg & Hst1 & Hcp & Hst2 & <-
          & Hopen & Hdump) Hstored.
  unfold process_news.
  set (date := today svc (world s)) in *.
  set (base := base_dir_of token date) in *.
  assert (read_world (today svc) s = (inr date, s)) as Hstep0 by done.
  rewrite (bind_inr _ _ _ _ _ Hstep0).
  set (s1 := Build_state w1 (files s) (stdout s) (calls s ++ [CMakedirs base])
               (logged s)).
  assert (os_makedirs svc base s = (inr tt, s1)) as Hstep1.
  { unfold os_makedirs, invoke. by rewrite Hmk. }
  rewrite (bind_inr _ _ _ _ _ Hstep1).
  rewrite (bind_inr _ _ _ _ _ (load_predictions_stored _ s1 old Hstored)).
  cbn beta iota.
  set (s2 := Build_state w2 (files s) (stdout s)
               (calls s1 ++ [CGet (coingecko_base_url +:+ "/news") [("filter", token)]])
               (logged s)).
  assert (get_coingecko_news svc token s1 = (inr [], s2)) as Hstep2.
  { unfold get_coingecko_news, requests_get, bind, invoke.
    unfold coingecko_request in Hcg. cbn [world s1]. rewrite Hcg.
    apply Z.eqb_neq in Hst1. by rewrite Hst1. }
  rewrite (bind_inr _ _ _ _ _ Hstep2). cbn [for_each].
  unfold ret at 1. unfold bind at 1.
  set (s3 := Build_state w3 (files s)
               (stdout s ++ ["<Response [" +:+ pretty (status_code r2) +:+ "]>"])
               (calls s2 ++ [CGet cryptopanic_base_url
                               [("auth_token", cryptopanic_api_key);
                                ("currencies", token); ("kind", "news")]])
               (logged s)).
  assert (get_cryptopanic_news svc token s2 = (inr [], s3)) as Hstep3.
  { unfold get_cryptopanic_news, requests_get, bind, invoke, print.
    unfold cryptopanic_request in Hcp. cbn [world s2]. rewrite Hcp. cbn.
    apply Z.eqb_neq in Hst2. by rewrite Hst2. }
  rewrite (bind_inr _ _ _ _ _ Hstep3). cbn [for_each].
  unfold ret at 1. unfold bind at 1. cbn [snd].
  unfold save_predictions, bind, invoke, put_file. cbn [world s3].
  fold base. change (os_path_join base "predictions.yaml") with (yaml_path_of token date).
  rewrite Hopen. cbn [world]. rewrite Hdump.
  eexists. split; [reflexivity|]. cbn [files stdout]. by rewrite insert_insert_eq.
Qed.
End QuietDay.

Lemma process_news_quiet_day_witness :
  files (snd (process_news (Scripted.services Scripted.rate_limited) "BTC"
                (Scripted.init ∅)))
  = {[ Scripted.btc_yaml := YamlDoc (YMap (Some [])) ]}.
Proof.
  destruct (process_news_quiet_day (Scripted.services Scripted.rate_limited) "BTC"
              (Scripted.init ∅) [] 429) as (s' & Hrun & Hfiles & _).
  - exists tt,
      {| status_code := 429; json := inl (Exn "JSONDecodeError" "Expecting value") |},
      tt,
      {| status_code := 429; json := inl (Exn "JSONDecodeError" "Expecting value") |},
      tt, tt, tt.
    repeat split; discriminate.
  - right. split; [done|]. by left.
  - rewrite Hrun. cbn [snd]. rewrite Hfiles. vm_compute. reflexivity.
Defined.

(** ** A record for every item *)

Section EveryItem.
Context {W : Type} (svc : Services W).

Lemma illustrator_down_files (prompt : pyval) (save_path : string) (s : state W) :
  exists r s',
    generate_and_save_image svc prompt save_path s = (inr r, s') /\
    (illustrator_down svc -> r = "" /\ files s' = files s).
Proof.
  assert (exists r s',
             generate_and_save_image svc prompt save_path s = (inr r, s') /\
             ((~ exists w2, listing_ok svc (world s) w2) ->
              r = "" /\ files s' = files s)) as (r & s' & Hrun & Hnot).
  { unfold generate_and_save_image, OpenAI, client_images_generate, first_url,
      requests_get_stream, requests_get, os_makedirs, write_image.
    unfold_m. cbn.
    repeat oracle_step.
    all: eexists _, _; split; [reflexivity|]; cbn.
    all: intros Hnot; try (split; reflexivity).
    all: exfalso; apply Hnot; unfold listing_ok; eauto 10. }
  exists r, s'. split; [done|]. intros Hdown. apply Hnot.
  intros (w2 & w1 & _ & Hlist). destruct (Hdown w1) as (e & w' & He). congruence.
Qed.

Lemma keys_4 (news : Dict) (k1 k2 k3 k4 : string) :
  has_keys news [k1; k2; k3; k4] ->
  exists v1 v2 v3 v4,
    dict_lookup news k1 = Some v1 /\ dict_lookup news k2 = Some v2 /\
    dict_lookup news k3 = Some v3 /\ dict_lookup news k4 = Some v4.
Proof.
  intros H.
  apply Forall_cons in H as [[v1 H1] H]. apply Forall_cons in H as [[v2 H2] H].
  apply Forall_cons in H as [[v3 H3] H]. apply Forall_cons in H as [[v4 H4] _].
  by exists v1, v2, v3, v4.
Qed.

Lemma keys_3 (news : Dict) (k1 k2 k3 : string) :
  has_keys news [k1; k2; k3] ->
  exists v1 v2 v3,
    dict_lookup news k1 = Some v1 /\ dict_lookup news k2 = Some v2 /\
    dict_lookup news k3 = Some v3.
Proof.
  intros H.
  apply Forall_cons in H as [[v1 H1] H]. apply Forall_cons in H as [[v2 H2] H].
  apply Forall_cons in H as [[v3 H3] _].
  by exists v1, v2, v3.
Qed.

(** A pass through the body of the first loop returns for an item that
    has the four keys, once its directory is made, whatever the enricher
    and the illustrator do. *)
Lemma coingecko_body_returns token current_date base_dir acc news (s : state W) :
  (forall path w, exists w', fs_makedirs svc path w = (inr tt, w')) ->
  has_keys news ["title"; "description"; "news_site"; "url"] ->
  exists acc' s',
    coingecko_body svc token current_date base_dir acc news s = (inr acc', s') /\
    (illustrator_down svc -> files s' = files s).
Proof.
  intros Hmk (t & d & n & u & Ht & Hd & Hn & Hu)%keys_4.
  unfold coingecko_body.
  set (img_dir := os_path_join base_dir (pretty (fst acc + 1))).
  destruct (Hmk img_dir (world s)) as [w1 Hw1].
  set (s1 := Build_state w1 (files s) (stdout s) (calls s ++ [CMakedirs img_dir])
               (logged s)).
  assert (os_makedirs svc img_dir s = (inr tt, s1)) as Hstep.
  { unfold os_makedirs, invoke. by rewrite Hw1. }
  rewrite (bind_inr _ _ _ _ _ Hstep).
  rewrite (bind_inr _ _ _ _ _ (getitem_some _ _ _ _ Ht)).
  rewrite (bind_inr _ _ _ _ _ (getitem_some _ _ _ _ Hd)).
  destruct (get_sentiment_and_summary_outcomes svc t d s1)
    as ([summary label] & s2 & made & out & Hen & Hf2 & _).
  rewrite (bind_inr _ _ _ _ _ Hen). cbn beta iota.
  rewrite (bind_inr _ _ _ _ _ (getitem_some _ _ _ _ Ht)).
  destruct (illustrator_down_files t (os_path_join img_dir "chart.png") s2)
    as (r & s3 & Hill & Hf3).
  rewrite (bind_inr _ _ _ _ _ Hill).
  rewrite (bind_inr _ _ _ _ _ (getitem_some _ _ _ _ Hn)).
  rewrite (bind_inr _ _ _ _ _ (getitem_some _ _ _ _ Hd)).
  rewrite (bind_inr _ _ _ _ _ (getitem_some _ _ _ _ Hu)).
  eexists _, s3. split; [reflexivity|].
  intros Hdown. destruct (Hf3 Hdown) as [_ ->]. by rewrite Hf2.
Qed.

Lemma cryptopanic_body_returns token current_date base_dir acc news (s : state W) :
  (forall path w, exists w', fs_makedirs svc path w = (inr tt, w')) ->
  has_keys news ["title"; "domain"; "url"] ->
  exists acc' s',
    cryptopanic_body svc token current_date base_dir acc news s = (inr acc', s') /\
    (illustrator_down svc -> files s' = files s).
Proof.
  intros Hmk (t & n & u & Ht & Hn & Hu)%keys_3.
  unfold cryptopanic_body.
  set (img_dir := os_path_join base_dir (pretty (fst acc + 1))).
  destruct (Hmk img_dir (world s)) as [w1 Hw1].
  set (s1 := Build_state w1 (files s) (stdout s) (calls s ++ [CMakedirs img_dir])
               (logged s)).
  assert (os_makedirs svc img_dir s = (inr tt, s1)) as Hstep.
  { unfold os_makedirs, invoke. by rewrite Hw1. }
  rewrite (bind_inr _ _ _ _ _ Hstep).
  rewrite (bind_inr _ _ _ _ _ (getitem_some _ _ _ _ Ht)).
  rewrite (bind_inr _ _ _ _ _ (getitem_some _ _ _ _ Ht)).
  destruct (get_sentiment_and_summary_outcomes svc t t s1)
    as ([summary label] & s2 & made & out & Hen & Hf2 & _).
  rewrite (bind_inr _ _ _ _ _ Hen). cbn beta iota.
  rewrite (bind_inr _ _ _ _ _ (getitem_some _ _ _ _ Ht)).
  destruct (illustrator_down_files t (os_path_join img_dir "chart.png") s2)
    as (r & s3 & Hill & Hf3).
  rewrite (bind_inr _ _ _ _ _ Hill).
  rewrite (bind_inr _ _ _ _ _ (getitem_some _ _ _ _ Hn)).
  rewrite (bind_inr _ _ _ _ _ (getitem_some _ _ _ _ Ht)).
  rewrite (bind_inr _ _ _ _ _ (getitem_some _ _ _ _ Hu)).
  eexists _, s3. split; [reflexivity|].
  intros Hdown. destruct (Hf3 Hdown) as [_ ->]. by rewrite Hf2.
Qed.

Lemma for_each_returns {A B} (body : B -> A -> M W B) (items : list A)
    (acc : B) (s : state W) :
  Forall (fun x => forall acc s,
              exists acc' s',
                body acc x s = (inr acc', s') /\
                (illustrator_down svc -> files s' = files s)) items ->
  exists acc' s',
    for_each body items acc s = (inr acc', s') /\
    (illustrator_down svc -> files s' = files s).
Proof.
  intros Hall. revert acc s.
  induction Hall as [|x items Hx _ IH]; intros acc s; cbn [for_each].
  - by exists acc, s.
  - destruct (Hx acc s) as (acc1 & s1 & Hrun & Hf1).
    destruct (IH acc1 s1) as (acc' & s' & Hrest & Hf).
    exists acc', s'. rewrite (bind_inr _ _ _ _ _ Hrun). split; [done|].
    intros Hdown. by rewrite (Hf Hdown), (Hf1 Hdown).
Qed.

Lemma get_coingecko_news_feed (token : string) (s : state W) body_a body_b :
  feeds svc token body_a body_b ->
  exists s',
    get_coingecko_news svc token s = (inr (processed_a body_a), s') /\
    files s' = files s.
Proof.
  intros [Ha _]. destruct (Ha (world s)) as (r & w' & Hget & Hst & Hjson).
  unfold get_coingecko_news, requests_get, response_json, coingecko_request in *.
  unfold_m. rewrite Hget, Hst. cbn. rewrite Hjson. by eexists.
Qed.

Lemma get_cryptopanic_news_feed (token : string) (s : state W) body_a body_b :
  feeds svc token body_a body_b ->
  Forall (fun news => is_Some (dict_lookup news "kind")) (body_get body_b "results") ->
  exists s',
    get_cryptopanic_news svc token s = (inr (processed_b body_b), s') /\
    files s' = files s.
Proof.
  intros [_ Hb] Hkinds. destruct (Hb (world s)) as (r & w' & Hget & Hst & Hjson).
  unfold get_cryptopanic_news, requests_get, response_json, cryptopanic_request in *.
  unfold bind at 1. unfold invoke. rewrite Hget.
  unfold bind at 1. unfold print. rewrite Hst. cbn [Z.eqb Pos.eqb].
  unfold bind at 1. rewrite Hjson. unfold ret at 1.
  rewrite (keep_news_all_kinds _ _ Hkinds). by eexists.
Qed.

(** C9: every record a run of [process_news] appends has, as its image
    field, the path news/<SYMBOL>-USDT/<MMDDYYYY>/<id>/chart.png built from
    its own id, in every world: what [generate_and_save_image] returned,
    the saved path or the empty string, is not looked at.  And a record is
    appended for every item whatever the generation service does: when
    both feeds answer with items that have their keys and the disk can be
    written, the run returns and saves one record for each item of
    provider A, up to ten, and for each item of provider B marked as
    news; when the illustrator fails for every item, the run writes its
    predictions file and nothing else, so these records name charts that
    were not written. *)
Theorem process_news_image_field (token : string) (s : state W) :
  (forall s',
      process_news svc token s = (inr tt, s') ->
      exists old new,
        stored (files s) (yaml_path_of token (today svc (world s))) old /\
        files s' !! yaml_path_of token (today svc (world s))
        = Some (YamlDoc (YMap (Some (old ++ new)))) /\
        Forall (fun e => image e = "news/" +:+ token +:+ "-USDT/"
                                   +:+ today svc (world s) +:+ "/"
                                   +:+ pretty (id e) +:+ "/chart.png") new) /\
  (forall body_a body_b old,
      feeds svc token body_a body_b ->
      disk_writable svc ->
      Forall (fun news => has_keys news ["title"; "description"; "news_site"; "url"])
        (processed_a body_a) ->
      Forall (fun news => is_Some (dict_lookup news "kind"))
        (body_get body_b "results") ->
      Forall (fun news => has_keys news ["title"; "domain"; "url"])
        (processed_b body_b) ->
      stored (files s) (yaml_path_of token (today svc (world s))) old ->
      exists s' new,
        process_news svc token s = (inr tt, s') /\
        files s' !! yaml_path_of token (today svc (world s))
        = Some (YamlDoc (YMap (Some (old ++ new)))) /\
        length new = (length (processed_a body_a) + length (processed_b body_b))%nat /\
        Forall (fun e => image e = "news/" +:+ token +:+ "-USDT/"
                                   +:+ today svc (world s) +:+ "/"
                                   +:+ pretty (id e) +:+ "/chart.png") new /\
        (illustrator_down svc ->
         files s' = <[yaml_path_of token (today svc (world s))
                      := YamlDoc (YMap (Some (old ++ new)))]> (files s))).
Proof.
  split.
  { intros s' Hrun.
    destruct (process_news_saves _ _ _ _ Hrun) as (old & new & Hold & Hsaved & _ & Himg).
    by exists old, new. }
  intros body_a body_b old Hfeeds (Hmk & Hopen & Hdump) Hkeys_a Hkinds Hkeys_b Hstored.
  unfold process_news.
  set (date := today svc (world s)) in *.
  set (base := base_dir_of token date) in *.
  assert (read_world (today svc) s = (inr date, s)) as Hstep0 by done.
  rewrite (bind_inr _ _ _ _ _ Hstep0).
  destruct (Hmk base (world s)) as [w1 Hw1].
  set (s1 := Build_state w1 (files s) (stdout s) (calls s ++ [CMakedirs base])
               (logged s)).
  assert (os_makedirs svc base s = (inr tt, s1)) as Hstep1.
  { unfold os_makedirs, invoke. by rewrite Hw1. }
  rewrite (bind_inr _ _ _ _ _ Hstep1).
  rewrite (bind_inr _ _ _ _ _ (load_predictions_stored _ s1 old Hstored)).
  cbn beta iota.
  destruct (get_coingecko_news_feed token s1 _ _ Hfeeds) as (s2 & Hcg & Hf2).
  rewrite (bind_inr _ _ _ _ _ Hcg).
  destruct (for_each_returns (coingecko_body svc token date base)
              (processed_a body_a) (py_max (ids old) 0, old) s2)
    as (acc1 & s3 & Hloop1 & Hf3).
  { eapply Forall_impl; [exact Hkeys_a|]. intros news Hk acc s0.
    by apply coingecko_body_returns. }
  rewrite (bind_inr _ _ _ _ _ Hloop1).
  destruct (get_cryptopanic_news_feed token s3 _ _ Hfeeds Hkinds) as (s4 & Hcp & Hf4).
  rewrite (bind_inr _ _ _ _ _ Hcp).
  destruct (for_each_returns (cryptopanic_body svc token date base)
              (processed_b body_b) acc1 s4)
    as (acc2 & s5 & Hloop2 & Hf5).
  { eapply Forall_impl; [exact Hkeys_b|]. intros news Hk acc s0.
    by apply cryptopanic_body_returns. }
  rewrite (bind_inr _ _ _ _ _ Hloop2).
  eapply for_each_appends in Hloop1 as (new1 & -> & Hids1 & Himg1);
    [|apply coingecko_body_appends].
  eapply for_each_appends in Hloop2 as (new2 & -> & Hids2 & Himg2);
    [|apply cryptopanic_body_appends].
  cbn [fst snd] in *.
  destruct (save_predictions_returns svc (os_path_join base "predictions.yaml")
              ((old ++ new1) ++ new2) s5 Hopen Hdump) as (s6 & Hsave & Hf6).
  exists s6, (new1 ++ new2). split; [exact Hsave|].
  rewrite Hf6, app_assoc. split; [apply lookup_insert_eq|]. split.
  { rewrite length_app.
    by rewrite (ids_seqZ_length _ _ _ Hids1), (ids_seqZ_length _ _ _ Hids2). }
  split; [by apply Forall_app|].
  intros Hdown. by rewrite (Hf5 Hdown), Hf4, (Hf3 Hdown), Hf2.
Qed.
End EveryItem.

Lemma process_news_image_field_witness :
  exists new,
    files Scripted.after_degraded_run
    = {[ Scripted.btc_yaml := YamlDoc (YMap (Some new)) ]} /\
    length new = 2%nat /\
    Forall (fun e => image e = "news/BTC-USDT/11032026/" +:+ pretty (id e)
                               +:+ "/chart.png") new /\
    files Scripted.after_degraded_run !! "news/BTC-USDT/11032026/1/chart.png" = None /\
    files Scripted.after_degraded_run !! "news/BTC-USDT/11032026/2/chart.png" = None.
Proof.
  destruct (process_news_image_field (Scripted.services Scripted.openai_down) "BTC"
              (Scripted.init ∅)) as [_ Hevery].
  destruct (Hevery [("data", [Scripted.btc_item])] [("results", [Scripted.panic_item])] [])
    as (s' & new & Hrun & _ & Hlen & Himg & Hfiles).
  - split; intros []; eexists _, tt; repeat split; reflexivity.
  - repeat split; intros path []; by exists tt.
  - repeat constructor; by eexists.
  - repeat constructor; by eexists.
  - repeat constructor; by eexists.
  - right. split; [reflexivity|]. by left.
  - assert (s' = Scripted.after_degraded_run) as ->.
    { unfold Scripted.after_degraded_run. by rewrite Hrun. }
    clear Hrun.
    assert (files Scripted.after_degraded_run
            = {[ Scripted.btc_yaml := YamlDoc (YMap (Some new)) ]}) as Hdisk.
    { rewrite Hfiles; [reflexivity|]. intros []. by exists Scripted.APIError, tt. }
    exists new. split; [exact Hdisk|]. split; [exact Hlen|]. split; [exact Himg|].
    rewrite Hdisk. split; reflexivity.
Defined.

(** ** The path of a chart *)

Section ChartPath.

Lemma list_ascii_inj (a b : string) :
  String.list_ascii_of_string a = String.list_ascii_of_string b -> a = b.
Proof.
  intros H. rewrite <- (String.string_of_list_ascii_of_string a).
  rewrite <- (String.string_of_list_ascii_of_string b). by rewrite H.
Qed.

Lemma string_app_assoc (a b c : string) : (a +:+ b) +:+ c = a +:+ (b +:+ c).
Proof.
  apply list_ascii_inj. rewrite !list_ascii_of_string_app. by rewrite app_assoc.
Qed.

Lemma string_app_inv_tail (a b c : string) : a +:+ c = b +:+ c -> a = b.
Proof.
  intros H. apply list_ascii_inj.
  apply (f_equal String.list_ascii_of_string) in H.
  rewrite !list_ascii_of_string_app in H. by apply app_inv_tail in H.
Qed.

Lemma ends_with_sep_last (s : string) (c : ascii) :
  last (String.list_ascii_of_string s) = Some c ->
  ends_with_sep s = Ascii.eqb c "/"%char.
Proof.
  intros [l Hl]%last_Some. unfold ends_with_sep. by rewrite Hl, rev_unit.
Qed.

Lemma pretty_N_char_no_sep (x : N) : pretty_N_char x <> "/"%char.
Proof. unfold pretty_N_char. by repeat case_match. Qed.

Lemma pretty_N_go_shape (x : N) (s : string) :
  exists pre,
    String.list_ascii_of_string (pretty_N_go x s)
    = pre ++ String.list_ascii_of_string s /\
    Forall (fun c => c <> "/"%char) pre.
Proof.
  revert s. induction (N.lt_wf_0 x) as [x _ IH]; intros s.
  assert (x = 0 \/ 0 < x)%N as [->|Hpos] by lia.
  - exists []. by rewrite pretty_N_go_0.
  - rewrite pretty_N_go_step by done.
    destruct (IH (x `div` 10)%N (N.div_lt x 10 Hpos eq_refl)
                (String (pretty_N_char (x `mod` 10)) s)) as (pre & Hpre & Hall).
    exists (pre ++ [pretty_N_char (x `mod` 10)%N]). split.
    + rewrite Hpre. simpl. by rewrite <- app_assoc.
    + apply Forall_app. split; [done|].
      constructor; [apply pretty_N_char_no_sep|constructor].
Qed.

Lemma pretty_positive_digits (p : positive) :
  exists pre c,
    String.list_ascii_of_string (pretty p) = pre ++ [c] /\
    Forall (fun c => c <> "/"%char) (pre ++ [c]).
Proof.
  unfold pretty, pretty_positive, pretty, pretty_N.
  rewrite decide_False by done.
  rewrite pretty_N_go_step by lia.
  destruct (pretty_N_go_shape (N.pos p `div` 10)%N
              (String (pretty_N_char (N.pos p `mod` 10)) "")) as (pre & Hpre & Hall).
  exists pre, (pretty_N_char (N.pos p `mod` 10)%N). split; [exact Hpre|].
  apply Forall_app. split; [done|].
  constructor; [apply pretty_N_char_no_sep|constructor].
Qed.

(** The decimal form of an id is not empty and holds no separator. *)
Lemma pretty_Z_digits (z : Z) :
  exists c0 body c,
    String.list_ascii_of_string (pretty z) = c0 :: body /\
    last (String.list_ascii_of_string (pretty z)) = Some c /\
    c0 <> "/"%char /\ c <> "/"%char.
Proof.
  assert (forall l : list ascii,
             l <> [] -> Forall (fun c => c <> "/"%char) l ->
             exists c0 body c, l = c0 :: body /\ last l = Some c /\
                               c0 <> "/"%char /\ c <> "/"%char) as Hshape.
  { intros l Hne Hall. destruct l as [|c0 body]; [done|].
    destruct (last (c0 :: body)) as [c|] eqn:Hlast.
    - exists c0, body, c. split; [done|]. split; [done|].
      rewrite Forall_forall in Hall. split; apply Hall.
      + by left.
      + apply last_Some in Hlast as [l' ->]. set_solver.
    - by apply last_None in Hlast. }
  destruct z as [|p|p].
  - by exists "0"%char, [], "0"%char.
  - change (pretty (Z.pos p)) with (pretty p).
    destruct (pretty_positive_digits p) as (pre & c & -> & Hall).
    apply Hshape; [by destruct pre|done].
  - change (pretty (Z.neg p)) with ("-" +:+ pretty p).
    rewrite list_ascii_of_string_app.
    destruct (pretty_positive_digits p) as (pre & c & -> & Hall).
    apply Hshape; [done|]. by constructor.
Qed.

Lemma os_path_join_plain (a b : string) :
  a <> "" -> ends_with_sep a = false -> starts_with_sep b = false ->
  os_path_join a b = a +:+ "/" +:+ b.
Proof.
  intros Ha Hend Hstart. unfold os_path_join. rewrite Hstart, Hend.
  destruct (String.eqb_spec a "") as [->|_]; done.
Qed.

Lemma ends_with_sep_app (a b : string) :
  b <> "" -> ends_with_sep (a +:+ b) = ends_with_sep b.
Proof.
  intros Hb.
  destruct (last (String.list_ascii_of_string b)) as [c|] eqn:Hlast.
  - rewrite (ends_with_sep_last _ c Hlast).
    apply ends_with_sep_last. by apply last_ascii_app.
  - apply last_None in Hlast. destruct b; [done|discriminate Hlast].
Qed.

Lemma starts_with_sep_head (s : string) (c0 : ascii) (body : list ascii) :
  String.list_ascii_of_string s = c0 :: body -> c0 <> "/"%char ->
  starts_with_sep s = false.
Proof.
  destruct s as [|a s]; [done|]. simpl. intros [= -> _] Hne.
  by apply Ascii.eqb_neq.
Qed.

(** X14: for a date that is not empty and does not end with a separator
    (as a formatted date is), the [image] field of a record, built by an
    f-string, is the very path the chart of the item is saved under, built
    with [os.path.join]. *)
Theorem image_field_is_chart_path (token current_date : string) (current_id : Z) :
  current_date <> "" -> ends_with_sep current_date = false ->
  image_field token current_date current_id
  = os_path_join
      (os_path_join (base_dir_of token current_date) (pretty current_id))
      "chart.png".
Proof.
  intros Hdate Hend.
  destruct (pretty_Z_digits current_id) as (c0 & body & c & Hhead & Hlast & Hc0 & Hc).
  assert (ends_with_sep (base_dir_of token current_date) = false) as Hbase.
  { unfold base_dir_of. rewrite <- !string_app_assoc.
    by rewrite ends_with_sep_app. }
  assert (pretty current_id <> "") as Hne.
  { intros E. by rewrite E in Hhead. }
  rewrite (os_path_join_plain (base_dir_of token current_date) (pretty current_id));
    [|done|done|by eapply starts_with_sep_head].
  rewrite os_path_join_plain; [| |
    rewrite <- string_app_assoc, ends_with_sep_app by done;
    rewrite (ends_with_sep_last _ c Hlast); by apply Ascii.eqb_neq|done].
  - unfold image_field, base_dir_of. apply list_ascii_inj.
    rewrite !list_ascii_of_string_app. simpl. by rewrite <- !app_assoc.
  - unfold base_dir_of. done.
Qed.

Lemma image_field_inj (token current_date : string) (i j : Z) :
  image_field token current_date i = image_field token current_date j -> i = j.
Proof.
  unfold image_field. intros H.
  do 5 apply String.app_inj in H.
  apply string_app_inv_tail in H. by apply (inj pretty) in H.
Qed.

(** X15: records with different ids name different charts: in a
    collection whose ids are unique and whose image fields follow the path
    convention, no two records share an image path. *)
Theorem image_paths_distinct (token current_date : string) (l : list EnrichedRecord) :
  NoDup (ids l) ->
  Forall (fun e => image e = image_field token current_date (id e)) l ->
  NoDup (map image l).
Proof.
  intros Hids Hall.
  assert (map image l = map (image_field token current_date) (ids l)) as ->.
  { clear Hids. unfold ids.
    induction Hall as [|e l He _ IH]; [done|]. cbn [map]. by rewrite He, IH. }
  apply NoDup_fmap_2; [|done]. intros i j. apply image_field_inj.
Qed.
End ChartPath.

Lemma image_field_is_chart_path_witness :
  image_field "BTC" "11032026" 1 = MoreScripts.chart_1 /\
  os_path_join (os_path_join (base_dir_of "BTC" "11032026") (pretty 1)) "chart.png"
  = MoreScripts.chart_1.
Proof.
  split; [reflexivity|].
  rewrite <- (image_field_is_chart_path "BTC" "11032026" 1); [reflexivity|done|done].
Defined.

Lemma image_paths_distinct_witness :
  exists l,
    files Scripted.after_first_run !! Scripted.btc_yaml
    = Some (YamlDoc (YMap (Some l))) /\
    ids l = [1; 2] /\
    NoDup (map image l).
Proof.
  eexists. split; [vm_compute; reflexivity|]. split; [reflexivity|].
  apply (image_paths_distinct "BTC" "11032026").
  - apply NoDup_cons. split; [|apply NoDup_singleton].
    intros [H|H]%elem_of_cons; [discriminate H|by apply elem_of_nil in H].
  - repeat constructor.
Defined.

(** ** Further properties of the driver *)

Section DriverMore.
Context {W : Type} (svc : Services W).

Lemma main_loop_step (token : string) (rest : list string) (s : state W) :
  main_loop svc (token :: rest) s
  = main_loop svc rest
      (printed (verdict token (fst (process_news svc token s)))
         (snd (process_news svc token s))).
Proof.
  cbn [main_loop]. unfold_m.
  destruct (process_news svc token s) as [[e|[]] s1]; reflexivity.
Qed.

(** X16: the loop of [main] keeps the invariant of the store: if every
    collection on the disk has strictly increasing, unique ids before it
    runs, so has every collection after it, whatever list of symbols it
    is given and whichever of them fail. *)
Theorem main_loop_keeps_collections (tokens : list string) (s : state W) :
  collections_ok (files s) ->
  collections_ok (files (snd (main_loop svc tokens s))).
Proof.
  revert s. induction tokens as [|token rest IH]; intros s Hok; [done|].
  rewrite main_loop_step. apply IH. cbn [printed files].
  destruct (process_news svc token s) as [r s1] eqn:Hrun.
  by apply (process_news_collections svc token s s1 r).
Qed.

(** X17: [main] raises only when the set-up of the processor does, and
    then before any symbol is processed: nothing is printed and the disk
    is as it was. *)
Theorem main_raises_only_at_setup (s : state W) :
  (forall e w,
      logging_basic_config svc (world s) = (inl e, w) ->
      main svc s
      = (inl e, Build_state w (files s) (stdout s) (calls s ++ [CLoggingConfig])
                  (logged s))) /\
  (forall e s',
      main svc s = (inl e, s') ->
      exists w, logging_basic_config svc (world s) = (inl e, w)).
Proof.
  unfold main, CryptoNewsProcessor_init, bind, invoke. split.
  - by intros e w ->.
  - intros e s'.
    destruct (logging_basic_config svc (world s)) as [[e0|[]] w]; [intros [= <- _]; eauto|].
    intros Hloop.
    destruct (main_loop_runs svc ["BTC"]
                (Build_state w (files s) (stdout s) (calls s ++ [CLoggingConfig])
                   (logged s)))
      as (rs & s1 & Hrun & _).
    rewrite Hrun in Hloop. discriminate.
Qed.

(** X18: processing a list of symbols in two batches is processing it at
    once: the loop over [tokens1 ++ tokens2] ends where the loop over
    [tokens2] ends when started from the state the loop over [tokens1]
    left. *)
Theorem main_loop_app (tokens1 tokens2 : list string) (s : state W) :
  main_loop svc (tokens1 ++ tokens2) s
  = main_loop svc tokens2 (snd (main_loop svc tokens1 s)).
Proof.
  revert s. induction tokens1 as [|token rest IH]; intros s; [done|].
  rewrite <- app_comm_cons, !main_loop_step. apply IH.
Qed.
End DriverMore.

Lemma main_loop_keeps_collections_witness :
  collections_ok
    (files (snd (main_loop (Scripted.services Scripted.btc_dir_locked) ["BTC"; "ETH"]
                   Scripted.after_first_run))).
Proof.
  apply (main_loop_keeps_collections (Scripted.services Scripted.btc_dir_locked)).
  assert (process_news (Scripted.services Scripted.all_up) "BTC" (Scripted.init ∅)
          = (inr tt, Scripted.after_first_run)) as Hrun
    by (vm_compute; reflexivity).
  apply (process_news_collections _ _ _ _ _ Hrun).
  intros path l Hl. vm_compute in Hl. discriminate.
Defined.

Lemma main_raises_only_at_setup_witness :
  main (Scripted.services MoreScripts.no_log_file) (Scripted.init ∅)
  = (inl (Exn "PermissionError"
            "[Errno 13] Permission denied: 'crypto_news_processor.log'"),
     Build_state tt ∅ [] [CLoggingConfig] []).
Proof.
  destruct (main_raises_only_at_setup (Scripted.services MoreScripts.no_log_file)
              (Scripted.init ∅)) as [Hsetup _].
  exact (Hsetup _ tt eq_refl).
Defined.

(** ** [news.py]: the two getters *)

Section Getters.
Import Binance.
Context {W : Type}.

Ltac unfold_b :=
  unfold get_announcements, get_new_listings, fetch_list, try_except_request,
    requests_post, raise_for_status, status_or_na, text_or_na, lift, bind, ret,
    raise, print, after_post in *.
Context (http_post : string -> Payload -> W -> (raised + PostResponse) * W).

(** X19: when the request fails with a [RequestException] whose
    [response] is [None], as it is for a connection failure,
    [get_announcements] does not return the empty list: its handler
    prints its first line and then raises [AttributeError], reading the
    status of [None]. *)
Theorem get_announcements_handler_raises (limit : Z) (s : state W) e w :
  http_post bulletin_url (payload limit "announcement") (world s) = (inl e, w) ->
  is_request_exception e = true ->
  response e = AttrNone ->
  get_announcements http_post limit s
  = (inl (attribute_error "status_code"),
     after_post s w limit "announcement"
       ["Error fetching Binance announcements: " +:+ exn_str (exc e)]).
Proof.
  intros Hpost Hreq Hresp. unfold_b. rewrite Hpost. cbn.
  rewrite Hreq. cbn. by rewrite Hresp.
Qed.

(** X20: [get_new_listings] lets no [RequestException] out: a failure of
    the request, or a status from 400 to 599, gives the empty list after
    one printed line, and whatever it raises is not a
    [RequestException]. *)
Theorem get_new_listings_swallows_request_exceptions (limit : Z) (s : state W) :
  (forall e s', get_new_listings http_post limit s = (inl e, s') ->
                is_request_exception e = false) /\
  (forall e w,
      http_post bulletin_url (payload limit "new_crypto") (world s) = (inl e, w) ->
      is_request_exception e = true ->
      get_new_listings http_post limit s
      = (inr (JArr []),
         after_post s w limit "new_crypto"
           ["Error fetching new listings: " +:+ exn_str (exc e)])) /\
  (forall r w,
      http_post bulletin_url (payload limit "new_crypto") (world s) = (inr r, w) ->
      is_error_status (status_code r) = true ->
      get_new_listings http_post limit s
      = (inr (JArr []),
         after_post s w limit "new_crypto"
           ["Error fetching new listings: " +:+ error_message r])).
Proof.
  split; [|split].
  - intros e s'. unfold_b.
    destruct (http_post _ _ (world s)) as [[e0|r] w]; cbn.
    { destruct (is_request_exception e0) eqn:E; cbn; [done|]. by intros [= <- _]. }
    destruct (is_error_status (status_code r)); cbn; [done|].
    destruct (json r) as [e1|data]; cbn.
    { destruct (is_request_exception e1) eqn:E; cbn; [done|]. by intros [= <- _]. }
    destruct (py_get data "data" (JObj [])) as [e2|inner] eqn:E2; cbn.
    { destruct data; cbn in E2; try (injection E2 as <-; cbn; by intros [= <- _]).
      discriminate. }
    destruct (py_get inner "list" (JArr [])) as [e3|v] eqn:E3; cbn; [|done].
    destruct inner; cbn in E3; try (injection E3 as <-; cbn; by intros [= <- _]).
    discriminate.
  - intros e w Hpost Hreq. unfold_b. rewrite Hpost. cbn. by rewrite Hreq.
  - intros r w Hpost Hst. unfold_b. rewrite Hpost. cbn. by rewrite Hst.
Qed.

(** X21: on a status from 400 to 599 [get_announcements] returns the
    empty list without decoding the body, having printed three lines: the
    error, the status code and the text of the response. *)
Theorem get_announcements_http_error (limit : Z) (s : state W) r w :
  http_post bulletin_url (payload limit "announcement") (world s) = (inr r, w) ->
  is_error_status (status_code r) = true ->
  get_announcements http_post limit s
  = (inr (JArr []),
     after_post s w limit "announcement"
       ["Error fetching Binance announcements: " +:+ error_message r;
        "Response status code: " +:+ pretty (status_code r);
        "Response text: " +:+ text r]).
Proof.
  intros Hpost Hst. unfold_b. rewrite Hpost. cbn. rewrite Hst. cbn.
  by rewrite <- !app_assoc.
Qed.

(** What both getters return on a response that is no error and decodes
    to [data]. *)
Lemma getters_on_success (limit : Z) (category : string) (s : state W) r w data :
  http_post bulletin_url (payload limit category) (world s) = (inr r, w) ->
  is_error_status (status_code r) = false ->
  json r = inr data ->
  fetch_list http_post limit category s
  = (match py_get data "data" (JObj []) with
     | inl e => inl e
     | inr inner => py_get inner "list" (JArr [])
     end, after_post s w limit category []).
Proof.
  intros Hpost Hst Hjson. unfold_b. rewrite Hpost. cbn. rewrite Hst. cbn.
  rewrite Hjson. cbn. rewrite app_nil_r.
  destruct (py_get data "data" (JObj [])) as [e|inner]; cbn; [done|].
  by destruct (py_get inner "list" (JArr [])).
Qed.

Lemma try_builtin {A} (body : B W A) (handler : raised -> B W A) (s : state W) r s' :
  body s = (r, s') ->
  match r with inl e => is_request_exception e = false | inr _ => True end ->
  try_except_request body handler s = (r, s').
Proof.
  intros Hbody Hr. unfold try_except_request. rewrite Hbody.
  destruct r as [e|a]; [by rewrite Hr|done].
Qed.

Lemma fetch_list_member (limit : Z) (category : string)
    (s : state W) r w members (handler : raised -> B W json_value) :
  http_post bulletin_url (payload limit category) (world s) = (inr r, w) ->
  is_error_status (status_code r) = false ->
  json r = inr (JObj members) ->
  returns_list_member
    (try_except_request (fetch_list http_post limit category) handler)
    s (after_post s w limit category []) members.
Proof.
  intros Hpost Hst Hjson.
  pose proof (getters_on_success _ _ _ _ _ _ Hpost Hst Hjson) as Hfetch.
  cbn in Hfetch. split; [|split].
  - intros Hdata. rewrite Hdata in Hfetch. by apply try_builtin.
  - intros inner Hdata Hlist. rewrite Hdata in Hfetch. cbn in Hfetch.
    rewrite Hlist in Hfetch. by apply try_builtin.
  - intros inner v Hdata Hlist. rewrite Hdata in Hfetch. cbn in Hfetch.
    rewrite Hlist in Hfetch. by apply try_builtin.
Qed.

(** X22: on a response that is no error and decodes to an object, both
    getters return the [list] member of the [data] member as it is,
    however many entries it has and whatever [limit] was asked for, and
    the empty list when either member is absent; nothing is printed. *)
Theorem getters_return_list_member (limit : Z) (s : state W) r w members :
  is_error_status (status_code r) = false ->
  json r = inr (JObj members) ->
  (http_post bulletin_url (payload limit "announcement") (world s) = (inr r, w) ->
   returns_list_member (get_announcements http_post limit)
     s (after_post s w limit "announcement" []) members) /\
  (http_post bulletin_url (payload limit "new_crypto") (world s) = (inr r, w) ->
   returns_list_member (get_new_listings http_post limit)
     s (after_post s w limit "new_crypto" []) members).
Proof.
  intros Hst Hjson. split; intros Hpost.
  - unfold get_announcements. by apply fetch_list_member with r.
  - unfold get_new_listings. by apply fetch_list_member with r.
Qed.

(** X23: when the [data] member of the decoded body is not an object
    ([null], say), both getters raise [AttributeError]: it is no
    [RequestException], so the handler does not catch it and nothing is
    printed. *)
Theorem getters_raise_on_null_data (limit : Z) (s : state W) r w members v :
  is_error_status (status_code r) = false ->
  json r = inr (JObj members) ->
  member members "data" = Some v ->
  (forall inner, v <> JObj inner) ->
  let e := builtin (Exn "AttributeError"
                      ("'" +:+ type_name v +:+ "' object has no attribute 'get'")) in
  (http_post bulletin_url (payload limit "announcement") (world s) = (inr r, w) ->
   get_announcements http_post limit s
   = (inl e, after_post s w limit "announcement" [])) /\
  (http_post bulletin_url (payload limit "new_crypto") (world s) = (inr r, w) ->
   get_new_listings http_post limit s
   = (inl e, after_post s w limit "new_crypto" [])).
Proof.
  intros Hst Hjson Hdata Hv e.
  assert (forall category,
             http_post bulletin_url (payload limit category) (world s) = (inr r, w) ->
             fetch_list http_post limit category s
             = (inl e, after_post s w limit category [])) as Hfetch.
  { intros category Hpost.
    rewrite (getters_on_success _ _ _ _ _ _ Hpost Hst Hjson). cbn. rewrite Hdata.
    destruct v; try done. by destruct (Hv members0). }
  split; intros Hpost.
  - unfold get_announcements. by apply try_builtin; [apply Hfetch|].
  - unfold get_new_listings. by apply try_builtin; [apply Hfetch|].
Qed.

(** X24: whatever happens, each getter sends exactly one request, to the
    bulletin endpoint, with [limit] as the page size and its own category;
    and no exception that leaves [get_announcements] is a
    [RequestException]. *)
Theorem getters_send_one_request (limit : Z) (s : state W) :
  (forall r s',
      get_announcements http_post limit s = (r, s') ->
      posts s' = posts s ++ [(bulletin_url, payload limit "announcement")] /\
      dict_lookup (payload limit "announcement") "pageSize" = Some (PInt limit) /\
      forall e, r = inl e -> is_request_exception e = false) /\
  (forall r s',
      get_new_listings http_post limit s = (r, s') ->
      posts s' = posts s ++ [(bulletin_url, payload limit "new_crypto")] /\
      dict_lookup (payload limit "new_crypto") "pageSize" = Some (PInt limit)).
Proof.
  split; intros r0 s'; unfold_b.
  - destruct (http_post _ _ (world s)) as [[e0|r] w]; cbn.
    { destruct (is_request_exception e0) eqn:E; cbn.
      - destruct (response e0); cbn; intros [= <- <-]; repeat split; by intros ? [= <-].
      - intros [= <- <-]. repeat split. by intros ? [= <-]. }
    destruct (is_error_status (status_code r)); cbn.
    { intros [= <- <-]. repeat split. by intros ? [=]. }
    destruct (json r) as [e1|data]; cbn.
    { destruct (is_request_exception e1) eqn:E; cbn.
      - destruct (response e1); cbn; intros [= <- <-]; repeat split; by intros ? [= <-].
      - intros [= <- <-]. repeat split. by intros ? [= <-]. }
    destruct data; cbn; try (intros [= <- <-]; repeat split; by intros ? [= <-]).
    destruct (member members "data") as [[]|]; cbn;
      intros [= <- <-]; repeat split; by intros ? [= <-].
  - destruct (http_post _ _ (world s)) as [[e0|r] w]; cbn.
    { destruct (is_request_exception e0); cbn; by intros [= <- <-]. }
    destruct (is_error_status (status_code r)); cbn; [by intros [= <- <-]|].
    destruct (json r) as [e1|data]; cbn.
    { destruct (is_request_exception e1); cbn; by intros [= <- <-]. }
    destruct data; cbn; try by intros [= <- <-].
    destruct (member members "data") as [[]|]; cbn; by intros [= <- <-].
Qed.
End Getters.

(** ** [news.py]: the listing *)

Section Listing.
Import Binance.
Context {W : Type}.
Context (strftime_local : Z -> exn + string).

Ltac unfold_f :=
  unfold format_item, date_line, summary_line, lift, bind, ret, raise, print in *.

Lemma printing_nil (s : state W) : printing s [] = s.
Proof. unfold printing. rewrite app_nil_r. by destruct s. Qed.

Lemma printing_app (s : state W) (l1 l2 : list string) :
  printing (printing s l1) l2 = printing s (l1 ++ l2).
Proof. unfold printing. cbn. by rewrite app_assoc. Qed.

Lemma format_item_plain (item : Dict) (s : state W) :
  plain_item item ->
  format_item strftime_local item s = (inr tt, printing s (item_lines item)).
Proof.
  intros [Hdate Hsum]. unfold_f. unfold item_lines, printing. rewrite Hdate. cbn.
  destruct (dict_lookup item "summary") as [[| | |text]|]; cbn in *;
    rewrite ?Hsum; cbn; rewrite <- ?app_assoc; try done.
  destruct (negb (String.eqb text "")); cbn; by rewrite <- ?app_assoc.
Qed.

Lemma format_items_plain (items : list Dict) (s : state W) :
  Forall plain_item items ->
  format_items strftime_local items s
  = (inr tt, printing s (concat (map item_lines items))).
Proof.
  intros Hall. revert s. induction Hall as [|item items Hitem _ IH]; intros s.
  - cbn. by rewrite printing_nil.
  - cbn [format_items]. unfold bind at 1. rewrite (format_item_plain _ _ Hitem).
    rewrite IH, printing_app. done.
Qed.

Lemma format_items_app (pre rest : list Dict) (s : state W) :
  Forall plain_item pre ->
  format_items strftime_local (pre ++ rest) s
  = format_items strftime_local rest (printing s (concat (map item_lines pre))).
Proof.
  intros Hall. revert s. induction Hall as [|item items Hitem _ IH]; intros s.
  - cbn. by rewrite printing_nil.
  - cbn [app format_items]. unfold bind at 1. rewrite (format_item_plain _ _ Hitem).
    rewrite IH, printing_app. done.
Qed.

Lemma item_lines_length (item : Dict) :
  plain_item item ->
  length (item_lines item) = if has_summary item then 4%nat else 3%nat.
Proof.
  intros [_ Hsum]. unfold item_lines, has_summary.
  destruct (dict_lookup item "summary") as [[| | |text]|]; cbn in *;
    rewrite ?Hsum; try done.
  by destruct (negb (String.eqb text "")).
Qed.

(** X25: on items that have no [publishTime] and whose [summary], if
    any, is a string or falsy, [format_announcements] never raises: for an
    empty list it prints "No items found" and nothing else; otherwise it
    prints for each item, in order, the separator, the title, the summary
    excerpt when the summary is not empty, and the URL: four lines for an
    item with a summary and three for one without. *)
Theorem format_announcements_plain (items : list Dict) (s : state W) :
  Forall plain_item items ->
  format_announcements strftime_local items s
  = (inr tt,
     printing s (match items with
                 | [] => ["No items found"]
                 | _ => concat (map item_lines items)
                 end)) /\
  Forall (fun item => length (item_lines item)
                      = if has_summary item then 4%nat else 3%nat) items.
Proof.
  intros Hall. split.
  - destruct items as [|item rest]; [done|].
    unfold format_announcements. by apply format_items_plain.
  - eapply Forall_impl; [exact Hall|]. apply item_lines_length.
Qed.

Lemma take_chars_prefix (n : nat) (l : list ascii) :
  (count_chars (take_chars n l) <= n)%nat /\
  ((count_chars l <= n)%nat -> take_chars n l = l).
Proof.
  revert n. induction l as [|a l IH]; intros n; cbn; [split; [lia|done]|].
  destruct (is_continuation a) eqn:E; cbn; rewrite ?E.
  - destruct (IH n) as [Hlen Hsame]. split; [done|].
    intros Hle. by rewrite Hsame.
  - destruct n as [|n]; cbn; rewrite ?E; [split; lia|].
    destruct (IH n) as [Hlen Hsame]. split; [lia|].
    intros Hle. rewrite Hsame by lia. done.
Qed.

Lemma py_prefix_spec (n : nat) (text : string) :
  (py_len (py_prefix n text) <= n)%nat /\
  ((py_len text <= n)%nat -> py_prefix n text = text).
Proof.
  unfold py_len, py_prefix.
  rewrite String.list_ascii_of_string_of_list_ascii.
  destruct (take_chars_prefix n (String.list_ascii_of_string text)) as [Hlen Hsame].
  split; [done|]. intros Hle.
  by rewrite Hsame, String.string_of_list_ascii_of_string.
Qed.

(** X26: the summary line of an item shows at most the first 200
    characters of the summary, counted as Python counts them and not in
    bytes, and the three dots follow even a summary that was short enough
    not to be cut. *)
Theorem summary_excerpt (item : Dict) (text : string) (s : state W) :
  dict_lookup item "publishTime" = None ->
  dict_lookup item "summary" = Some (PStr text) ->
  text <> "" ->
  format_item strftime_local item s
  = (inr tt,
     printing s [separator;
                 "Title: " +:+ get_or item "title" "N/A";
                 "Summary: " +:+ py_prefix 200 text +:+ "...";
                 "URL: " +:+ get_or item "url" "N/A"]) /\
  (py_len (py_prefix 200 text) <= 200)%nat /\
  ((py_len text <= 200)%nat -> py_prefix 200 text = text).
Proof.
  intros Hdate Hsum Hne. split; [|apply py_prefix_spec].
  rewrite format_item_plain by (split; [done|by rewrite Hsum]).
  unfold item_lines. rewrite Hsum. cbn [truthy].
  destruct (String.eqb_spec text "") as [->|_]; done.
Qed.

(** X27: one item whose [publishTime] is a string or [None] stops the
    listing: the items before it are printed, then its separator and its
    title, then [TypeError] is raised, and no item after it is printed. *)
Theorem format_announcements_aborts (pre rest : list Dict) (item : Dict)
    (v : pyval) (s : state W) :
  Forall plain_item pre ->
  dict_lookup item "publishTime" = Some v ->
  (v = PNone \/ exists t, v = PStr t) ->
  exists msg,
    format_announcements strftime_local (pre ++ item :: rest) s
    = (inl (builtin (Exn "TypeError" msg)),
       printing s (concat (map item_lines pre)
                   ++ [separator; "Title: " +:+ get_or item "title" "N/A"])).
Proof.
  intros Hpre Hdate Hv.
  assert (exists msg,
             forall s0 : state W,
               format_items strftime_local (item :: rest) s0
               = (inl (builtin (Exn "TypeError" msg)),
                  printing s0 [separator; "Title: " +:+ get_or item "title" "N/A"]))
    as [msg Hitem].
  { destruct Hv as [->|[t ->]]; eexists; intros s0; cbn [format_items];
      unfold_f; rewrite Hdate; cbn; unfold printing; by rewrite <- app_assoc. }
  exists msg.
  assert (format_announcements strftime_local (pre ++ item :: rest) s
          = format_items strftime_local (pre ++ item :: rest) s) as ->.
  { unfold format_announcements. by destruct pre. }
  by rewrite format_items_app, Hitem, printing_app.
Qed.
End Listing.

(** ** [news.py]: the theorems at scripted answers of the endpoint *)

Lemma get_announcements_handler_raises_witness :
  Binance.get_announcements Binance.unreachable 5 Binance.start
  = (inl (Binance.attribute_error "status_code"),
     Binance.after_post Binance.start tt 5 "announcement"
       ["Error fetching Binance announcements: " +:+
        exn_str (Binance.exc Binance.connection_error)]).
Proof.
  apply (get_announcements_handler_raises Binance.unreachable 5 Binance.start
           Binance.connection_error tt); reflexivity.
Defined.

Lemma get_new_listings_swallows_request_exceptions_witness :
  Binance.get_new_listings Binance.unreachable 3 Binance.start
  = (inr (Binance.JArr []),
     Binance.after_post Binance.start tt 3 "new_crypto"
       ["Error fetching new listings: " +:+
        exn_str (Binance.exc Binance.connection_error)]) /\
  Binance.get_new_listings (Binance.answers Binance.forbidden) 3 Binance.start
  = (inr (Binance.JArr []),
     Binance.after_post Binance.start tt 3 "new_crypto"
       ["Error fetching new listings: " +:+
        Binance.error_message Binance.forbidden]).
Proof.
  split.
  - destruct (get_new_listings_swallows_request_exceptions
                Binance.unreachable 3 Binance.start) as (_ & Hfail & _).
    apply (Hfail Binance.connection_error tt); reflexivity.
  - destruct (get_new_listings_swallows_request_exceptions
                (Binance.answers Binance.forbidden) 3 Binance.start) as (_ & _ & Hstatus).
    apply (Hstatus Binance.forbidden tt); reflexivity.
Defined.

Lemma get_announcements_http_error_witness :
  Binance.get_announcements (Binance.answers Binance.forbidden) 5 Binance.start
  = (inr (Binance.JArr []),
     Binance.after_post Binance.start tt 5 "announcement"
       ["Error fetching Binance announcements: " +:+
        Binance.error_message Binance.forbidden;
        "Response status code: " +:+ pretty (Binance.status_code Binance.forbidden);
        "Response text: " +:+ Binance.text Binance.forbidden]).
Proof.
  apply (get_announcements_http_error (Binance.answers Binance.forbidden) 5
           Binance.start Binance.forbidden tt); reflexivity.
Defined.

(** Asked for two entries, both getters return the three the endpoint
    sent. *)
Lemma getters_return_list_member_witness :
  Binance.get_announcements (Binance.answers Binance.success) 2 Binance.start
  = (inr Binance.listing, Binance.after_post Binance.start tt 2 "announcement" []) /\
  Binance.get_new_listings (Binance.answers Binance.success) 2 Binance.start
  = (inr Binance.listing, Binance.after_post Binance.start tt 2 "new_crypto" []).
Proof.
  destruct (getters_return_list_member (Binance.answers Binance.success) 2
              Binance.start Binance.success tt
              [("code", Binance.JStr "000000");
               ("data", Binance.JObj [("list", Binance.listing)])]
              eq_refl eq_refl) as [Hann Hnew].
  split.
  - destruct (Hann eq_refl) as (_ & _ & Hlist).
    apply (Hlist [("list", Binance.listing)]); reflexivity.
  - destruct (Hnew eq_refl) as (_ & _ & Hlist).
    apply (Hlist [("list", Binance.listing)]); reflexivity.
Defined.

Lemma getters_raise_on_null_data_witness :
  Binance.get_announcements (Binance.answers Binance.null_data) 5 Binance.start
  = (inl (Binance.builtin
            (Exn "AttributeError" "'NoneType' object has no attribute 'get'")),
     Binance.after_post Binance.start tt 5 "announcement" []) /\
  Binance.get_new_listings (Binance.answers Binance.null_data) 5 Binance.start
  = (inl (Binance.builtin
            (Exn "AttributeError" "'NoneType' object has no attribute 'get'")),
     Binance.after_post Binance.start tt 5 "new_crypto" []).
Proof.
  assert (forall inner, Binance.JNull <> Binance.JObj inner) as Hnull
    by (intros inner; discriminate).
  destruct (getters_raise_on_null_data (Binance.answers Binance.null_data) 5
              Binance.start Binance.null_data tt
              [("code", Binance.JStr "000002"); ("data", Binance.JNull)]
              Binance.JNull eq_refl eq_refl eq_refl Hnull) as [Hann Hnew].
  split; [exact (Hann eq_refl)|exact (Hnew eq_refl)].
Defined.

Lemma getters_send_one_request_witness :
  Binance.posts (snd (Binance.get_announcements Binance.unreachable 7 Binance.start))
  = [(Binance.bulletin_url, Binance.payload 7 "announcement")] /\
  Binance.posts (snd (Binance.get_new_listings (Binance.answers Binance.null_data) 7
                        Binance.start))
  = [(Binance.bulletin_url, Binance.payload 7 "new_crypto")].
Proof.
  destruct (getters_send_one_request Binance.unreachable 7 Binance.start) as [Hann _].
  destruct (getters_send_one_request (Binance.answers Binance.null_data) 7
              Binance.start) as [_ Hnew].
  split.
  - destruct (Binance.get_announcements Binance.unreachable 7 Binance.start)
      as [r s'] eqn:Hrun.
    destruct (Hann r s' eq_refl) as [Hposts _]. exact Hposts.
  - destruct (Binance.get_new_listings (Binance.answers Binance.null_data) 7
                Binance.start) as [r s'] eqn:Hrun.
    destruct (Hnew r s' eq_refl) as [Hposts _]. exact Hposts.
Defined.

(** A clock that always reads the epoch. *)
Lemma format_announcements_plain_witness :
  Binance.format_announcements (fun _ => inr "1970-01-01 00:00:00")
    [Binance.short_item; Binance.short_item] Binance.start
  = (inr tt,
     Binance.printing Binance.start
       (Binance.item_lines Binance.short_item
        ++ Binance.item_lines Binance.short_item ++ [])) /\
  length (Binance.item_lines Binance.short_item) = 4%nat.
Proof.
  assert (Binance.plain_item Binance.short_item) as Hplain
    by (split; [reflexivity|exact I]).
  destruct (format_announcements_plain (fun _ => inr "1970-01-01 00:00:00")
              [Binance.short_item; Binance.short_item] Binance.start
              (Forall_cons_2 _ _ _ Hplain (Forall_cons_2 _ _ _ Hplain (Forall_nil_2 _))))
    as [Hrun Hlen].
  split; [exact Hrun|].
  exact (Forall_inv Hlen).
Defined.

Lemma summary_excerpt_witness :
  Binance.format_item (fun _ => inr "1970-01-01 00:00:00")
    Binance.accented_item Binance.start
  = (inr tt,
     Binance.printing Binance.start
       [Binance.separator;
        "Title: Binance Will List X";
        "Summary: " +:+ Binance.repeat_string Binance.e_acute 101 +:+ "...";
        "URL: N/A"]) /\
  String.length (Binance.repeat_string Binance.e_acute 101) = 202%nat.
Proof.
  assert (Binance.repeat_string Binance.e_acute 101 <> "") as Hne by discriminate.
  assert (py_len (Binance.repeat_string Binance.e_acute 101) <= 200)%nat as Hlen
    by (vm_compute; lia).
  destruct (summary_excerpt (fun _ => inr "1970-01-01 00:00:00")
              Binance.accented_item (Binance.repeat_string Binance.e_acute 101)
              Binance.start eq_refl eq_refl Hne)
    as (Hrun & _ & Hwhole).
  split; [|reflexivity].
  rewrite Hrun, (Hwhole Hlen). reflexivity.
Defined.

Lemma format_announcements_aborts_witness :
  exists msg,
    Binance.format_announcements (fun _ => inr "1970-01-01 00:00:00")
      ([Binance.short_item] ++ Binance.dated_item :: [Binance.short_item])
      Binance.start
    = (inl (Binance.builtin (Exn "TypeError" msg)),
       Binance.printing Binance.start
         (concat (map Binance.item_lines [Binance.short_item])
          ++ [Binance.separator;
              "Title: " +:+ Binance.get_or Binance.dated_item "title" "N/A"])).
Proof.
  assert (Binance.plain_item Binance.short_item) as Hplain
    by (split; [reflexivity|exact I]).
  apply (format_announcements_aborts (fun _ => inr "1970-01-01 00:00:00")
           [Binance.short_item] [Binance.short_item] Binance.dated_item
           (PStr "yesterday") Binance.start
           (Forall_cons_2 _ _ _ Hplain (Forall_nil_2 _)) eq_refl).
  right. exists "yesterday". reflexivity.
Defined.
